(** * Split-kernel ray scheduling: background/buffer-update and lamp-emission stages

    A shallow embedding of
      intern/cycles/kernel/split/kernel_background_buffer_update.h
      intern/cycles/kernel/split/kernel_lamp_emission.h
    One lane (work item) of a kernel is a function on the global state; a
    stage runs its lanes one after the other.  Per-slot data is only touched
    by the lane that dequeued the slot, the shared counters are only mutated
    atomically, so every parallel execution is one of these sequential runs. *)

From stdpp Require Import base numbers list list_numbers functions.

Open Scope Z_scope.

(** ** Machine integers *)

(** [unsigned int] is 32 bits wide: arithmetic wraps modulo 2^32. *)
Definition uint32 (z : Z) : Z := z mod 2 ^ 32.

(** C's [/] and [%] on [int] truncate towards zero.  Division by zero is
    undefined in C; [Z.quot _ 0 = 0] and [Z.rem a 0 = a] stand for it here. *)
Definition cdiv (a b : Z) : Z := Z.quot a b.
Definition cmod (a b : Z) : Z := Z.rem a b.

(** [a & mask] used as a C condition. *)
Definition flag_set (a mask : Z) : bool := negb (Z.land a mask =? 0).

(** ** Ray states and queues (enumerations of kernel_types.h) *)

Inductive RayState : Set :=
  | RAY_ACTIVE
  | RAY_INACTIVE
  | RAY_UPDATE_BUFFER
  | RAY_HIT_BACKGROUND
  | RAY_TO_REGENERATE
  | RAY_REGENERATED.

#[global] Instance RayState_eq_dec : EqDecision RayState.
Proof. solve_decision. Defined.

Inductive QueueId : Set :=
  | QUEUE_ACTIVE_AND_REGENERATED_RAYS
  | QUEUE_HITBG_BUFF_UPDATE_TOREGEN_RAYS.

#[global] Instance QueueId_eq_dec : EqDecision QueueId.
Proof. solve_decision. Defined.

(** ** Build configuration: the preprocessor switches of the two kernels *)

Record Build : Set := {
  WORK_STEALING : bool;       (* __WORK_STEALING__ *)
  PASSES : bool;              (* __PASSES__ *)
  BACKGROUND : bool;          (* __BACKGROUND__ *)
  KERNEL_DEBUG : bool;        (* __KERNEL_DEBUG__ *)
  COMPUTE_DEVICE_GPU : bool;  (* __COMPUTE_DEVICE_GPU__ *)
  LAMP_MIS : bool             (* __LAMP_MIS__ *)
}.

(** ** Vectors *)

Record float3_of (F : Type) : Type := make_float3 { x3 : F; y3 : F; z3 : F }.
Record float4_of (F : Type) : Type := make_float4 { x4 : F; y4 : F; z4 : F; w4 : F }.
Arguments make_float3 {F} _ _ _.
Arguments x3 {F} _.
Arguments y3 {F} _.
Arguments z3 {F} _.
Arguments make_float4 {F} _ _ _ _.
Arguments x4 {F} _.
Arguments y4 {F} _.
Arguments z4 {F} _.
Arguments w4 {F} _.

(** ** Opaque kernel types

    Types and constants of the kernel headers that the two stages use but do
    not define: single-precision floats with the operators the stages apply
    to them, the radiance accumulator, differentials, the random number
    cursor, the work pool, and three constants of kernel_types.h. *)

Class KernelTypes : Type := {
  float : Type;
  f0 : float;                                   (* 0.0f *)
  f1 : float;                                   (* 1.0f *)
  fadd : float -> float -> float;
  fsub : float -> float -> float;
  fmul : float -> float -> float;
  fneq : float -> float -> bool;                (* != *)
  PathRadiance : Type;
  PathStateRest : Type;
  differential3 : Type;
  RNG : Type;
  DebugData : Type;
  WorkPool : Type;
  PATH_RAY_CAMERA : Z;
  PASS_BACKGROUND : Z;
  QUEUE_EMPTY_SLOT : Z
}.

Section Types.
Context `{KT : KernelTypes}.

Definition float3 : Type := float3_of float.
Definition float4 : Type := float4_of float.

(** float3 operators of util_math.h, componentwise. *)
Definition float3_sub (a b : float3) : float3 :=
  make_float3 (fsub (x3 a) (x3 b)) (fsub (y3 a) (y3 b)) (fsub (z3 a) (z3 b)).
Definition float3_scale (f : float) (a : float3) : float3 :=
  make_float3 (fmul f (x3 a)) (fmul f (y3 a)) (fmul f (z3 a)).

Record Ray : Type := {
  P : float3;
  D : float3;
  t : float;
  time : float;
  dP : differential3;
  dD : differential3
}.

(** The fields of PathState the stages read or write; the rest is opaque. *)
Record PathState : Type := {
  flag : Z;
  bounce : Z;
  ray_t : float;
  path_state_rest : PathStateRest
}.

(** One ray slot: entry [ray_index] of each per-ray array of split_state. *)
Record RaySlot : Type := {
  ray_state : RayState;
  path_state : PathState;
  path_radiance : PathRadiance;
  ray : Ray;
  throughput : float3;
  L_transparent : float;
  rng : RNG;
  work_array : Z;
  isect_t : float;
  debug_data : DebugData
}.

(** kernel_data: the constant render settings the stages consult. *)
Record KernelData : Set := {
  background_transparent : Z;
  film_pass_flag : Z;
  film_pass_stride : Z;
  film_use_light_pass : Z;
  integrator_use_lamp_mis : Z
}.

(** The scalar members of split_params. *)
Record SplitParams : Set := {
  sp_w : Z;
  sp_h : Z;
  sp_x : Z;
  sp_y : Z;
  sp_stride : Z;
  rng_offset_x : Z;
  rng_offset_y : Z;
  rng_stride : Z;
  parallel_samples : Z;
  start_sample : Z;
  end_sample : Z;
  num_samples : Z;
  queue_size : Z
}.

(** What a lane does that can be observed from outside its slot, in program
    order: the states it assigns, the call of the background shader, the
    writes to the output buffer, the end of a random stream and the set-up
    of a camera ray.  [buffer] and [rng_state] are the offsets of the two
    pointers from the start of their arrays. *)
Inductive Event : Type :=
  | EvAssignRayState (ray_index : Z) (s : RayState)
  | EvIndirectBackground (ray_index : Z)
  | EvWriteLightPasses (buffer : Z) (L : PathRadiance) (sample : Z)
  | EvWriteDebugPasses (buffer : Z) (sample : Z)
  | EvWritePassFloat4 (buffer : Z) (sample : Z) (v : float4)
  | EvRngEnd (rng_state : Z) (r : RNG)
  | EvPathTraceSetup (rng_state : Z) (sample pixel_x pixel_y : Z).

End Types.

(** ** External collaborators

    The functions the two kernels call and do not define: shading, radiance
    accumulation, the camera and its random stream, the work pool and the
    dequeue helper.  The kernels are embedded over any implementation. *)

Class Collaborators `{KT : KernelTypes} : Type := {
  average : float3 -> float;
  indirect_background : PathState -> Ray -> float3;
  path_radiance_accum_background :
    PathRadiance -> float3 -> float3 -> Z -> PathRadiance;
  path_radiance_clamp_and_sum : PathRadiance -> float3 * PathRadiance;
  path_radiance_init : Z -> PathRadiance;
  path_radiance_accum_emission :
    PathRadiance -> float3 -> float3 -> Z -> PathRadiance;
  indirect_lamp_emission : PathState -> Ray -> option float3;
  (* reads the random state behind [rng_state], which earlier calls may
     have written: the calls so far are its first argument *)
  kernel_path_trace_setup :
    list Event -> Z -> Z -> Z -> Z -> RNG -> Ray -> RNG * Ray;
  path_state_fresh : PathState -> RNG -> Z -> Ray -> PathState;
  debug_data_init : DebugData;
  (* kernel_work_stealing.h *)
  get_next_work : WorkPool -> Z -> Z -> Z -> Z -> Z -> Z * Z * WorkPool;
  get_my_sample : Z -> Z -> Z -> Z -> Z -> Z;
  get_pixel_tile_position :
    Z -> Z -> Z -> Z -> Z -> Z -> Z -> Z * Z * Z * Z;
  (* kernel_queues.h: the slot a lane reads from a queue, and the queue's
     backing array afterwards *)
  get_ray_index : Z -> QueueId -> (QueueId -> list Z) -> Z -> Z ->
                  Z * (QueueId -> list Z)
}.

(** ** The background/buffer-update kernel *)

Section Kernels.
Context `{CO : Collaborators}.
Variable build : Build.
Variable kernel_data : KernelData.
Variable split_params : SplitParams.

(** Global state the stages share: the ray pool (the per-ray arrays of
    split_state), the queues with their occupancy counters, the work pool,
    use_queues_flag[0], and the calls made so far. *)
Record Globals : Type := {
  pool : list RaySlot;
  queue_data : QueueId -> list Z;
  queue_index : QueueId -> Z;
  work_pool_wgs : WorkPool;
  use_queues_flag : Z;
  trace : list Event
}.

(** The local variables of one lane of kernel_background_buffer_update. *)
Record Locals : Set := {
  my_work : Z;
  sample : Z;
  tile_x : Z;
  tile_y : Z;
  pixel_x : Z;
  pixel_y : Z;
  my_sample_tile : Z;
  rng_state : Z;
  per_sample_output_buffers : Z;
  enqueue_flag : bool
}.

(** One lane at work on its slot. *)
Record Lane : Type := {
  lane_slot : RaySlot;
  lane_loc : Locals;
  lane_wp : WorkPool;
  lane_tr : list Event
}.

Definition with_slot (f : RaySlot -> RaySlot) (l : Lane) : Lane :=
  {| lane_slot := f (lane_slot l); lane_loc := lane_loc l;
     lane_wp := lane_wp l; lane_tr := lane_tr l |}.

Definition with_loc (f : Locals -> Locals) (l : Lane) : Lane :=
  {| lane_slot := lane_slot l; lane_loc := f (lane_loc l);
     lane_wp := lane_wp l; lane_tr := lane_tr l |}.

Definition with_wp (p : WorkPool) (l : Lane) : Lane :=
  {| lane_slot := lane_slot l; lane_loc := lane_loc l;
     lane_wp := p; lane_tr := lane_tr l |}.

Definition emit (e : Event) (l : Lane) : Lane :=
  {| lane_slot := lane_slot l; lane_loc := lane_loc l;
     lane_wp := lane_wp l; lane_tr := lane_tr l ++ [e] |}.

Definition set_ray_state (s : RayState) (r : RaySlot) : RaySlot :=
  {| ray_state := s; path_state := path_state r;
     path_radiance := path_radiance r; ray := ray r;
     throughput := throughput r; L_transparent := L_transparent r;
     rng := rng r; work_array := work_array r; isect_t := isect_t r;
     debug_data := debug_data r |}.

Definition set_path_state (p : PathState) (r : RaySlot) : RaySlot :=
  {| ray_state := ray_state r; path_state := p;
     path_radiance := path_radiance r; ray := ray r;
     throughput := throughput r; L_transparent := L_transparent r;
     rng := rng r; work_array := work_array r; isect_t := isect_t r;
     debug_data := debug_data r |}.

Definition set_path_radiance (L : PathRadiance) (r : RaySlot) : RaySlot :=
  {| ray_state := ray_state r; path_state := path_state r;
     path_radiance := L; ray := ray r;
     throughput := throughput r; L_transparent := L_transparent r;
     rng := rng r; work_array := work_array r; isect_t := isect_t r;
     debug_data := debug_data r |}.

Definition set_ray (y : Ray) (r : RaySlot) : RaySlot :=
  {| ray_state := ray_state r; path_state := path_state r;
     path_radiance := path_radiance r; ray := y;
     throughput := throughput r; L_transparent := L_transparent r;
     rng := rng r; work_array := work_array r; isect_t := isect_t r;
     debug_data := debug_data r |}.

Definition set_throughput (v : float3) (r : RaySlot) : RaySlot :=
  {| ray_state := ray_state r; path_state := path_state r;
     path_radiance := path_radiance r; ray := ray r;
     throughput := v; L_transparent := L_transparent r;
     rng := rng r; work_array := work_array r; isect_t := isect_t r;
     debug_data := debug_data r |}.

Definition set_L_transparent (v : float) (r : RaySlot) : RaySlot :=
  {| ray_state := ray_state r; path_state := path_state r;
     path_radiance := path_radiance r; ray := ray r;
     throughput := throughput r; L_transparent := v;
     rng := rng r; work_array := work_array r; isect_t := isect_t r;
     debug_data := debug_data r |}.

Definition set_rng (v : RNG) (r : RaySlot) : RaySlot :=
  {| ray_state := ray_state r; path_state := path_state r;
     path_radiance := path_radiance r; ray := ray r;
     throughput := throughput r; L_transparent := L_transparent r;
     rng := v; work_array := work_array r; isect_t := isect_t r;
     debug_data := debug_data r |}.

Definition set_work_array (v : Z) (r : RaySlot) : RaySlot :=
  {| ray_state := ray_state r; path_state := path_state r;
     path_radiance := path_radiance r; ray := ray r;
     throughput := throughput r; L_transparent := L_transparent r;
     rng := rng r; work_array := v; isect_t := isect_t r;
     debug_data := debug_data r |}.

Definition set_debug_data (v : DebugData) (r : RaySlot) : RaySlot :=
  {| ray_state := ray_state r; path_state := path_state r;
     path_radiance := path_radiance r; ray := ray r;
     throughput := throughput r; L_transparent := L_transparent r;
     rng := rng r; work_array := work_array r; isect_t := isect_t r;
     debug_data := v |}.

Definition set_ray_t (v : float) (p : PathState) : PathState :=
  {| flag := flag p; bounce := bounce p; ray_t := v;
     path_state_rest := path_state_rest p |}.

(** IS_STATE and ASSIGN_RAY_STATE of kernel_types.h, on the lane's slot. *)
Definition IS_STATE (l : Lane) (s : RayState) : bool :=
  bool_decide (ray_state (lane_slot l) = s).

Definition ASSIGN_RAY_STATE (ray_index : Z) (s : RayState) (l : Lane) : Lane :=
  emit (EvAssignRayState ray_index s) (with_slot (set_ray_state s) l).

(** Modelled from the spec: path_state_init of kernel_path_state.h is not
    among the sources.  The spec has a regenerated slot start with zero
    bounce count; the other fields are what the collaborator
    [path_state_fresh] yields. *)
Definition path_state_init (p : PathState) (r : RNG) (smp : Z) (y : Ray)
  : PathState :=
  let q := path_state_fresh p r smp y in
  {| flag := flag q; bounce := 0; ray_t := ray_t q;
     path_state_rest := path_state_rest q |}.

(** Offsets of lines 163-164 and 225-228; the operands mix [int] and
    [unsigned int], so the sums are taken modulo 2^32. *)
Definition rng_state_offset (tx ty : Z) : Z :=
  uint32 ((rng_offset_x split_params + tx)
          + (rng_offset_y split_params + ty) * rng_stride split_params).

Definition output_buffer_offset (tx ty mst : Z) : Z :=
  uint32 ((((tx + ty * sp_stride split_params)
            * parallel_samples split_params) + mst)
          * film_pass_stride kernel_data).

(** Lines 143-164: the lane's view of the work unit its slot holds. *)
Definition lane_setup (ray_index : Z) (r : RaySlot) : Locals :=
  let sw := sp_w split_params in
  let sh := sp_h split_params in
  let ps := parallel_samples split_params in
  if WORK_STEALING build then
    let mw := uint32 (work_array r) in
    let '(px, py, tx, ty) :=
      get_pixel_tile_position mw sw sh (sp_x split_params)
        (sp_y split_params) ps ray_index in
    {| my_work := mw;
       sample := uint32 (get_my_sample mw sw sh ps ray_index
                         + start_sample split_params);
       tile_x := tx; tile_y := ty; pixel_x := px; pixel_y := py;
       my_sample_tile := 0;
       rng_state := rng_state_offset tx ty;
       per_sample_output_buffers := output_buffer_offset tx ty 0;
       enqueue_flag := false |}
  else
    let tile_index := cdiv ray_index ps in
    let tx := uint32 (cmod tile_index sw) in
    let ty := uint32 (cdiv tile_index sw) in
    let mst := uint32 (ray_index - tile_index * ps) in
    {| my_work := 0;
       sample := uint32 (work_array r);
       tile_x := tx; tile_y := ty;
       pixel_x := 0; pixel_y := 0;          (* not yet assigned *)
       my_sample_tile := mst;
       rng_state := rng_state_offset tx ty;
       per_sample_output_buffers := output_buffer_offset tx ty mst;
       enqueue_flag := false |}.

(** Lines 166-184. *)
Definition hit_background (ray_index : Z) (l : Lane) : Lane :=
  if IS_STATE l RAY_HIT_BACKGROUND then
    let l1 :=
      if negb (background_transparent kernel_data =? 0)
         && flag_set (flag (path_state (lane_slot l))) PATH_RAY_CAMERA
      then
        let l' :=
          with_slot (fun r => set_L_transparent
                       (fadd (L_transparent r) (average (throughput r))) r) l in
        if PASSES build then
          if negb (flag_set (film_pass_flag kernel_data) PASS_BACKGROUND)
          then ASSIGN_RAY_STATE ray_index RAY_UPDATE_BUFFER l'
          else l'
        else ASSIGN_RAY_STATE ray_index RAY_UPDATE_BUFFER l'
      else l in
    if IS_STATE l1 RAY_HIT_BACKGROUND then
      let l2 :=
        if BACKGROUND build then
          let r := lane_slot l1 in
          let L_background := indirect_background (path_state r) (ray r) in
          with_slot (set_path_radiance
                       (path_radiance_accum_background (path_radiance r)
                          (throughput r) L_background (bounce (path_state r))))
            (emit (EvIndirectBackground ray_index) l1)
        else l1 in
      ASSIGN_RAY_STATE ray_index RAY_UPDATE_BUFFER l2
    else l1
  else l.

(** Lines 186-199. *)
Definition update_buffer (ray_index : Z) (l : Lane) : Lane :=
  if IS_STATE l RAY_UPDATE_BUFFER then
    let c := lane_loc l in
    let '(L_sum, L') := path_radiance_clamp_and_sum (path_radiance (lane_slot l)) in
    let l1 := with_slot (set_path_radiance L') l in
    let l2 := emit (EvWriteLightPasses (per_sample_output_buffers c) L'
                      (sample c)) l1 in
    let l3 :=
      if KERNEL_DEBUG build
      then emit (EvWriteDebugPasses (per_sample_output_buffers c) (sample c)) l2
      else l2 in
    let L_rad :=
      make_float4 (x3 L_sum) (y3 L_sum) (z3 L_sum)
        (fsub f1 (L_transparent (lane_slot l3))) in
    let l4 := emit (EvWritePassFloat4 (per_sample_output_buffers c)
                      (sample c) L_rad) l3 in
    let l5 := emit (EvRngEnd (rng_state c) (rng (lane_slot l4))) l4 in
    ASSIGN_RAY_STATE ray_index RAY_TO_REGENERATE l5
  else l.

(** Lines 202-213: ask the Work Distributor whether more work exists.
    get_next_work leaves the claimed index in my_work, an unsigned int
    (line 132): what is kept of it is its value modulo 2^32. *)
Definition request_work (ray_index : Z) (l : Lane) : Lane :=
  let ps := parallel_samples split_params in
  if WORK_STEALING build then
    let '(valid_work, mw, wp') :=
      get_next_work (lane_wp l) (sp_w split_params) (sp_h split_params)
        (num_samples split_params) ps ray_index in
    let c := lane_loc l in
    let l' :=
      with_wp wp'
        (with_loc (fun _ =>
           {| my_work := uint32 mw; sample := sample c;
              tile_x := tile_x c; tile_y := tile_y c;
              pixel_x := pixel_x c; pixel_y := pixel_y c;
              my_sample_tile := my_sample_tile c;
              rng_state := rng_state c;
              per_sample_output_buffers := per_sample_output_buffers c;
              enqueue_flag := enqueue_flag c |}) l) in
    if valid_work =? 0 then ASSIGN_RAY_STATE ray_index RAY_INACTIVE l' else l'
  else
    if uint32 (sample (lane_loc l) + ps) >=? uint32 (end_sample split_params)
    then ASSIGN_RAY_STATE ray_index RAY_INACTIVE l
    else l.

(** Lines 216-236: take the work unit.  Under work stealing the unit is
    decoded from my_work, and work_array keeps my_work, both as the unsigned
    int that my_work is. *)
Definition take_work (ray_index : Z) (l : Lane) : Lane :=
  let sw := sp_w split_params in
  let sh := sp_h split_params in
  let sx := sp_x split_params in
  let sy := sp_y split_params in
  let ps := parallel_samples split_params in
  let c := lane_loc l in
  if WORK_STEALING build then
    let mw := uint32 (my_work c) in
    let '(px, py, tx, ty) :=
      get_pixel_tile_position mw sw sh sx sy ps ray_index in
    with_loc (fun _ =>
      {| my_work := mw;
         sample := uint32 (get_my_sample mw sw sh ps ray_index
                           + start_sample split_params);
         tile_x := tx; tile_y := ty; pixel_x := px; pixel_y := py;
         my_sample_tile := 0;
         rng_state := rng_state_offset tx ty;
         per_sample_output_buffers := output_buffer_offset tx ty 0;
         enqueue_flag := enqueue_flag c |})
      (with_slot (set_work_array mw) l)
  else
    let next := uint32 (sample c + ps) in
    with_loc (fun _ =>
      {| my_work := my_work c;
         sample := next;
         tile_x := tile_x c; tile_y := tile_y c;
         pixel_x := uint32 (sx + cmod (cdiv ray_index ps) sw);
         pixel_y := uint32 (sy + cdiv (cdiv ray_index ps) sw);
         my_sample_tile := my_sample_tile c;
         rng_state := rng_state c;
         per_sample_output_buffers := per_sample_output_buffers c;
         enqueue_flag := enqueue_flag c |})
      (with_slot (set_work_array next) l).

Definition set_enqueue_flag (b : bool) (c : Locals) : Locals :=
  {| my_work := my_work c; sample := sample c;
     tile_x := tile_x c; tile_y := tile_y c;
     pixel_x := pixel_x c; pixel_y := pixel_y c;
     my_sample_tile := my_sample_tile c;
     rng_state := rng_state c;
     per_sample_output_buffers := per_sample_output_buffers c;
     enqueue_flag := b |}.

(** Lines 238-263: set up the camera ray of the new work unit. *)
Definition setup_ray (ray_index : Z) (l : Lane) : Lane :=
  let c := lane_loc l in
  let r := lane_slot l in
  let '(rng', ray') :=
    kernel_path_trace_setup (lane_tr l) (rng_state c) (sample c)
      (pixel_x c) (pixel_y c) (rng r) (ray r) in
  let l1 :=
    emit (EvPathTraceSetup (rng_state c) (sample c) (pixel_x c) (pixel_y c))
      (with_slot (fun r => set_ray ray' (set_rng rng' r)) l) in
  if fneq (t ray') f0 then
    let l2 :=
      with_slot (fun r =>
        set_path_state (path_state_init (path_state r) rng' (sample c) ray')
          (set_path_radiance
             (path_radiance_init (film_use_light_pass kernel_data))
             (set_L_transparent f0
                (set_throughput (make_float3 f1 f1 f1) r)))) l1 in
    let l3 :=
      if KERNEL_DEBUG build
      then with_slot (set_debug_data debug_data_init) l2
      else l2 in
    with_loc (set_enqueue_flag true)
      (ASSIGN_RAY_STATE ray_index RAY_REGENERATED l3)
  else
    let L_rad := make_float4 f0 f0 f0 f0 in
    let l2 := emit (EvWritePassFloat4 (per_sample_output_buffers c)
                      (sample c) L_rad) l1 in
    let l3 := emit (EvRngEnd (rng_state c) (rng (lane_slot l2))) l2 in
    ASSIGN_RAY_STATE ray_index RAY_TO_REGENERATE l3.

(** Lines 201-265. *)
Definition regenerate (ray_index : Z) (l : Lane) : Lane :=
  if IS_STATE l RAY_TO_REGENERATE then
    let l1 := request_work ray_index l in
    if IS_STATE l1 RAY_TO_REGENERATE then
      setup_ray ray_index (take_work ray_index l1)
    else l1
  else l.

(** Lines 109-265: the work of a lane that holds slot [ray_index]. *)
Definition lane_enter (ray_index : Z) (r : RaySlot) (wp : WorkPool)
    (tr : list Event) : Lane :=
  {| lane_slot := r; lane_loc := lane_setup ray_index r;
     lane_wp := wp; lane_tr := tr |}.

Definition lane_body (ray_index : Z) (r : RaySlot) (wp : WorkPool)
    (tr : list Event) : Lane :=
  regenerate ray_index
    (update_buffer ray_index
       (hit_background ray_index (lane_enter ray_index r wp tr))).

(** ** Queues and the ray pool *)

(** [array[i]] for an [int] index; a negative or too large index is outside
    the array (undefined in C): the embedding then reads nothing and writes
    nothing. *)
Definition pool_get (ray_index : Z) (p : list RaySlot) : option RaySlot :=
  if ray_index <? 0 then None else p !! Z.to_nat ray_index.

Definition pool_set (ray_index : Z) (r : RaySlot) (p : list RaySlot)
  : list RaySlot :=
  if ray_index <? 0 then p else <[Z.to_nat ray_index := r]> p.

(** Modelled from the spec: enqueue_ray_index_local of kernel_queues.h is not
    among the sources.  The spec's enqueue appends the slot index at the
    position the queue's occupancy counter gives and increments the counter;
    a lane whose flag is clear appends nothing.  A queue's capacity is the
    length of its backing array.  The lane-group counter
    [local_queue_atomics] only batches the increments (the spec calls it an
    optimisation) and has no part in this sequential view. *)
Definition enqueue_ray_index_local (ray_index : Z) (q : QueueId) (flg : bool)
    (qsize : Z) (qi : QueueId -> Z) (qd : QueueId -> list Z)
  : (QueueId -> Z) * (QueueId -> list Z) :=
  if flg then
    let pos := qi q in
    (<[q := pos + 1]> qi,
     if 0 <=? pos
     then <[q := <[Z.to_nat pos := ray_index]> (qd q)]> qd
     else qd)
  else (qi, qd).

(** The slots a queue holds: the first [queue_index] entries of its array. *)
Definition queue_live (q : QueueId) (g : Globals) : list Z :=
  take (Z.to_nat (queue_index g q)) (queue_data g q).

(** ** kernel_background_buffer_update, one lane

    [gid0], [gid1] are ccl_global_id(0), ccl_global_id(1) and [gsize0] is
    ccl_global_size(0). *)
Definition kernel_background_buffer_update (gid0 gid1 gsize0 : Z)
    (g : Globals) : Globals :=
  let thread_index := gid1 * gsize0 + gid0 in
  (* lines 81-84: we will empty this queue in this kernel *)
  let qi :=
    if thread_index =? 0
    then <[QUEUE_HITBG_BUFF_UPDATE_TOREGEN_RAYS := 0]> (queue_index g)
    else queue_index g in
  let '(ray_index, qd) :=
    get_ray_index thread_index QUEUE_HITBG_BUFF_UPDATE_TOREGEN_RAYS
      (queue_data g) (queue_size split_params) 1 in
  if COMPUTE_DEVICE_GPU build && (ray_index =? QUEUE_EMPTY_SLOT) then
    (* lines 92-103: the lane exits *)
    {| pool := pool g; queue_data := qd; queue_index := qi;
       work_pool_wgs := work_pool_wgs g;
       use_queues_flag := use_queues_flag g; trace := trace g |}
  else
    let '(p', wp', tr', flg) :=
      if negb (ray_index =? QUEUE_EMPTY_SLOT) then
        match pool_get ray_index (pool g) with
        | Some r =>
            let l := lane_body ray_index r (work_pool_wgs g) (trace g) in
            (pool_set ray_index (lane_slot l) (pool g), lane_wp l, lane_tr l,
             enqueue_flag (lane_loc l))
        | None => (pool g, work_pool_wgs g, trace g, false)
        end
      else (pool g, work_pool_wgs g, trace g, false) in
    (* lines 271-280 *)
    let '(qi', qd') :=
      enqueue_ray_index_local ray_index QUEUE_ACTIVE_AND_REGENERATED_RAYS flg
        (queue_size split_params) qi qd in
    {| pool := p'; queue_data := qd'; queue_index := qi';
       work_pool_wgs := wp'; use_queues_flag := use_queues_flag g;
       trace := tr' |}.

(** ** kernel_lamp_emission, one lane *)

(** Lines 74-103. *)
Definition lamp_emission_slot (r : RaySlot) : RaySlot :=
  if bool_decide (ray_state r = RAY_ACTIVE)
     || bool_decide (ray_state r = RAY_HIT_BACKGROUND)
  then
    if LAMP_MIS build then
      let st := path_state r in
      if negb (integrator_use_lamp_mis kernel_data =? 0)
         && negb (flag_set (flag st) PATH_RAY_CAMERA)
      then
        let y := ray r in
        (* ray starting from previous non-transparent bounce *)
        let lP := float3_sub (P y) (float3_scale (ray_t st) (D y)) in
        let st' := set_ray_t (fadd (ray_t st) (isect_t r)) st in
        let light_ray :=
          {| P := lP; D := D y; t := ray_t st'; time := time y;
             dP := dP y; dD := dD y |} in
        let r' := set_path_state st' r in
        match indirect_lamp_emission st' light_ray with
        | Some emission =>
            set_path_radiance
              (path_radiance_accum_emission (path_radiance r') (throughput r)
                 emission (bounce st')) r'
        | None => r'
        end
      else r
    else r
  else r.

Definition kernel_lamp_emission (gid0 gid1 gsize0 : Z) (g : Globals)
  : Globals :=
  let x := gid0 in
  let y := gid1 in
  (* lines 44-47: we will empty this queue in this kernel *)
  let qi :=
    if (gid0 =? 0) && (gid1 =? 0)
    then <[QUEUE_ACTIVE_AND_REGENERATED_RAYS := 0]> (queue_index g)
    else queue_index g in
  let with_queues (qd : QueueId -> list Z) (p : list RaySlot) : Globals :=
    {| pool := p; queue_data := qd; queue_index := qi;
       work_pool_wgs := work_pool_wgs g;
       use_queues_flag := use_queues_flag g; trace := trace g |} in
  let run (ray_index : Z) (qd : QueueId -> list Z) : Globals :=
    match pool_get ray_index (pool g) with
    | Some r => with_queues qd (pool_set ray_index (lamp_emission_slot r) (pool g))
    | None => with_queues qd (pool g)
    end in
  if negb (use_queues_flag g =? 0) then
    let thread_index := gid1 * gsize0 + gid0 in
    let '(ray_index, qd) :=
      get_ray_index thread_index QUEUE_ACTIVE_AND_REGENERATED_RAYS
        (queue_data g) (queue_size split_params) 1 in
    if ray_index =? QUEUE_EMPTY_SLOT
    then with_queues qd (pool g)
    else run ray_index qd
  else
    if (x <? sp_w split_params * parallel_samples split_params)
       && (y <? sp_h split_params)
    then run (x + y * (sp_w split_params * parallel_samples split_params))
           (queue_data g)
    else with_queues (queue_data g) (pool g).

(** ** What a run shows, and the parts of stage 1 *)

(** The states a list of calls assigns, in order. *)
Definition assigned (evs : list Event) : list RayState :=
  omap (fun e => match e with EvAssignRayState _ s => Some s | _ => None end)
    evs.

(** The four-channel writes among a list of calls. *)
Definition float4_writes (evs : list Event) : list (Z * Z * float4) :=
  omap (fun e => match e with
                 | EvWritePassFloat4 b s v => Some (b, s, v)
                 | _ => None
                 end) evs.

(** The work units among a list of calls: (pixel_x, pixel_y, sample). *)
Definition claimed (evs : list Event) : list (Z * Z * Z) :=
  omap (fun e => match e with
                 | EvPathTraceSetup _ s px py => Some (px, py, s)
                 | _ => None
                 end) evs.

(** The calls made after the trace was [tr]. *)
Definition events_since (tr tr' : list Event) : list Event :=
  drop (length tr) tr'.

(** The camera ray of a transparent background: line 168. *)
Definition transparent_camera (l : Lane) : bool :=
  negb (background_transparent kernel_data =? 0)
  && flag_set (flag (path_state (lane_slot l))) PATH_RAY_CAMERA.

(** The background pass is wanted: lines 170-172. *)
Definition background_pass : bool :=
  PASSES build && flag_set (film_pass_flag kernel_data) PASS_BACKGROUND.

(** Lines 169: fold the throughput into the transparency accumulator. *)
Definition fold_transparent (l : Lane) : Lane :=
  with_slot (fun r => set_L_transparent
               (fadd (L_transparent r) (average (throughput r))) r) l.

(** Lines 177-181: shade the background into the radiance accumulator. *)
Definition shade_background (ray_index : Z) (l : Lane) : Lane :=
  let r := lane_slot l in
  with_slot (set_path_radiance
               (path_radiance_accum_background (path_radiance r)
                  (throughput r)
                  (indirect_background (path_state r) (ray r))
                  (bounce (path_state r))))
    (emit (EvIndirectBackground ray_index) l).

(** ** The parts of stage 3 *)

(** Lines 204-213: the Work Distributor has nothing more for this slot. *)
Definition no_more_work (ray_index : Z) (l : Lane) : bool :=
  if WORK_STEALING build then
    (get_next_work (lane_wp l) (sp_w split_params) (sp_h split_params)
       (num_samples split_params) (parallel_samples split_params)
       ray_index).1.1 =? 0
  else
    uint32 (sample (lane_loc l) + parallel_samples split_params)
    >=? uint32 (end_sample split_params).

(** The lane once it holds its new work unit (line 237). *)
Definition with_new_work (ray_index : Z) (l : Lane) : Lane :=
  take_work ray_index (request_work ray_index l).

(** Line 239: the random cursor and camera ray of the lane's work unit. *)
Definition camera_setup (l : Lane) : RNG * Ray :=
  kernel_path_trace_setup (lane_tr l) (rng_state (lane_loc l))
    (sample (lane_loc l)) (pixel_x (lane_loc l)) (pixel_y (lane_loc l))
    (rng (lane_slot l)) (ray (lane_slot l)).

(** Line 241: the camera ray of the lane's work unit has zero length. *)
Definition degenerate (l : Lane) : bool :=
  negb (fneq (t (camera_setup l).2) f0).

(** The calls of lines 239 and 257-262 for the work unit of [l]. *)
Definition zero_flush (ray_index : Z) (l : Lane) : list Event :=
  let c := lane_loc l in
  [EvPathTraceSetup (rng_state c) (sample c) (pixel_x c) (pixel_y c);
   EvWritePassFloat4 (per_sample_output_buffers c) (sample c)
     (make_float4 f0 f0 f0 f0);
   EvRngEnd (rng_state c) (camera_setup l).1;
   EvAssignRayState ray_index RAY_TO_REGENERATE].

(** The calls of lines 187-198 for a lane in RAY_UPDATE_BUFFER. *)
Definition buffer_flush (ray_index : Z) (l : Lane) : list Event :=
  let c := lane_loc l in
  let cs := path_radiance_clamp_and_sum (path_radiance (lane_slot l)) in
  [EvWriteLightPasses (per_sample_output_buffers c) cs.2 (sample c)]
  ++ (if KERNEL_DEBUG build
      then [EvWriteDebugPasses (per_sample_output_buffers c) (sample c)]
      else [])
  ++ [EvWritePassFloat4 (per_sample_output_buffers c) (sample c)
        (make_float4 (x3 cs.1) (y3 cs.1) (z3 cs.1)
           (fsub f1 (L_transparent (lane_slot l))));
      EvRngEnd (rng_state c) (rng (lane_slot l));
      EvAssignRayState ray_index RAY_TO_REGENERATE].

(** [r'] is [r] up to the radiance accumulator and the ray length since the
    previous bounce: what the lamp stage may change of a slot. *)
Definition lamp_frame (r r' : RaySlot) : Prop :=
  ray_state r' = ray_state r
  /\ flag (path_state r') = flag (path_state r)
  /\ bounce (path_state r') = bounce (path_state r)
  /\ path_state_rest (path_state r') = path_state_rest (path_state r)
  /\ ray r' = ray r
  /\ throughput r' = throughput r
  /\ L_transparent r' = L_transparent r
  /\ rng r' = rng r
  /\ work_array r' = work_array r
  /\ isect_t r' = isect_t r
  /\ debug_data r' = debug_data r.

(** The states this stage owns: the ones its input queue carries. *)
Definition stage_owned (s : RayState) : bool :=
  match s with
  | RAY_HIT_BACKGROUND | RAY_UPDATE_BUFFER | RAY_TO_REGENERATE => true
  | _ => false
  end.

End Kernels.

Arguments Globals {KT}.
Arguments Lane {KT}.

(** ** The work-stealing pool and the dequeue helper, from the spec *)

Module WorkStealing.

(** Modelled from the spec: get_next_work of kernel_work_stealing.h is not
    among the sources.  The spec's work-stealing pool is one shared counter
    of the samples claimed so far: a claim returns the counter and increments
    it, and reports "no work" once the counter has reached the tile's sample
    budget, [w * h * num_samples]. *)
Definition get_next_work (pool_counter sw sh nsamples ps ray_index : Z)
  : Z * Z * Z :=
  if pool_counter <? sw * sh * nsamples
  then (1, pool_counter, pool_counter + 1)
  else (0, pool_counter, pool_counter).

(** Modelled from the spec: get_my_sample of kernel_work_stealing.h is not
    among the sources.  The spec maps a claimed index to a (pixel, sample)
    pair by a fixed decomposition; here the index counts the pixels of the
    tile row by row, sample after sample. *)
Definition get_my_sample (my_work sw sh ps ray_index : Z) : Z :=
  my_work / (sw * sh).

(** Modelled from the spec: get_pixel_tile_position of
    kernel_work_stealing.h is not among the sources.  It is the pixel part
    of the same fixed decomposition: the pixel's position in the tile, row
    by row, and its position in the image. *)
Definition get_pixel_tile_position (my_work sw sh sx sy ps ray_index : Z)
  : Z * Z * Z * Z :=
  let i := my_work mod (sw * sh) in
  (sx + i mod sw, sy + i / sw, i mod sw, i / sw).

End WorkStealing.

Module Queues.

(** Modelled from the spec: get_ray_index of kernel_queues.h is not among the
    sources.  The spec's dequeue is an indexed lookup into the queue's
    backing array; a lane beyond the array finds the empty slot. *)
Definition get_ray_index (thread_index : Z) (q : QueueId)
    (qd : QueueId -> list Z) (qsize : Z) (empty_queue : Z)
  : Z * (QueueId -> list Z) :=
  (if thread_index <? 0 then -1
   else default (-1) (qd q !! Z.to_nat thread_index), qd).

End Queues.

(** ** A small implementation of the collaborators

    Used to run the kernels on concrete inputs.  Floats are the small
    integers (on which single-precision arithmetic is exact), the radiance
    accumulator is one colour, and the camera's ray length is a parameter. *)

Module Toy.

#[local] Instance toy_types : KernelTypes := {|
  float := Z;
  f0 := 0;
  f1 := 1;
  fadd := Z.add;
  fsub := Z.sub;
  fmul := Z.mul;
  fneq := fun a b => negb (a =? b);
  PathRadiance := float3_of Z;
  PathStateRest := unit;
  differential3 := unit;
  RNG := Z;
  DebugData := unit;
  WorkPool := Z;
  PATH_RAY_CAMERA := 1;
  PASS_BACKGROUND := 65536;
  QUEUE_EMPTY_SLOT := -1
|}.

Definition v3 (a b c : Z) : float3_of Z := make_float3 a b c.

Definition add3 (a b : float3_of Z) : float3_of Z :=
  v3 (x3 a + x3 b) (y3 a + y3 b) (z3 a + z3 b).

Definition mul3 (a b : float3_of Z) : float3_of Z :=
  v3 (x3 a * x3 b) (y3 a * y3 b) (z3 a * z3 b).

Section WithCamera.
(** The length of the camera ray for (sample, pixel_x, pixel_y). *)
Variable camera_t : Z -> Z -> Z -> Z.

#[local] Instance toy : Collaborators := {|
  average := fun v => (x3 v + y3 v + z3 v) / 3;
  indirect_background := fun _ _ => v3 2 2 2;
  path_radiance_accum_background := fun L thr Lbg _ => add3 L (mul3 thr Lbg);
  path_radiance_clamp_and_sum := fun L => (L, L);
  path_radiance_init := fun _ => v3 0 0 0;
  path_radiance_accum_emission := fun L thr em _ => add3 L (mul3 thr em);
  indirect_lamp_emission := fun _ _ => Some (v3 1 1 1);
  kernel_path_trace_setup := fun _ rs smp px py _ y =>
    (smp, {| P := v3 px py 0; D := v3 0 0 1; t := camera_t smp px py;
             time := 0; dP := (); dD := () |});
  path_state_fresh := fun p _ _ _ =>
    {| flag := 1; bounce := bounce p; ray_t := 0; path_state_rest := () |};
  debug_data_init := ();
  get_next_work := WorkStealing.get_next_work;
  get_my_sample := WorkStealing.get_my_sample;
  get_pixel_tile_position := WorkStealing.get_pixel_tile_position;
  get_ray_index := Queues.get_ray_index
|}.

End WithCamera.

Definition build_static : Build :=
  {| WORK_STEALING := false; PASSES := true; BACKGROUND := true;
     KERNEL_DEBUG := false; COMPUTE_DEVICE_GPU := true; LAMP_MIS := true |}.

Definition build_stealing : Build :=
  {| WORK_STEALING := true; PASSES := true; BACKGROUND := true;
     KERNEL_DEBUG := false; COMPUTE_DEVICE_GPU := true; LAMP_MIS := true |}.

Definition kdata (transparent pass_flag : Z) : KernelData :=
  {| background_transparent := transparent; film_pass_flag := pass_flag;
     film_pass_stride := 4; film_use_light_pass := 0;
     integrator_use_lamp_mis := 1 |}.

(** A 2x1 tile, two parallel samples, samples [0, 6). *)
Definition params : SplitParams :=
  {| sp_w := 2; sp_h := 1; sp_x := 10; sp_y := 20; sp_stride := 2;
     rng_offset_x := 0; rng_offset_y := 0; rng_stride := 2;
     parallel_samples := 2; start_sample := 0; end_sample := 6;
     num_samples := 6; queue_size := 4 |}.

Definition slot0 (s : RayState) (flg : Z) (smp : Z) : RaySlot :=
  {| ray_state := s;
     path_state := {| flag := flg; bounce := 3; ray_t := 0;
                      path_state_rest := () |};
     path_radiance := v3 1 1 1;
     ray := {| P := v3 0 0 0; D := v3 0 0 1; t := 5; time := 0;
               dP := (); dD := () |};
     throughput := v3 3 3 3;
     L_transparent := 0;
     rng := 7;
     work_array := smp;
     isect_t := 4;
     debug_data := () |}.


(** The camera used in the examples: sample 2 has a ray of zero length. *)
Definition cam (smp px py : Z) : Z := if smp =? 2 then 0 else 9.

#[local] Instance co : Collaborators := toy cam.

Definition per_queue {A : Type} (active hitbg : A) (q : QueueId) : A :=
  match q with
  | QUEUE_ACTIVE_AND_REGENERATED_RAYS => active
  | QUEUE_HITBG_BUFF_UPDATE_TOREGEN_RAYS => hitbg
  end.

(** A pool [p], both queues with four places, the active queue holding
    [n_active] slots, the other queue holding the slots [hitbg]. *)
Definition globals (p : list RaySlot) (active : list Z) (n_active : Z)
    (hitbg : list Z) : Globals :=
  {| pool := p;
     queue_data := per_queue active hitbg;
     queue_index := per_queue n_active (Z.of_nat (length hitbg));
     work_pool_wgs := 0;
     use_queues_flag := 1;
     trace := [] |}.

(** A lane that has just dequeued slot [ray_index], on an empty trace. *)
Definition enter (b : Build) (kd : KernelData) (ray_index : Z) (r : RaySlot)
  : Lane :=
  lane_enter b kd params ray_index r 0 [].

(** The whole lane on that slot. *)
Definition lane (b : Build) (kd : KernelData) (ray_index : Z) (r : RaySlot)
  : Lane :=
  lane_body b kd params ray_index r 0 [].

(** Two slots waiting for work; lane 0 of the stage finds slot 1 in its
    queue.  The active queue is empty. *)
Definition waiting : Globals :=
  globals [slot0 RAY_TO_REGENERATE 1 0; slot0 RAY_TO_REGENERATE 1 1]
    [-1; -1; -1; -1] 0 [1; 0].

(** One active slot past its first bounce, queued for the lamp stage. *)
Definition lit : Globals :=
  globals [slot0 RAY_ACTIVE 0 0] [0; -1; -1; -1] 1 [].

End Toy.

(** ** A full run of the pipeline, seen from the Work Distributor

    A run is a sequence of steps.  In a step the other stages of the
    pipeline work on one slot and the background/buffer-update lane then
    handles it.  A work unit is claimed where the camera ray of a (pixel,
    sample) pair is set up. *)

Section FullRun.
Context `{CO : Collaborators}.
Variable build : Build.
Variable kernel_data : KernelData.
Variable split_params : SplitParams.

(** What the other stages may do to a slot between two invocations of this
    stage: anything, except that they leave the slot's work unit alone and
    neither retire a slot nor revive a retired one (RAY_INACTIVE is assigned
    by this stage only, and is final). *)
Definition keeps_work (f : RaySlot -> RaySlot) : Prop :=
  forall r : RaySlot,
    work_array (f r) = work_array r
    /\ (ray_state (f r) = RAY_INACTIVE <-> ray_state r = RAY_INACTIVE).

(** One step: the other stages, then the lane that finds slot [i] in the
    stage's queue. *)
Definition wave_step (i : Z) (f : RaySlot -> RaySlot) (g : Globals)
  : Globals :=
  match pool_get i (pool g) with
  | Some r =>
      let l := lane_body build kernel_data split_params i (f r)
                 (work_pool_wgs g) (trace g) in
      {| pool := pool_set i (lane_slot l) (pool g);
         queue_data := queue_data g; queue_index := queue_index g;
         work_pool_wgs := lane_wp l;
         use_queues_flag := use_queues_flag g;
         trace := lane_tr l |}
  | None => g
  end.

Definition run (sched : list (Z * (RaySlot -> RaySlot))) (g : Globals)
  : Globals :=
  foldl (fun g step => wave_step step.1 step.2 g) g sched.

(** The run is over: every slot is RAY_INACTIVE. *)
Definition all_inactive (g : Globals) : Prop :=
  Forall (fun r => ray_state r = RAY_INACTIVE) (pool g).

(** The pool has one slot per pixel of the tile and parallel sample. *)
Definition pool_size : Z :=
  sp_w split_params * sp_h split_params * parallel_samples split_params.

(** The pixel of a slot under the static partition: lines 234-235. *)
Definition static_pixel_x (ray_index : Z) : Z :=
  uint32 (sp_x split_params
          + cmod (cdiv ray_index (parallel_samples split_params))
              (sp_w split_params)).

Definition static_pixel_y (ray_index : Z) : Z :=
  uint32 (sp_y split_params
          + cdiv (cdiv ray_index (parallel_samples split_params))
              (sp_w split_params)).

(** Modelled from the spec: the stage that initialises the pool is not among
    the sources.  Under the static partition a slot owns a fixed (pixel,
    sample-within-pixel) range: it starts on the first sample of that range,
    start_sample plus its sample-within-pixel (line 160). *)
Definition static_first_sample (ray_index : Z) : Z :=
  start_sample split_params
  + (ray_index
     - cdiv ray_index (parallel_samples split_params)
       * parallel_samples split_params).

(** Modelled from the spec: the stage that initialises the pool is not among
    the sources.  Under the static partition a slot starts out holding the
    first work unit of its range, or retired if that range is empty; under
    work stealing it starts out waiting for work. *)
Definition initial_slot (template : Z -> RaySlot) (ray_index : Z) : RaySlot :=
  if WORK_STEALING build then
    set_ray_state RAY_TO_REGENERATE (template ray_index)
  else
    let s := static_first_sample ray_index in
    set_work_array s
      (set_ray_state
         (if s <? end_sample split_params
          then RAY_REGENERATED else RAY_INACTIVE)
         (template ray_index)).

(** Modelled from the spec: the stage that initialises the pool is not among
    the sources.  The work units claimed at initialisation: under the static
    partition the first unit of every slot whose range is not empty, under
    work stealing none. *)
Definition initial_claim (ray_index : Z) : list Event :=
  if WORK_STEALING build then []
  else
    let s := static_first_sample ray_index in
    let tile_index := cdiv ray_index (parallel_samples split_params) in
    if s <? end_sample split_params then
      [EvPathTraceSetup
         (rng_state_offset split_params
            (uint32 (cmod tile_index (sp_w split_params)))
            (uint32 (cdiv tile_index (sp_w split_params))))
         s (static_pixel_x ray_index) (static_pixel_y ray_index)]
    else [].

(** Modelled from the spec: the stage that initialises the pool is not among
    the sources.  The state a run starts from: the pool of initial slots,
    the work units claimed at initialisation, and the queues, work pool and
    flag of [g0]. *)
Definition initial (template : Z -> RaySlot) (g0 : Globals) : Globals :=
  {| pool := initial_slot template <$> seqZ 0 pool_size;
     queue_data := queue_data g0; queue_index := queue_index g0;
     work_pool_wgs := work_pool_wgs g0;
     use_queues_flag := use_queues_flag g0;
     trace := concat (initial_claim <$> seqZ 0 pool_size) |}.


(** The render settings a run is started with: a tile of positive width,
    a positive stride, a sample range that fits [int], pixel coordinates
    that fit [unsigned int], and num_samples the length of the range. *)
Definition well_formed : Prop :=
  0 < sp_w split_params
  /\ 0 <= sp_h split_params
  /\ 0 < parallel_samples split_params < 2 ^ 31
  /\ 0 <= start_sample split_params <= end_sample split_params
  /\ end_sample split_params < 2 ^ 31
  /\ 0 <= sp_x split_params
  /\ sp_x split_params + sp_w split_params <= 2 ^ 32
  /\ 0 <= sp_y split_params
  /\ sp_y split_params + sp_h split_params <= 2 ^ 32
  /\ num_samples split_params
     = end_sample split_params - start_sample split_params.




(** What holds of the static partition throughout a run: every slot's
    counter is some strides past its first sample and inside the range
    unless the slot is retired, a retired slot has no stride left, and the
    units claimed so far are, without repetition, the strides each slot has
    behind it. *)
Definition static_inv (g : Globals) : Prop :=
  length (pool g) = Z.to_nat pool_size
  /\ (forall (i : Z) (r : RaySlot),
        pool_get i (pool g) = Some r ->
        exists j : Z,
          0 <= j
          /\ work_array r
             = static_first_sample i + j * parallel_samples split_params
          /\ (ray_state r = RAY_INACTIVE ->
              end_sample split_params
              <= work_array r + parallel_samples split_params)
          /\ (ray_state r <> RAY_INACTIVE ->
              work_array r < end_sample split_params))
  /\ NoDup (claimed (trace g))
  /\ (forall u : Z * Z * Z,
        u ∈ claimed (trace g) <->
        exists (i : Z) (r : RaySlot) (j : Z),
          pool_get i (pool g) = Some r
          /\ 0 <= j
          /\ u = (static_pixel_x i, static_pixel_y i,
                  static_first_sample i + j * parallel_samples split_params)
          /\ u.2 <= work_array r
          /\ u.2 < end_sample split_params).



(** The other stages end the path of a slot: it escapes the scene. *)
Definition retire_path (r : RaySlot) : RaySlot :=
  if bool_decide (ray_state r = RAY_INACTIVE) then r
  else set_ray_state RAY_HIT_BACKGROUND r.

(** A schedule that serves each slot [m] times in turn. *)
Definition drain (m : nat) : list (Z * (RaySlot -> RaySlot)) :=
  concat ((fun i => replicate m (i, retire_path)) <$> seqZ 0 pool_size).




End FullRun.

(** ** A run on concrete inputs *)

Module ToyRun.

#[local] Existing Instance Toy.toy_types.
#[local] Existing Instance Toy.co.

(** A schedule for a pool of [slots] slots: in every round the path of each
    slot ends and the stage handles the slot. *)
Definition rounds (slots : Z) (n : nat) : list (Z * (RaySlot -> RaySlot)) :=
  concat (replicate n ((fun i => (i, retire_path)) <$> seqZ 0 slots)).

(** The pool before the first wave, from slots that have just been set up. *)
Definition start (b : Build) : Globals :=
  initial b Toy.params (fun _ => Toy.slot0 RAY_ACTIVE 1 0)
    (Toy.globals [] [] 0 []).

(** The two scenarios of the spec.  No camera ray has zero length. *)
Definition clear : Collaborators := Toy.toy (fun _ _ _ => 9).

(** One pixel, a pool of four slots, samples [0, 10), static partition. *)
Definition ten_samples : SplitParams :=
  {| sp_w := 1; sp_h := 1; sp_x := 0; sp_y := 0; sp_stride := 1;
     rng_offset_x := 0; rng_offset_y := 0; rng_stride := 1;
     parallel_samples := 4; start_sample := 0; end_sample := 10;
     num_samples := 10; queue_size := 4 |}.

Definition ten_samples_done : Globals :=
  run (CO := clear) Toy.build_static (Toy.kdata 0 0) ten_samples (rounds 4 4)
    (initial Toy.build_static ten_samples (fun _ => Toy.slot0 RAY_ACTIVE 1 0)
       (Toy.globals [] [] 0 [])).

(** One pixel with a budget of 100 samples, eight slots stealing work. *)
Definition hundred_samples : SplitParams :=
  {| sp_w := 1; sp_h := 1; sp_x := 0; sp_y := 0; sp_stride := 1;
     rng_offset_x := 0; rng_offset_y := 0; rng_stride := 1;
     parallel_samples := 8; start_sample := 0; end_sample := 100;
     num_samples := 100; queue_size := 8 |}.

Definition hundred_samples_done : Globals :=
  run (CO := clear) Toy.build_stealing (Toy.kdata 0 0) hundred_samples
    (rounds 8 14)
    (initial Toy.build_stealing hundred_samples
       (fun _ => Toy.slot0 RAY_ACTIVE 1 0) (Toy.globals [] [] 0 [])).

End ToyRun.

(** ** Further observers of a run *)

Section Observers.
Context `{KT : KernelTypes}.

(** The ends of a random stream among a list of calls. *)
Definition rng_ends (evs : list Event) : list (Z * RNG) :=
  omap (fun e => match e with EvRngEnd s v => Some (s, v) | _ => None end) evs.

(** A slot whose work unit is under way: its camera ray has been set up and
    its radiance is not yet in the output buffer. *)
Definition in_flight (r : RaySlot) : bool :=
  match ray_state r with
  | RAY_TO_REGENERATE | RAY_INACTIVE => false
  | _ => true
  end.


End Observers.

(** The build with another value of __COMPUTE_DEVICE_GPU__. *)
Definition with_device (gpu : bool) (b : Build) : Build :=
  {| WORK_STEALING := WORK_STEALING b; PASSES := PASSES b;
     BACKGROUND := BACKGROUND b; KERNEL_DEBUG := KERNEL_DEBUG b;
     COMPUTE_DEVICE_GPU := gpu; LAMP_MIS := LAMP_MIS b |}.

(** ** The output of a run under the static partition *)

Section StaticOutput.
Context `{CO : Collaborators}.
Variable kernel_data : KernelData.
Variable split_params : SplitParams.

(** The place of slot [ray_index] in the output buffer under the static
    partition: lines 156-164. *)
Definition static_output_place (ray_index : Z) : Z :=
  let ps := parallel_samples split_params in
  let tile_index := cdiv ray_index ps in
  output_buffer_offset kernel_data split_params
    (uint32 (cmod tile_index (sp_w split_params)))
    (uint32 (cdiv tile_index (sp_w split_params)))
    (uint32 (ray_index - tile_index * ps)).

(** The output buffer holds the tile: a row of the buffer is at least as
    wide as the tile, and the offsets fit [unsigned int]. *)
Definition buffer_fits : Prop :=
  sp_w split_params <= sp_stride split_params
  /\ 0 < film_pass_stride kernel_data
  /\ sp_stride split_params * sp_h split_params
     * parallel_samples split_params * film_pass_stride kernel_data
     <= 2 ^ 32.

(** What the other stages may do to a slot when the output is accounted
    for: they keep its work unit, and neither start nor finish one. *)
Definition keeps_path (f : RaySlot -> RaySlot) : Prop :=
  keeps_work f /\ forall r : RaySlot, in_flight (f r) = in_flight r.

(** The first sample of a slot that is not in the output buffer yet. *)
Definition unwritten_from (r : RaySlot) : Z :=
  work_array r + (if in_flight r then 0 else 1).

(** What holds of the output under the static partition throughout a run:
    no place and sample is written twice, and every write is at the place
    of a slot of the pool, for a sample the slot has behind it. *)
Definition written_inv (g : Globals) : Prop :=
  NoDup (fst <$> float4_writes (trace g))
  /\ forall (b s : Z) (v : float4),
       (b, s, v) ∈ float4_writes (trace g) ->
       exists (i : Z) (r : RaySlot),
         pool_get i (pool g) = Some r
         /\ b = static_output_place i
         /\ s < unwritten_from r.

(** The other half: every sample of a slot's range that the slot has
    behind it is in the output buffer, at the slot's place. *)
Definition flushed_inv (g : Globals) : Prop :=
  forall (i : Z) (r : RaySlot) (j : Z),
    pool_get i (pool g) = Some r ->
    0 <= j ->
    let s := static_first_sample split_params i
             + j * parallel_samples split_params in
    s < end_sample split_params ->
    s < unwritten_from r ->
    (static_output_place i, s) ∈ fst <$> float4_writes (trace g).

End StaticOutput.

(** ** More concrete inputs *)

Module ToyLanes.

#[local] Existing Instance Toy.toy_types.
#[local] Existing Instance Toy.co.

(** The other stages end the path of a slot that has one under way. *)
Definition escape (r : RaySlot) : RaySlot :=
  if in_flight r then set_ray_state RAY_HIT_BACKGROUND r else r.

(** Rounds over a pool of four slots: in every round the path of each slot
    that has one escapes, and the stage handles the slot. *)
Definition escape_rounds (n : nat) : list (Z * (RaySlot -> RaySlot)) :=
  concat (replicate n ((fun i => (i, escape)) <$> seqZ 0 4)).

(** An active slot in the stage's queue: lane 0 finds slot 0. *)
Definition passing : Globals :=
  Toy.globals [Toy.slot0 RAY_ACTIVE 0 0] [0; -1; -1; -1] 1 [0].

(** Four slots past their first bounce, where no queue is in use. *)
Definition direct : Globals :=
  {| pool := [Toy.slot0 RAY_ACTIVE 0 0; Toy.slot0 RAY_HIT_BACKGROUND 0 1;
              Toy.slot0 RAY_ACTIVE 1 2; Toy.slot0 RAY_INACTIVE 0 3];
     queue_data := Toy.per_queue [] [];
     queue_index := Toy.per_queue 0 0;
     work_pool_wgs := 0;
     use_queues_flag := 0;
     trace := [] |}.

(** A pool whose two slots are retired. *)
Definition finished : Globals :=
  Toy.globals [Toy.slot0 RAY_INACTIVE 1 4; Toy.slot0 RAY_INACTIVE 1 5]
    [] 0 [].

End ToyLanes.

(** * The OBJ importer: from raw objects to Blender objects

    A shallow embedding of raw_to_blender_objects of
      source/blender/io/wavefront_obj/intern/wavefront_obj_importer.cc
    The function works through calls into Blender's database; the
    embedding records the calls, in order. *)

(** The importer's types and constants that the file uses and does not
    define. *)
Class ObjTypes : Type := {
  OBJRawObject : Type;
  GlobalVertices : Type;
  BlenderObject : Type;            (* what mover() hands over *)
  OB_MESH : Z;                     (* DNA_object_types.h *)
  OB_CURVE : Z;
  object_type : OBJRawObject -> Z
}.

Section ObjImporter.
Context `{OT : ObjTypes}.

Inductive ImportCall : Type :=
  | CallImportCollection           (* OBJImportCollection{bmain, scene} *)
  | CallMeshFromRaw (o : OBJRawObject)
  | CallCurveFromRaw (o : OBJRawObject)
  | CallAddObject (b : BlenderObject).

(** The object a conversion hands over.  The constructors work on bmain,
    which earlier calls have changed: the calls so far are an argument. *)
Class ObjCollaborators : Type := {
  mesh_mover : list ImportCall -> OBJRawObject -> GlobalVertices
               -> BlenderObject;
  curve_mover : list ImportCall -> OBJRawObject -> GlobalVertices
                -> BlenderObject
}.

Context `{OC : ObjCollaborators}.

(** The body of the loop of raw_to_blender_objects, lines 100-107. *)
Definition convert_raw_object (global_vertices : GlobalVertices)
    (calls : list ImportCall) (curr_object : OBJRawObject)
  : list ImportCall :=
  if flag_set (object_type curr_object) OB_MESH then
    calls ++ [CallMeshFromRaw curr_object;
              CallAddObject (mesh_mover calls curr_object global_vertices)]
  else if flag_set (object_type curr_object) OB_CURVE then
    calls ++ [CallCurveFromRaw curr_object;
              CallAddObject (curve_mover calls curr_object global_vertices)]
  else calls.

(** raw_to_blender_objects, lines 93-109. *)
Definition raw_to_blender_objects (list_of_objects : list OBJRawObject)
    (global_vertices : GlobalVertices) (calls : list ImportCall)
  : list ImportCall :=
  foldl (convert_raw_object global_vertices)
    (calls ++ [CallImportCollection]) list_of_objects.

(** The conversions among a list of calls, in order. *)
Definition conversions (calls : list ImportCall) : list ImportCall :=
  omap (fun c => match c with
                 | CallMeshFromRaw _ | CallCurveFromRaw _ => Some c
                 | _ => None
                 end) calls.

(** The objects added to the import collection, in order. *)
Definition added_objects (calls : list ImportCall) : list BlenderObject :=
  omap (fun c => match c with CallAddObject b => Some b | _ => None end)
    calls.

(** How a raw object is converted, if at all: lines 100 and 104. *)
Definition conversion_of (o : OBJRawObject) : option ImportCall :=
  if flag_set (object_type o) OB_MESH then Some (CallMeshFromRaw o)
  else if flag_set (object_type o) OB_CURVE then Some (CallCurveFromRaw o)
  else None.

(** Every conversion among [evs] is followed at once by the adding of the
    object it hands over, and nothing else is added: an object is added
    only right after a conversion, and is the object that conversion hands
    over.  No import collection is made among [evs]; [base] holds the calls
    made before [evs]. *)
Definition added_after_conversion (global_vertices : GlobalVertices)
    (base evs : list ImportCall) : Prop :=
  forall (pre : list ImportCall) (c : ImportCall) (post : list ImportCall),
    evs = pre ++ c :: post ->
    match c with
    | CallImportCollection => False
    | CallMeshFromRaw o =>
        exists post',
          post = CallAddObject (mesh_mover (base ++ pre) o global_vertices)
                 :: post'
    | CallCurveFromRaw o =>
        exists post',
          post = CallAddObject (curve_mover (base ++ pre) o global_vertices)
                 :: post'
    | CallAddObject b =>
        exists pre' o,
          (pre = pre' ++ [CallMeshFromRaw o]
           /\ b = mesh_mover (base ++ pre') o global_vertices)
          \/ (pre = pre' ++ [CallCurveFromRaw o]
              /\ b = curve_mover (base ++ pre') o global_vertices)
    end.

End ObjImporter.

(** ** Properties of the background/buffer-update lane *)

Section LaneProperties.
Context `{CO : Collaborators}.
Variable build : Build.
Variable kernel_data : KernelData.
Variable split_params : SplitParams.


Lemma events_since_app (tr evs : list Event) :
  events_since tr (tr ++ evs) = evs.
Proof. unfold events_since. by rewrite drop_app_length. Qed.

Lemma IS_STATE_true (l : Lane) (s : RayState) :
  IS_STATE l s = true <-> ray_state (lane_slot l) = s.
Proof. unfold IS_STATE. apply bool_decide_eq_true. Qed.

Lemma IS_STATE_false (l : Lane) (s : RayState) :
  IS_STATE l s = false <-> ray_state (lane_slot l) <> s.
Proof. unfold IS_STATE. apply bool_decide_eq_false. Qed.

Lemma IS_STATE_ASSIGN (i : Z) (s s' : RayState) (l : Lane) :
  IS_STATE (ASSIGN_RAY_STATE i s l) s' = bool_decide (s = s').
Proof. reflexivity. Qed.

(** *** Stage 1: a slot that hit the background *)

Lemma hit_background_other (ray_index : Z) (l : Lane) :
  ray_state (lane_slot l) <> RAY_HIT_BACKGROUND ->
  hit_background build kernel_data ray_index l = l.
Proof.
  intros H. unfold hit_background.
  apply IS_STATE_false in H. by rewrite H.
Qed.

Lemma hit_background_eq (ray_index : Z) (l : Lane) :
  ray_state (lane_slot l) = RAY_HIT_BACKGROUND ->
  hit_background build kernel_data ray_index l =
    let l1 := if transparent_camera kernel_data l then fold_transparent l else l in
    let l2 :=
      if transparent_camera kernel_data l && negb (background_pass build kernel_data) then l1
      else if BACKGROUND build then shade_background ray_index l1 else l1 in
    ASSIGN_RAY_STATE ray_index RAY_UPDATE_BUFFER l2.
Proof.
  intros H. unfold hit_background, transparent_camera, background_pass.
  assert (IS_STATE l RAY_HIT_BACKGROUND = true) as -> by by apply IS_STATE_true.
  destruct (negb (background_transparent kernel_data =? 0)
            && flag_set (flag (path_state (lane_slot l))) PATH_RAY_CAMERA) eqn:Htc;
    cbn [andb].
  - destruct (PASSES build); cbn [andb negb].
    + destruct (flag_set (film_pass_flag kernel_data) PASS_BACKGROUND);
        cbn [negb].
      * assert (IS_STATE (fold_transparent l) RAY_HIT_BACKGROUND = true) as Hs
          by by apply IS_STATE_true.
        unfold fold_transparent in Hs. rewrite Hs.
        by destruct (BACKGROUND build).
      * by rewrite IS_STATE_ASSIGN.
    + by rewrite IS_STATE_ASSIGN.
  - assert (IS_STATE l RAY_HIT_BACKGROUND = true) as -> by by apply IS_STATE_true.
    by destruct (BACKGROUND build).
Qed.

(** *** Stage 2: a slot whose radiance is flushed *)

Lemma update_buffer_other (ray_index : Z) (l : Lane) :
  ray_state (lane_slot l) <> RAY_UPDATE_BUFFER ->
  update_buffer build ray_index l = l.
Proof.
  intros H. unfold update_buffer.
  apply IS_STATE_false in H. by rewrite H.
Qed.

Lemma update_buffer_eq (ray_index : Z) (l : Lane) :
  ray_state (lane_slot l) = RAY_UPDATE_BUFFER ->
  update_buffer build ray_index l =
    {| lane_slot :=
         set_ray_state RAY_TO_REGENERATE
           (set_path_radiance
              (path_radiance_clamp_and_sum (path_radiance (lane_slot l))).2
              (lane_slot l));
       lane_loc := lane_loc l;
       lane_wp := lane_wp l;
       lane_tr := lane_tr l ++ buffer_flush build ray_index l |}.
Proof.
  intros H. unfold update_buffer, buffer_flush.
  assert (IS_STATE l RAY_UPDATE_BUFFER = true) as -> by by apply IS_STATE_true.
  destruct (path_radiance_clamp_and_sum (path_radiance (lane_slot l)))
    as [L_sum L'].
  destruct (KERNEL_DEBUG build); cbn;
    unfold ASSIGN_RAY_STATE, emit, with_slot; cbn;
    by rewrite <- ?app_assoc.
Qed.

(** *** Stage 3: a slot that asks for new work *)

Lemma regenerate_other (ray_index : Z) (l : Lane) :
  ray_state (lane_slot l) <> RAY_TO_REGENERATE ->
  regenerate build kernel_data split_params ray_index l = l.
Proof.
  intros H. unfold regenerate.
  apply IS_STATE_false in H. by rewrite H.
Qed.

Lemma request_work_refused (ray_index : Z) (l : Lane) :
  no_more_work build split_params ray_index l = true ->
  let l' := request_work build split_params ray_index l in
  lane_slot l' = set_ray_state RAY_INACTIVE (lane_slot l)
  /\ lane_tr l' = lane_tr l ++ [EvAssignRayState ray_index RAY_INACTIVE]
  /\ enqueue_flag (lane_loc l') = enqueue_flag (lane_loc l).
Proof.
  unfold no_more_work, request_work.
  destruct (WORK_STEALING build).
  - destruct (get_next_work _ _ _ _ _ _) as [[valid_work mw] wp'].
    cbn. by intros ->.
  - by intros ->.
Qed.

Lemma request_work_granted (ray_index : Z) (l : Lane) :
  no_more_work build split_params ray_index l = false ->
  let l' := request_work build split_params ray_index l in
  lane_slot l' = lane_slot l
  /\ lane_tr l' = lane_tr l
  /\ enqueue_flag (lane_loc l') = enqueue_flag (lane_loc l)
  /\ sample (lane_loc l') = sample (lane_loc l).
Proof.
  unfold no_more_work, request_work.
  destruct (WORK_STEALING build).
  - destruct (get_next_work _ _ _ _ _ _) as [[valid_work mw] wp'].
    cbn. by intros ->.
  - by intros ->.
Qed.

Lemma regenerate_refused (ray_index : Z) (l : Lane) :
  ray_state (lane_slot l) = RAY_TO_REGENERATE ->
  no_more_work build split_params ray_index l = true ->
  regenerate build kernel_data split_params ray_index l
  = request_work build split_params ray_index l.
Proof.
  intros Hs Hw. unfold regenerate.
  assert (IS_STATE l RAY_TO_REGENERATE = true) as -> by by apply IS_STATE_true.
  destruct (request_work_refused ray_index l Hw) as (Hslot & _ & _).
  assert (IS_STATE (request_work build split_params ray_index l)
            RAY_TO_REGENERATE = false) as ->; [|done].
  apply IS_STATE_false. by rewrite Hslot.
Qed.

Lemma regenerate_granted (ray_index : Z) (l : Lane) :
  ray_state (lane_slot l) = RAY_TO_REGENERATE ->
  no_more_work build split_params ray_index l = false ->
  regenerate build kernel_data split_params ray_index l
  = setup_ray build kernel_data ray_index
      (with_new_work build kernel_data split_params ray_index l).
Proof.
  intros Hs Hw. unfold regenerate, with_new_work.
  assert (IS_STATE l RAY_TO_REGENERATE = true) as -> by by apply IS_STATE_true.
  destruct (request_work_granted ray_index l Hw) as (Hslot & _ & _).
  assert (IS_STATE (request_work build split_params ray_index l)
            RAY_TO_REGENERATE = true) as ->; [|done].
  apply IS_STATE_true. by rewrite Hslot.
Qed.

Lemma setup_ray_degenerate (ray_index : Z) (l : Lane) :
  degenerate l = true ->
  setup_ray build kernel_data ray_index l =
    {| lane_slot :=
         set_ray_state RAY_TO_REGENERATE
           (set_ray (camera_setup l).2
              (set_rng (camera_setup l).1 (lane_slot l)));
       lane_loc := lane_loc l;
       lane_wp := lane_wp l;
       lane_tr := lane_tr l ++ zero_flush ray_index l |}.
Proof.
  unfold degenerate, setup_ray, zero_flush, camera_setup.
  destruct (kernel_path_trace_setup _ _ _ _ _ _ _) as [rng' ray'].
  cbn. intros H. apply negb_true_iff in H. rewrite H.
  unfold ASSIGN_RAY_STATE, emit, with_slot; cbn.
  by rewrite <- !app_assoc.
Qed.

Lemma setup_ray_valid (ray_index : Z) (l : Lane) :
  degenerate l = false ->
  let l' := setup_ray build kernel_data ray_index l in
  ray_state (lane_slot l') = RAY_REGENERATED
  /\ throughput (lane_slot l') = make_float3 f1 f1 f1
  /\ L_transparent (lane_slot l') = f0
  /\ bounce (path_state (lane_slot l')) = 0
  /\ ray (lane_slot l') = (camera_setup l).2
  /\ rng (lane_slot l') = (camera_setup l).1
  /\ work_array (lane_slot l') = work_array (lane_slot l)
  /\ enqueue_flag (lane_loc l') = true
  /\ lane_wp l' = lane_wp l
  /\ lane_tr l' =
       lane_tr l ++
       [EvPathTraceSetup (rng_state (lane_loc l)) (sample (lane_loc l))
          (pixel_x (lane_loc l)) (pixel_y (lane_loc l));
        EvAssignRayState ray_index RAY_REGENERATED].
Proof.
  unfold degenerate, setup_ray, camera_setup.
  destruct (kernel_path_trace_setup _ _ _ _ _ _ _) as [rng' ray'].
  cbn. intros H. apply negb_false_iff in H. rewrite H.
  destruct (KERNEL_DEBUG build); cbn; rewrite <- ?app_assoc; done.
Qed.

Lemma take_work_frame (ray_index : Z) (l : Lane) :
  let l' := take_work build kernel_data split_params ray_index l in
  lane_tr l' = lane_tr l
  /\ lane_wp l' = lane_wp l
  /\ enqueue_flag (lane_loc l') = enqueue_flag (lane_loc l)
  /\ lane_slot l' = set_work_array (work_array (lane_slot l')) (lane_slot l).
Proof.
  unfold take_work. destruct (WORK_STEALING build); [|done].
  by destruct (get_pixel_tile_position _ _ _ _ _ _ _) as [[[px py] tx] ty].
Qed.

Lemma with_new_work_frame (ray_index : Z) (l : Lane) :
  no_more_work build split_params ray_index l = false ->
  let l' := with_new_work build kernel_data split_params ray_index l in
  lane_tr l' = lane_tr l
  /\ enqueue_flag (lane_loc l') = enqueue_flag (lane_loc l)
  /\ lane_slot l' = set_work_array (work_array (lane_slot l')) (lane_slot l).
Proof.
  intros Hw. unfold with_new_work.
  destruct (request_work_granted ray_index l Hw) as (Hs & Ht & He & _).
  destruct (take_work_frame ray_index
              (request_work build split_params ray_index l))
    as (Ht' & _ & He' & Hs').
  cbn. rewrite Ht', He', Ht, He. repeat split; [done..|].
  rewrite Hs'. by rewrite Hs.
Qed.

Lemma assigned_app (a b : list Event) :
  assigned (a ++ b) = assigned a ++ assigned b.
Proof. unfold assigned. apply omap_app. Qed.

Lemma float4_writes_app (a b : list Event) :
  float4_writes (a ++ b) = float4_writes a ++ float4_writes b.
Proof. unfold float4_writes. apply omap_app. Qed.

Lemma claimed_app (a b : list Event) :
  claimed (a ++ b) = claimed a ++ claimed b.
Proof. unfold claimed. apply omap_app. Qed.

Lemma assigned_buffer_flush (ray_index : Z) (l : Lane) :
  assigned (buffer_flush build ray_index l) = [RAY_TO_REGENERATE].
Proof. unfold buffer_flush. by destruct (KERNEL_DEBUG build). Qed.

Lemma float4_writes_buffer_flush (ray_index : Z) (l : Lane) :
  float4_writes (buffer_flush build ray_index l) =
    [(per_sample_output_buffers (lane_loc l), sample (lane_loc l),
      make_float4
        (x3 (path_radiance_clamp_and_sum (path_radiance (lane_slot l))).1)
        (y3 (path_radiance_clamp_and_sum (path_radiance (lane_slot l))).1)
        (z3 (path_radiance_clamp_and_sum (path_radiance (lane_slot l))).1)
        (fsub f1 (L_transparent (lane_slot l))))].
Proof. unfold buffer_flush. by destruct (KERNEL_DEBUG build). Qed.

(** The calls of stage 3 assign at most one state, never one of the two
    states stages 1 and 2 consume. *)
Lemma regenerate_trace (ray_index : Z) (l : Lane) :
  exists evs,
    lane_tr (regenerate build kernel_data split_params ray_index l)
    = lane_tr l ++ evs
    /\ (assigned evs = [] \/ assigned evs = [RAY_INACTIVE]
        \/ assigned evs = [RAY_REGENERATED]
        \/ assigned evs = [RAY_TO_REGENERATE]).
Proof.
  destruct (decide (ray_state (lane_slot l) = RAY_TO_REGENERATE)) as [Hs|Hs];
    [|exists []; rewrite regenerate_other, app_nil_r; auto].
  destruct (no_more_work build split_params ray_index l) eqn:Hw.
  - rewrite regenerate_refused by done.
    destruct (request_work_refused ray_index l Hw) as (_ & Ht & _).
    eexists. split; [exact Ht|]. auto.
  - rewrite regenerate_granted by done.
    destruct (with_new_work_frame ray_index l Hw) as (Ht & _ & _).
    set (l2 := with_new_work build kernel_data split_params ray_index l) in *.
    destruct (degenerate l2) eqn:Hd.
    + rewrite setup_ray_degenerate by done. cbn. rewrite Ht.
      eexists. split; [done|]. auto.
    + destruct (setup_ray_valid ray_index l2 Hd)
        as (_ & _ & _ & _ & _ & _ & _ & _ & _ & Ht2).
      rewrite Ht2, Ht. eexists. split; [done|]. auto.
Qed.

Lemma update_buffer_trace (ray_index : Z) (l : Lane) :
  exists evs,
    lane_tr (update_buffer build ray_index l) = lane_tr l ++ evs
    /\ (assigned evs = [] \/ assigned evs = [RAY_TO_REGENERATE]).
Proof.
  destruct (decide (ray_state (lane_slot l) = RAY_UPDATE_BUFFER)) as [Hs|Hs];
    [|exists []; rewrite update_buffer_other, app_nil_r; auto].
  rewrite update_buffer_eq by done. cbn.
  eexists. split; [done|]. right. apply assigned_buffer_flush.
Qed.

Lemma lane_body_from_update_buffer (ray_index : Z) (r : RaySlot)
    (wp : WorkPool) (tr : list Event) :
  ray_state r <> RAY_HIT_BACKGROUND ->
  lane_body build kernel_data split_params ray_index r wp tr
  = regenerate build kernel_data split_params ray_index
      (update_buffer build ray_index
         (lane_enter build kernel_data split_params ray_index r wp tr)).
Proof. intros H. unfold lane_body. by rewrite hit_background_other. Qed.

Lemma lane_body_from_regenerate (ray_index : Z) (r : RaySlot)
    (wp : WorkPool) (tr : list Event) :
  ray_state r = RAY_TO_REGENERATE ->
  lane_body build kernel_data split_params ray_index r wp tr
  = regenerate build kernel_data split_params ray_index
      (lane_enter build kernel_data split_params ray_index r wp tr).
Proof.
  intros H. rewrite lane_body_from_update_buffer by by rewrite H.
  rewrite update_buffer_other; [done|]. cbn. by rewrite H.
Qed.

(** *** The claims about stages 1 and 2 *)

(** C2, amended.  A slot that enters the stage in RAY_HIT_BACKGROUND is moved
    to RAY_UPDATE_BUFFER exactly once in the invocation: stage 1 assigns that
    state once, and nothing the lane does afterwards assigns it again.
    Before the transition the background is shaded into the radiance
    accumulator (in a build with __BACKGROUND__), except for a camera ray of
    a transparent background whose background pass is not wanted: there the
    radiance accumulator is left as it was and the only call is the state
    assignment. *)
Theorem hit_background_one_transition (ray_index : Z) (r : RaySlot)
    (wp : WorkPool) (tr : list Event) :
  ray_state r = RAY_HIT_BACKGROUND ->
  let l0 := lane_enter build kernel_data split_params ray_index r wp tr in
  let l1 := hit_background build kernel_data ray_index l0 in
  let l := lane_body build kernel_data split_params ray_index r wp tr in
  let skip :=
    transparent_camera kernel_data l0
    && negb (background_pass build kernel_data) in
  ray_state (lane_slot l1) = RAY_UPDATE_BUFFER
  /\ assigned (events_since tr (lane_tr l1)) = [RAY_UPDATE_BUFFER]
  /\ (exists rest,
        assigned (events_since tr (lane_tr l)) = RAY_UPDATE_BUFFER :: rest
        /\ RAY_UPDATE_BUFFER ∉ rest)
  /\ (skip = true ->
        path_radiance (lane_slot l1) = path_radiance r
        /\ events_since tr (lane_tr l1)
           = [EvAssignRayState ray_index RAY_UPDATE_BUFFER])
  /\ (skip = false -> BACKGROUND build = true ->
        path_radiance (lane_slot l1)
        = path_radiance_accum_background (path_radiance r) (throughput r)
            (indirect_background (path_state r) (ray r))
            (bounce (path_state r))
        /\ events_since tr (lane_tr l1)
           = [EvIndirectBackground ray_index;
              EvAssignRayState ray_index RAY_UPDATE_BUFFER]).
Proof.
  intros Hs l0 l1 l skip.
  assert (Heq := hit_background_eq ray_index l0 Hs).
  fold l1 in Heq. cbv zeta in Heq. fold skip in Heq.
  assert (exists evs,
            lane_tr l1 = tr ++ evs
            /\ assigned evs = [RAY_UPDATE_BUFFER]
            /\ ray_state (lane_slot l1) = RAY_UPDATE_BUFFER) as (evs & Ht & Ha & Hs1).
  { rewrite Heq.
    destruct skip, (transparent_camera kernel_data l0), (BACKGROUND build);
      cbn; eexists; rewrite <- ?app_assoc; (split; [reflexivity|done]). }
  split; [done|]. split; [by rewrite Ht, events_since_app|]. split.
  - destruct (update_buffer_trace ray_index l1) as (e2 & Ht2 & Ha2).
    destruct (regenerate_trace ray_index (update_buffer build ray_index l1))
      as (e3 & Ht3 & Ha3).
    exists (assigned e2 ++ assigned e3).
    subst l. unfold lane_body. fold l0. fold l1.
    rewrite Ht3, Ht2, Ht, <- !app_assoc, events_since_app.
    rewrite !assigned_app, Ha. split; [done|].
    destruct Ha2 as [-> | ->], Ha3 as [-> | [-> | [-> | ->]]]; cbn;
      rewrite ?not_elem_of_cons; repeat split;
      solve [discriminate | apply not_elem_of_nil].
  - split.
    + intros Hk. rewrite Heq, Hk.
      destruct (transparent_camera kernel_data l0); cbn;
        rewrite ?events_since_app; done.
    + intros Hk Hb. rewrite Heq, Hk, Hb.
      destruct (transparent_camera kernel_data l0); cbn;
        rewrite <- ?app_assoc, ?events_since_app; done.
Qed.

(** C3, amended.  For a slot in RAY_HIT_BACKGROUND that is a camera ray
    (PATH_RAY_CAMERA set) under the transparent-background policy, and whose
    background pass is not wanted (no __PASSES__, or PASS_BACKGROUND clear),
    the stage adds the average throughput to the transparency accumulator,
    leaves the radiance accumulator alone, does not call the background
    shader, and moves the slot to RAY_UPDATE_BUFFER. *)
Theorem transparent_camera_skips_shading (ray_index : Z) (l : Lane) :
  ray_state (lane_slot l) = RAY_HIT_BACKGROUND ->
  transparent_camera kernel_data l = true ->
  background_pass build kernel_data = false ->
  let l' := hit_background build kernel_data ray_index l in
  L_transparent (lane_slot l')
  = fadd (L_transparent (lane_slot l)) (average (throughput (lane_slot l)))
  /\ path_radiance (lane_slot l') = path_radiance (lane_slot l)
  /\ lane_tr l' = lane_tr l ++ [EvAssignRayState ray_index RAY_UPDATE_BUFFER]
  /\ ray_state (lane_slot l') = RAY_UPDATE_BUFFER.
Proof.
  intros Hs Hc Hp l'. subst l'.
  rewrite hit_background_eq by done. cbv zeta. by rewrite Hc, Hp.
Qed.

(** C4.  For a slot in RAY_UPDATE_BUFFER the stage clamps and sums the
    radiance accumulator, makes exactly one four-channel write, to the lane's
    output slot at the lane's sample, whose colour is the clamped sum and
    whose alpha is 1 minus the accumulated transparency, then ends the
    random stream, then assigns RAY_TO_REGENERATE; that is the only state it
    assigns. *)
Theorem update_buffer_flushes (ray_index : Z) (l : Lane) :
  ray_state (lane_slot l) = RAY_UPDATE_BUFFER ->
  let cs := path_radiance_clamp_and_sum (path_radiance (lane_slot l)) in
  let c := lane_loc l in
  let L_rad :=
    make_float4 (x3 cs.1) (y3 cs.1) (z3 cs.1)
      (fsub f1 (L_transparent (lane_slot l))) in
  let l' := update_buffer build ray_index l in
  let evs := events_since (lane_tr l) (lane_tr l') in
  path_radiance (lane_slot l') = cs.2
  /\ float4_writes evs = [(per_sample_output_buffers c, sample c, L_rad)]
  /\ (exists pre,
        evs = pre ++
              [EvWritePassFloat4 (per_sample_output_buffers c) (sample c) L_rad;
               EvRngEnd (rng_state c) (rng (lane_slot l));
               EvAssignRayState ray_index RAY_TO_REGENERATE]
        /\ float4_writes pre = [] /\ assigned pre = [])
  /\ assigned evs = [RAY_TO_REGENERATE]
  /\ ray_state (lane_slot l') = RAY_TO_REGENERATE.
Proof.
  intros Hs cs c L_rad l' evs. subst l' evs.
  rewrite update_buffer_eq by done. cbn [lane_slot lane_tr].
  rewrite events_since_app.
  split; [done|]. split; [apply float4_writes_buffer_flush|].
  split; [|split; [apply assigned_buffer_flush|done]].
  unfold buffer_flush. fold cs c L_rad.
  eexists. rewrite app_assoc. split; [reflexivity|].
  by destruct (KERNEL_DEBUG build).
Qed.

(** *** The lane as a whole *)

Lemma lane_enter_enqueue_flag (ray_index : Z) (r : RaySlot) (wp : WorkPool)
    (tr : list Event) :
  enqueue_flag
    (lane_loc (lane_enter build kernel_data split_params ray_index r wp tr))
  = false.
Proof.
  cbn. unfold lane_setup. destruct (WORK_STEALING build); [|done].
  by destruct (get_pixel_tile_position _ _ _ _ _ _ _) as [[[??]?]?].
Qed.

(** A slot in a state this stage owns reaches stage 3 in RAY_TO_REGENERATE,
    having claimed nothing yet. *)
Lemma reaches_regenerate (ray_index : Z) (r : RaySlot) (wp : WorkPool)
    (tr : list Event) :
  stage_owned (ray_state r) = true ->
  let l1 :=
    update_buffer build ray_index
      (hit_background build kernel_data ray_index
         (lane_enter build kernel_data split_params ray_index r wp tr)) in
  ray_state (lane_slot l1) = RAY_TO_REGENERATE
  /\ enqueue_flag (lane_loc l1) = false
  /\ exists evs, lane_tr l1 = tr ++ evs /\ claimed evs = [].
Proof.
  intros Ho.
  set (l0 := lane_enter build kernel_data split_params ray_index r wp tr).
  destruct (ray_state r) eqn:Hs; try discriminate Ho.
  - (* RAY_UPDATE_BUFFER *)
    rewrite hit_background_other by (cbn; congruence).
    cbv zeta. rewrite update_buffer_eq by done. cbn [lane_slot lane_loc lane_tr].
    split; [done|]. split.
    + apply lane_enter_enqueue_flag.
    + eexists. split; [done|]. unfold buffer_flush.
      by destruct (KERNEL_DEBUG build).
  - (* RAY_HIT_BACKGROUND *)
    cbv zeta. rewrite hit_background_eq by done. cbv zeta.
    match goal with
    | |- context [update_buffer _ _ ?l] => set (lh := l)
    end.
    assert (ray_state (lane_slot lh) = RAY_UPDATE_BUFFER) as Hu by done.
    assert (enqueue_flag (lane_loc lh) = false) as He.
    { subst lh.
      assert (enqueue_flag (lane_loc l0) = false) as He0.
      { apply lane_enter_enqueue_flag. }
      by destruct (transparent_camera kernel_data l0),
           (background_pass build kernel_data), (BACKGROUND build). }
    assert (exists e1, lane_tr lh = tr ++ e1 /\ claimed e1 = []) as (e1 & Ht & Hc).
    { subst lh.
      destruct (transparent_camera kernel_data l0),
        (background_pass build kernel_data), (BACKGROUND build); cbn;
        eexists; rewrite <- ?app_assoc; (split; [reflexivity|done]). }
    rewrite update_buffer_eq by done. cbn [lane_slot lane_loc lane_tr].
    split; [done|]. split; [done|].
    exists (e1 ++ buffer_flush build ray_index lh).
    rewrite Ht, <- app_assoc. split; [done|].
    rewrite claimed_app, Hc. unfold buffer_flush.
    by destruct (KERNEL_DEBUG build).
  - (* RAY_TO_REGENERATE *)
    rewrite hit_background_other by (cbn; congruence).
    rewrite update_buffer_other by (cbn; congruence).
    split; [done|]. split; [apply lane_enter_enqueue_flag|].
    exists []. by rewrite app_nil_r.
Qed.

(** What stage 3 does to a lane in RAY_TO_REGENERATE, case by case. *)
Lemma regenerate_cases (ray_index : Z) (l : Lane) :
  ray_state (lane_slot l) = RAY_TO_REGENERATE ->
  let l2 := with_new_work build kernel_data split_params ray_index l in
  let l' := regenerate build kernel_data split_params ray_index l in
  (no_more_work build split_params ray_index l = true ->
     ray_state (lane_slot l') = RAY_INACTIVE
     /\ work_array (lane_slot l') = work_array (lane_slot l)
     /\ enqueue_flag (lane_loc l') = enqueue_flag (lane_loc l)
     /\ lane_tr l' = lane_tr l ++ [EvAssignRayState ray_index RAY_INACTIVE])
  /\ (no_more_work build split_params ray_index l = false ->
      degenerate l2 = false ->
      ray_state (lane_slot l') = RAY_REGENERATED
      /\ throughput (lane_slot l') = make_float3 f1 f1 f1
      /\ L_transparent (lane_slot l') = f0
      /\ bounce (path_state (lane_slot l')) = 0
      /\ work_array (lane_slot l') = work_array (lane_slot l2)
      /\ enqueue_flag (lane_loc l') = true
      /\ lane_tr l' =
           lane_tr l ++
           [EvPathTraceSetup (rng_state (lane_loc l2)) (sample (lane_loc l2))
              (pixel_x (lane_loc l2)) (pixel_y (lane_loc l2));
            EvAssignRayState ray_index RAY_REGENERATED])
  /\ (no_more_work build split_params ray_index l = false ->
      degenerate l2 = true ->
      ray_state (lane_slot l') = RAY_TO_REGENERATE
      /\ work_array (lane_slot l') = work_array (lane_slot l2)
      /\ enqueue_flag (lane_loc l') = enqueue_flag (lane_loc l)
      /\ lane_tr l' = lane_tr l ++ zero_flush ray_index l2).
Proof.
  intros Hs l2 l'. subst l'. split; [|split].
  - intros Hw. rewrite regenerate_refused by done.
    destruct (request_work_refused ray_index l Hw) as (Hsl & Ht & He).
    by rewrite Hsl.
  - intros Hw Hd. rewrite regenerate_granted by done. fold l2.
    destruct (with_new_work_frame ray_index l Hw) as (Ht & He & Hsl).
    fold l2 in Ht, He, Hsl.
    destruct (setup_ray_valid ray_index l2 Hd)
      as (H1 & H2 & H3 & H4 & H5 & H6 & H7 & H8 & H9 & H10).
    by rewrite H10, Ht.
  - intros Hw Hd. rewrite regenerate_granted by done. fold l2.
    destruct (with_new_work_frame ray_index l Hw) as (Ht & He & Hsl).
    fold l2 in Ht, He, Hsl.
    rewrite setup_ray_degenerate by done. cbn. by rewrite Ht.
Qed.

(** *** The lane on the global state *)

Lemma pool_get_set (i : Z) (r r' : RaySlot) (p : list RaySlot) :
  pool_get i p = Some r -> pool_get i (pool_set i r' p) = Some r'.
Proof.
  unfold pool_get, pool_set. destruct (i <? 0); [done|].
  intros H. apply list_lookup_insert_eq. by eapply lookup_lt_Some.
Qed.

Lemma pool_get_set_ne (i j : Z) (r' : RaySlot) (p : list RaySlot) :
  i <> j -> pool_get j (pool_set i r' p) = pool_get j p.
Proof.
  unfold pool_get, pool_set. intros Hne.
  destruct (i <? 0) eqn:Hi, (j <? 0) eqn:Hj; try done.
  apply list_lookup_insert_ne. lia.
Qed.

Lemma kernel_background_buffer_update_dequeued (gid0 gid1 gsize0 : Z)
    (g : Globals) (ray_index : Z) (qd : QueueId -> list Z) (r : RaySlot) :
  get_ray_index (gid1 * gsize0 + gid0) QUEUE_HITBG_BUFF_UPDATE_TOREGEN_RAYS
    (queue_data g) (queue_size split_params) 1 = (ray_index, qd) ->
  ray_index <> QUEUE_EMPTY_SLOT ->
  pool_get ray_index (pool g) = Some r ->
  let l := lane_body build kernel_data split_params ray_index r
             (work_pool_wgs g) (trace g) in
  let qi :=
    if gid1 * gsize0 + gid0 =? 0
    then <[QUEUE_HITBG_BUFF_UPDATE_TOREGEN_RAYS := 0]> (queue_index g)
    else queue_index g in
  let e :=
    enqueue_ray_index_local ray_index QUEUE_ACTIVE_AND_REGENERATED_RAYS
      (enqueue_flag (lane_loc l)) (queue_size split_params) qi qd in
  kernel_background_buffer_update build kernel_data split_params
    gid0 gid1 gsize0 g
  = {| pool := pool_set ray_index (lane_slot l) (pool g);
       queue_data := e.2; queue_index := e.1;
       work_pool_wgs := lane_wp l;
       use_queues_flag := use_queues_flag g;
       trace := lane_tr l |}.
Proof.
  intros Hget Hne Hp l qi e. unfold kernel_background_buffer_update.
  rewrite Hget.
  assert ((ray_index =? QUEUE_EMPTY_SLOT) = false) as -> by lia.
  rewrite andb_false_r. cbn [negb]. rewrite Hp.
  fold l. fold qi. fold e. by destruct e.
Qed.

Lemma queue_index_active_reset (b : bool) (qi : QueueId -> Z) :
  (if b then <[QUEUE_HITBG_BUFF_UPDATE_TOREGEN_RAYS := 0]> qi else qi)
    QUEUE_ACTIVE_AND_REGENERATED_RAYS
  = qi QUEUE_ACTIVE_AND_REGENERATED_RAYS.
Proof. by destruct b. Qed.

(** Stages 1 and 2 leave the work unit, the lane's locals and the work pool
    alone. *)
Lemma stages_1_2_frame (ray_index : Z) (r : RaySlot) (wp : WorkPool)
    (tr : list Event) :
  let l1 :=
    update_buffer build ray_index
      (hit_background build kernel_data ray_index
         (lane_enter build kernel_data split_params ray_index r wp tr)) in
  work_array (lane_slot l1) = work_array r
  /\ lane_loc l1 = lane_setup build kernel_data split_params ray_index r
  /\ lane_wp l1 = wp.
Proof.
  set (l0 := lane_enter build kernel_data split_params ray_index r wp tr).
  assert (forall l : Lane,
            let l' := update_buffer build ray_index l in
            work_array (lane_slot l') = work_array (lane_slot l)
            /\ lane_loc l' = lane_loc l /\ lane_wp l' = lane_wp l) as Hub.
  { intros l.
    destruct (decide (ray_state (lane_slot l) = RAY_UPDATE_BUFFER)) as [H|H].
    - cbv zeta. by rewrite update_buffer_eq.
    - cbv zeta. by rewrite update_buffer_other. }
  assert (let l' := hit_background build kernel_data ray_index l0 in
          work_array (lane_slot l') = work_array r
          /\ lane_loc l' = lane_loc l0 /\ lane_wp l' = wp) as Hhb.
  { destruct (decide (ray_state (lane_slot l0) = RAY_HIT_BACKGROUND)) as [H|H].
    - cbv zeta. rewrite hit_background_eq by done. cbv zeta.
      by destruct (transparent_camera kernel_data l0),
           (background_pass build kernel_data), (BACKGROUND build).
    - cbv zeta. by rewrite hit_background_other. }
  cbv zeta in *.
  destruct (Hub (hit_background build kernel_data ray_index l0)) as (H1 & H2 & H3).
  destruct Hhb as (H4 & H5 & H6).
  rewrite H1, H2, H3, H4, H5, H6. done.
Qed.

Lemma lane_body_not_owned (ray_index : Z) (r : RaySlot) (wp : WorkPool)
    (tr : list Event) :
  stage_owned (ray_state r) = false ->
  let l := lane_body build kernel_data split_params ray_index r wp tr in
  lane_slot l = r /\ lane_tr l = tr /\ lane_wp l = wp.
Proof.
  intros Ho. unfold lane_body.
  rewrite hit_background_other by (cbn; intros H; by rewrite H in Ho).
  rewrite update_buffer_other by (cbn; intros H; by rewrite H in Ho).
  rewrite regenerate_other by (cbn; intros H; by rewrite H in Ho).
  done.
Qed.

(** *** The claims about stage 3 *)

(** C5.  A lane dequeues slot [ray_index], which is in RAY_TO_REGENERATE or
    reaches that state in stages 1 and 2.
    - If the Work Distributor has no further work, the slot becomes
      RAY_INACTIVE and nothing is enqueued.
    - If the work unit taken has a camera ray of non-zero length, the slot
      has throughput (1,1,1), zero transparency and zero bounce count, is
      RAY_REGENERATED, and its index is appended to the active queue once:
      the occupancy counter grows by one and the queue's slots are the
      earlier ones followed by [ray_index].
    - If that camera ray has zero length, the slot stays in
      RAY_TO_REGENERATE and nothing is enqueued. *)
Theorem to_regenerate_outcomes (gid0 gid1 gsize0 : Z) (g : Globals)
    (ray_index : Z) (qd : QueueId -> list Z) (r : RaySlot) :
  get_ray_index (gid1 * gsize0 + gid0) QUEUE_HITBG_BUFF_UPDATE_TOREGEN_RAYS
    (queue_data g) (queue_size split_params) 1 = (ray_index, qd) ->
  ray_index <> QUEUE_EMPTY_SLOT ->
  pool_get ray_index (pool g) = Some r ->
  stage_owned (ray_state r) = true ->
  0 <= queue_index g QUEUE_ACTIVE_AND_REGENERATED_RAYS
       < Z.of_nat (length (qd QUEUE_ACTIVE_AND_REGENERATED_RAYS)) ->
  let l1 :=
    update_buffer build ray_index
      (hit_background build kernel_data ray_index
         (lane_enter build kernel_data split_params ray_index r
            (work_pool_wgs g) (trace g))) in
  let l2 := with_new_work build kernel_data split_params ray_index l1 in
  let g' := kernel_background_buffer_update build kernel_data split_params
              gid0 gid1 gsize0 g in
  let pos := queue_index g QUEUE_ACTIVE_AND_REGENERATED_RAYS in
  ray_state (lane_slot l1) = RAY_TO_REGENERATE
  /\ exists r',
    pool_get ray_index (pool g') = Some r'
    /\ (no_more_work build split_params ray_index l1 = true ->
          ray_state r' = RAY_INACTIVE
          /\ queue_index g' QUEUE_ACTIVE_AND_REGENERATED_RAYS = pos
          /\ queue_data g' = qd)
    /\ (no_more_work build split_params ray_index l1 = false ->
        degenerate l2 = false ->
          ray_state r' = RAY_REGENERATED
          /\ throughput r' = make_float3 f1 f1 f1
          /\ L_transparent r' = f0
          /\ bounce (path_state r') = 0
          /\ queue_index g' QUEUE_ACTIVE_AND_REGENERATED_RAYS = pos + 1
          /\ queue_live QUEUE_ACTIVE_AND_REGENERATED_RAYS g'
             = take (Z.to_nat pos) (qd QUEUE_ACTIVE_AND_REGENERATED_RAYS)
               ++ [ray_index]
          /\ queue_data g' QUEUE_HITBG_BUFF_UPDATE_TOREGEN_RAYS
             = qd QUEUE_HITBG_BUFF_UPDATE_TOREGEN_RAYS)
    /\ (no_more_work build split_params ray_index l1 = false ->
        degenerate l2 = true ->
          ray_state r' = RAY_TO_REGENERATE
          /\ queue_index g' QUEUE_ACTIVE_AND_REGENERATED_RAYS = pos
          /\ queue_data g' = qd).
Proof.
  intros Hget Hne Hp Ho Hpos l1 l2 g' pos.
  destruct (reaches_regenerate ray_index r (work_pool_wgs g) (trace g) Ho)
    as (Hs & Hf0 & _).
  fold l1 in Hs, Hf0. split; [done|].
  subst g'. rewrite (kernel_background_buffer_update_dequeued _ _ _ _ _ _ _
                       Hget Hne Hp).
  cbv zeta.
  assert (lane_body build kernel_data split_params ray_index r
            (work_pool_wgs g) (trace g)
          = regenerate build kernel_data split_params ray_index l1) as ->
    by done.
  destruct (regenerate_cases ray_index l1 Hs) as (Hno & Hok & Hdeg).
  fold l2 in Hok, Hdeg.
  eexists. split; [by eapply pool_get_set|].
  cbn [pool queue_data queue_index]. split; [|split].
  - intros Hw. destruct (Hno Hw) as (H1 & _ & H3 & _).
    rewrite H3, Hf0. cbn. by rewrite queue_index_active_reset.
  - intros Hw Hd. destruct (Hok Hw Hd) as (H1 & H2 & H3 & H4 & _ & H6 & _).
    rewrite H6. unfold enqueue_ray_index_local, queue_live.
    cbn [fst snd queue_data queue_index].
    rewrite queue_index_active_reset. fold pos.
    assert ((0 <=? pos) = true) as -> by lia.
    rewrite !fn_lookup_insert, fn_lookup_insert_ne by done.
    repeat (split; [done|]). split; [|done].
    replace (Z.to_nat (pos + 1)) with (S (Z.to_nat pos)) by lia.
    assert (Z.to_nat pos < length (qd QUEUE_ACTIVE_AND_REGENERATED_RAYS))%nat
      as Hlt by lia.
    rewrite (take_S_r _ _ ray_index)
      by (by apply list_lookup_insert_eq).
    by rewrite take_insert_ge by lia.
  - intros Hw Hd. destruct (Hdeg Hw Hd) as (H1 & _ & H3 & _).
    rewrite H3, Hf0. cbn. by rewrite queue_index_active_reset.
Qed.

Lemma static_with_new_work (ray_index : Z) (l : Lane) :
  WORK_STEALING build = false ->
  let ps := parallel_samples split_params in
  let next := uint32 (sample (lane_loc l) + ps) in
  let l2 := with_new_work build kernel_data split_params ray_index l in
  no_more_work build split_params ray_index l
  = (next >=? uint32 (end_sample split_params))
  /\ (no_more_work build split_params ray_index l = false ->
      sample (lane_loc l2) = next
      /\ work_array (lane_slot l2) = next
      /\ pixel_x (lane_loc l2)
         = uint32 (sp_x split_params
                   + cmod (cdiv ray_index ps) (sp_w split_params))
      /\ pixel_y (lane_loc l2)
         = uint32 (sp_y split_params
                   + cdiv (cdiv ray_index ps) (sp_w split_params))
      /\ rng_state (lane_loc l2) = rng_state (lane_loc l)
      /\ per_sample_output_buffers (lane_loc l2)
         = per_sample_output_buffers (lane_loc l)).
Proof.
  intros Hb ps next l2. subst l2.
  unfold no_more_work, with_new_work, request_work, take_work.
  rewrite Hb. fold ps. fold next. split; [done|].
  by intros ->.
Qed.

(** C8, amended.  Under the static partition (no __WORK_STEALING__) a slot
    that asks for work, on entry or after stages 1 and 2, adds the
    parallel-sample stride to its sample counter, in 32-bit unsigned
    arithmetic.  The slot becomes RAY_INACTIVE exactly when the advanced
    counter reaches or exceeds end_sample (>=, not >); its counter then
    stays as it was and it claims nothing.  Otherwise the advanced counter
    is stored in work_array and the slot claims that sample at the pixel its
    ray index fixes. *)
Theorem static_partition_advances (ray_index : Z) (r : RaySlot)
    (wp : WorkPool) (tr : list Event) :
  WORK_STEALING build = false ->
  stage_owned (ray_state r) = true ->
  let ps := parallel_samples split_params in
  let next := uint32 (uint32 (work_array r) + ps) in
  let l' := lane_body build kernel_data split_params ray_index r wp tr in
  let px := uint32 (sp_x split_params
                    + cmod (cdiv ray_index ps) (sp_w split_params)) in
  let py := uint32 (sp_y split_params
                    + cdiv (cdiv ray_index ps) (sp_w split_params)) in
  (ray_state (lane_slot l') = RAY_INACTIVE
   <-> uint32 (end_sample split_params) <= next)
  /\ (uint32 (end_sample split_params) <= next ->
      work_array (lane_slot l') = work_array r
      /\ claimed (events_since tr (lane_tr l')) = [])
  /\ (next < uint32 (end_sample split_params) ->
      work_array (lane_slot l') = next
      /\ claimed (events_since tr (lane_tr l')) = [(px, py, next)]).
Proof.
  intros Hb Ho ps next l' px py.
  destruct (reaches_regenerate ray_index r wp tr Ho) as (Hs & _ & e1 & Ht1 & Hc1).
  destruct (stages_1_2_frame ray_index r wp tr) as (Hwa & Hloc & _).
  set (l1 := update_buffer build ray_index
               (hit_background build kernel_data ray_index
                  (lane_enter build kernel_data split_params
                     ray_index r wp tr))) in *.
  assert (l' = regenerate build kernel_data split_params ray_index l1) as ->
    by done.
  assert (sample (lane_loc l1) = uint32 (work_array r)) as Hsmp.
  { rewrite Hloc. unfold lane_setup. by rewrite Hb. }
  destruct (static_with_new_work ray_index l1 Hb) as (Hnw & Hl2).
  rewrite Hsmp in Hnw, Hl2. fold ps in Hnw, Hl2. fold next in Hnw, Hl2.
  destruct (regenerate_cases ray_index l1 Hs) as (Hno & Hok & Hdeg).
  set (l2 := with_new_work build kernel_data split_params ray_index l1) in *.
  destruct (no_more_work build split_params ray_index l1) eqn:Hw.
  - symmetry in Hnw. apply Z.geb_le in Hnw.
    destruct (Hno eq_refl) as (H1 & H2 & _ & H4).
    split; [done|]. split; [|lia].
    intros _. rewrite H2, H4, Ht1, <- app_assoc, events_since_app.
    by rewrite claimed_app, Hc1.
  - symmetry in Hnw. rewrite Z.geb_leb in Hnw. apply Z.leb_gt in Hnw.
    destruct (Hl2 eq_refl) as (G1 & G2 & G3 & G4 & _).
    assert (ray_state (lane_slot
              (regenerate build kernel_data split_params ray_index l1))
            <> RAY_INACTIVE
            /\ work_array (lane_slot
                 (regenerate build kernel_data split_params ray_index l1)) = next
            /\ claimed (events_since tr (lane_tr
                 (regenerate build kernel_data split_params ray_index l1)))
               = [(px, py, next)]) as (K1 & K2 & K3).
    { destruct (degenerate l2) eqn:Hd.
      - destruct (Hdeg eq_refl eq_refl) as (H1 & H2 & _ & H4).
        rewrite H1, H2, H4, Ht1, <- app_assoc, events_since_app.
        rewrite claimed_app, Hc1. unfold zero_flush. cbn.
        by rewrite G1, G3, G4.
      - destruct (Hok eq_refl eq_refl) as (H1 & _ & _ & _ & H2 & _ & H4).
        rewrite H1, H2, H4, Ht1, <- app_assoc, events_since_app.
        rewrite claimed_app, Hc1. cbn.
        by rewrite G1, G3, G4. }
    split; [split; [done|lia]|]. split; [lia|done].
Qed.

(** C9.  When the work unit a lane has just taken has a camera ray of zero
    length, stage 3 makes exactly one four-channel write, of zero radiance,
    to the output slot and sample of that work unit, ends the random stream
    of that sample, and leaves the slot in RAY_TO_REGENERATE; it makes no
    other call and the kernel returns normally. *)
Theorem degenerate_ray_one_zero_write (ray_index : Z) (l : Lane) :
  ray_state (lane_slot l) = RAY_TO_REGENERATE ->
  no_more_work build split_params ray_index l = false ->
  let l2 := with_new_work build kernel_data split_params ray_index l in
  degenerate l2 = true ->
  let l' := regenerate build kernel_data split_params ray_index l in
  let evs := events_since (lane_tr l) (lane_tr l') in
  let c := lane_loc l2 in
  evs = [EvPathTraceSetup (rng_state c) (sample c) (pixel_x c) (pixel_y c);
         EvWritePassFloat4 (per_sample_output_buffers c) (sample c)
           (make_float4 f0 f0 f0 f0);
         EvRngEnd (rng_state c) (camera_setup l2).1;
         EvAssignRayState ray_index RAY_TO_REGENERATE]
  /\ float4_writes evs
     = [(per_sample_output_buffers c, sample c, make_float4 f0 f0 f0 f0)]
  /\ claimed evs = [(pixel_x c, pixel_y c, sample c)]
  /\ rng (lane_slot l') = (camera_setup l2).1
  /\ ray_state (lane_slot l') = RAY_TO_REGENERATE.
Proof.
  intros Hs Hw l2 Hd l' evs c.
  destruct (regenerate_cases ray_index l Hs) as (_ & _ & Hdeg).
  destruct (Hdeg Hw Hd) as (H1 & _ & _ & H4).
  assert (evs = zero_flush ray_index l2) as ->.
  { subst evs l'. by rewrite H4, events_since_app. }
  split; [done|]. split; [done|]. split; [done|]. split; [|done].
  subst l'. rewrite regenerate_granted by done.
  fold l2. by rewrite setup_ray_degenerate.
Qed.

(** C6, amended.  When the work unit a lane takes has a camera ray of zero
    length, the invocation writes the zero contribution and ends with the
    slot in RAY_TO_REGENERATE, a state this stage owns.  The invocation
    takes that one work unit and asks for no other; asking again is what a
    later invocation of the stage does with the slot: it goes straight to
    stage 3. *)
Theorem degenerate_ray_retry_deferred (ray_index : Z) (r : RaySlot)
    (wp : WorkPool) (tr : list Event) :
  stage_owned (ray_state r) = true ->
  let l1 :=
    update_buffer build ray_index
      (hit_background build kernel_data ray_index
         (lane_enter build kernel_data split_params ray_index r wp tr)) in
  no_more_work build split_params ray_index l1 = false ->
  let l2 := with_new_work build kernel_data split_params ray_index l1 in
  degenerate l2 = true ->
  let l := lane_body build kernel_data split_params ray_index r wp tr in
  ray_state (lane_slot l) = RAY_TO_REGENERATE
  /\ stage_owned (ray_state (lane_slot l)) = true
  /\ claimed (events_since tr (lane_tr l))
     = [(pixel_x (lane_loc l2), pixel_y (lane_loc l2), sample (lane_loc l2))]
  /\ events_since (lane_tr l1) (lane_tr l) = zero_flush ray_index l2
  /\ forall (wp' : WorkPool) (tr' : list Event),
       lane_body build kernel_data split_params ray_index (lane_slot l) wp' tr'
       = regenerate build kernel_data split_params ray_index
           (lane_enter build kernel_data split_params ray_index
              (lane_slot l) wp' tr').
Proof.
  intros Ho l1 Hw l2 Hd l.
  destruct (reaches_regenerate ray_index r wp tr Ho) as (Hs1 & _ & e1 & Ht1 & Hc1).
  fold l1 in Hs1, Ht1.
  destruct (regenerate_cases ray_index l1 Hs1) as (_ & _ & Hdeg).
  destruct (Hdeg Hw Hd) as (H1 & _ & _ & H4).
  assert (l = regenerate build kernel_data split_params ray_index l1) as ->
    by done.
  split; [done|]. split; [by rewrite H1|]. split; [|split].
  - rewrite H4, Ht1, <- app_assoc, events_since_app, claimed_app, Hc1.
    done.
  - by rewrite H4, events_since_app.
  - intros wp' tr'. by apply lane_body_from_regenerate.
Qed.

(** C10.  A lane dequeues slot [ray_index], which is in one of the states
    the input queue carries (RAY_HIT_BACKGROUND, RAY_UPDATE_BUFFER,
    RAY_TO_REGENERATE).  When the lane is done the slot is in
    RAY_TO_REGENERATE, RAY_REGENERATED or RAY_INACTIVE, never in
    RAY_HIT_BACKGROUND or RAY_UPDATE_BUFFER; and it is in RAY_TO_REGENERATE
    only if work was taken whose camera ray has zero length, in which case
    the lane's last calls are the zero write and the end of the random
    stream for that work unit. *)
Theorem stage_settles_slot (gid0 gid1 gsize0 : Z) (g : Globals)
    (ray_index : Z) (qd : QueueId -> list Z) (r : RaySlot) :
  get_ray_index (gid1 * gsize0 + gid0) QUEUE_HITBG_BUFF_UPDATE_TOREGEN_RAYS
    (queue_data g) (queue_size split_params) 1 = (ray_index, qd) ->
  ray_index <> QUEUE_EMPTY_SLOT ->
  pool_get ray_index (pool g) = Some r ->
  stage_owned (ray_state r) = true ->
  let g' := kernel_background_buffer_update build kernel_data split_params
              gid0 gid1 gsize0 g in
  let l1 :=
    update_buffer build ray_index
      (hit_background build kernel_data ray_index
         (lane_enter build kernel_data split_params ray_index r
            (work_pool_wgs g) (trace g))) in
  let l2 := with_new_work build kernel_data split_params ray_index l1 in
  exists r',
    pool_get ray_index (pool g') = Some r'
    /\ (ray_state r' = RAY_TO_REGENERATE \/ ray_state r' = RAY_REGENERATED
        \/ ray_state r' = RAY_INACTIVE)
    /\ ray_state r' <> RAY_HIT_BACKGROUND
    /\ ray_state r' <> RAY_UPDATE_BUFFER
    /\ (ray_state r' = RAY_TO_REGENERATE ->
        no_more_work build split_params ray_index l1 = false
        /\ degenerate l2 = true
        /\ exists pre, trace g' = pre ++ zero_flush ray_index l2).
Proof.
  intros Hget Hne Hp Ho g' l1 l2.
  subst g'. rewrite (kernel_background_buffer_update_dequeued _ _ _ _ _ _ _
                       Hget Hne Hp).
  cbv zeta. cbn [pool trace].
  destruct (reaches_regenerate ray_index r (work_pool_wgs g) (trace g) Ho)
    as (Hs1 & _ & e1 & Ht1 & _).
  fold l1 in Hs1, Ht1.
  assert (lane_body build kernel_data split_params ray_index r
            (work_pool_wgs g) (trace g)
          = regenerate build kernel_data split_params ray_index l1) as ->
    by done.
  destruct (regenerate_cases ray_index l1 Hs1) as (Hno & Hok & Hdeg).
  fold l2 in Hok, Hdeg.
  eexists. split; [by eapply pool_get_set|].
  destruct (no_more_work build split_params ray_index l1) eqn:Hw.
  - destruct (Hno eq_refl) as (H1 & _). rewrite H1.
    repeat split; auto; discriminate.
  - destruct (degenerate l2) eqn:Hd.
    + destruct (Hdeg eq_refl eq_refl) as (H1 & _ & _ & H4). rewrite H1, H4.
      repeat split; auto; try discriminate. by eexists.
    + destruct (Hok eq_refl eq_refl) as (H1 & _). rewrite H1.
      repeat split; auto; discriminate.
Qed.

End LaneProperties.

(** ** Properties of the lamp-emission lane *)

Section LampProperties.
Context `{CO : Collaborators}.
Variable build : Build.
Variable kernel_data : KernelData.
Variable split_params : SplitParams.

Lemma lamp_frame_refl (r : RaySlot) : lamp_frame r r.
Proof. by repeat split. Qed.

Lemma lamp_emission_slot_frame (r : RaySlot) :
  lamp_frame r (lamp_emission_slot build kernel_data r).
Proof.
  unfold lamp_emission_slot.
  destruct (_ || _); [|apply lamp_frame_refl].
  destruct (LAMP_MIS build); [|apply lamp_frame_refl].
  destruct (_ && _); [|apply lamp_frame_refl].
  destruct (indirect_lamp_emission _ _); by repeat split.
Qed.

Lemma pool_set_lookup (i : Z) (r r' : RaySlot) (p : list RaySlot) (j : nat) :
  pool_get i p = Some r ->
  pool_set i r' p !! j = (if decide (Z.to_nat i = j) then Some r' else p !! j).
Proof.
  unfold pool_get, pool_set. destruct (i <? 0); [done|]. intros H.
  apply lookup_lt_Some in H.
  destruct (decide (Z.to_nat i = j)) as [<-|Hne].
  - by apply list_lookup_insert_eq.
  - by apply list_lookup_insert_ne.
Qed.

(** C7, amended.  One lane of the lamp stage changes no slot's state tag;
    of a slot it changes at most the radiance accumulator and the path
    state's ray_t.  It appends to no queue and leaves the work pool and the
    output untouched.  It does change queue occupancy: the lane with global
    id (0,0) sets the active queue's counter to zero; every other counter is
    as before.  The queue arrays are as before or as the dequeue helper
    hands them back. *)
Theorem lamp_emission_frame (gid0 gid1 gsize0 : Z) (g : Globals) :
  let g' := kernel_lamp_emission build kernel_data split_params
              gid0 gid1 gsize0 g in
  length (pool g') = length (pool g)
  /\ (forall (i : nat) (r : RaySlot),
        pool g !! i = Some r ->
        exists r', pool g' !! i = Some r' /\ lamp_frame r r')
  /\ (forall q : QueueId,
        queue_index g' q
        = if bool_decide (gid0 = 0 /\ gid1 = 0
                          /\ q = QUEUE_ACTIVE_AND_REGENERATED_RAYS)
          then 0 else queue_index g q)
  /\ (queue_data g' = queue_data g
      \/ queue_data g'
         = (get_ray_index (gid1 * gsize0 + gid0)
              QUEUE_ACTIVE_AND_REGENERATED_RAYS (queue_data g)
              (queue_size split_params) 1).2)
  /\ work_pool_wgs g' = work_pool_wgs g
  /\ use_queues_flag g' = use_queues_flag g
  /\ trace g' = trace g.
Proof.
  intros g'.
  assert (forall q : QueueId,
            (if (gid0 =? 0) && (gid1 =? 0)
             then <[QUEUE_ACTIVE_AND_REGENERATED_RAYS := 0]> (queue_index g)
             else queue_index g) q
            = if bool_decide (gid0 = 0 /\ gid1 = 0
                              /\ q = QUEUE_ACTIVE_AND_REGENERATED_RAYS)
              then 0 else queue_index g q) as Hqi.
  { intros q. destruct (Z.eqb_spec gid0 0), (Z.eqb_spec gid1 0); cbn;
      try (rewrite bool_decide_eq_false_2; [done|tauto]).
    destruct q.
    - rewrite fn_lookup_insert. by rewrite bool_decide_eq_true_2.
    - rewrite fn_lookup_insert_ne by done.
      rewrite bool_decide_eq_false_2; [done|]. intros (_ & _ & ?). done. }
  assert (forall ray_index,
            length (match pool_get ray_index (pool g) with
                    | Some r => pool_set ray_index
                                  (lamp_emission_slot build kernel_data r)
                                  (pool g)
                    | None => pool g
                    end) = length (pool g)
            /\ forall (i : nat) (r : RaySlot),
                 pool g !! i = Some r ->
                 exists r',
                   match pool_get ray_index (pool g) with
                   | Some r => pool_set ray_index
                                 (lamp_emission_slot build kernel_data r)
                                 (pool g)
                   | None => pool g
                   end !! i = Some r' /\ lamp_frame r r') as Hrun.
  { intros ray_index. destruct (pool_get ray_index (pool g)) as [r0|] eqn:Hg.
    - split.
      + unfold pool_set. destruct (ray_index <? 0); [done|].
        apply length_insert.
      + intros i r Hi. rewrite (pool_set_lookup _ _ _ _ _ Hg).
        destruct (decide (Z.to_nat ray_index = i)) as [<-|Hne].
        * eexists. split; [done|].
          assert (r0 = r) as <-.
          { unfold pool_get in Hg. destruct (ray_index <? 0); [done|].
            congruence. }
          apply lamp_emission_slot_frame.
        * exists r. split; [done|apply lamp_frame_refl].
    - split; [done|]. intros i r Hi. exists r.
      split; [done|apply lamp_frame_refl]. }
  assert (forall (i : nat) (r : RaySlot),
            pool g !! i = Some r ->
            exists r', pool g !! i = Some r' /\ lamp_frame r r') as Hid.
  { intros i r Hi. exists r. split; [done|apply lamp_frame_refl]. }
  subst g'. unfold kernel_lamp_emission.
  destruct (negb (use_queues_flag g =? 0)).
  - destruct (get_ray_index _ _ _ _ _) as [ray_index qd] eqn:Hget.
    destruct (ray_index =? QUEUE_EMPTY_SLOT).
    + cbn. repeat split; auto.
    + destruct (Hrun ray_index) as (Hl & Hf).
      destruct (pool_get ray_index (pool g)); cbn; repeat split; auto.
  - destruct ((gid0 <? _) && (gid1 <? _)).
    + match goal with
      | |- context [pool_get ?i _] => destruct (Hrun i) as (Hl & Hf)
      end.
      destruct (pool_get _ (pool g)); cbn; repeat split; auto.
    + cbn. repeat split; auto.
Qed.

End LampProperties.

(** ** Properties of a full run *)

Section RunProperties.
Context `{CO : Collaborators}.
Variable build : Build.
Variable kernel_data : KernelData.
Variable split_params : SplitParams.

Lemma setup_ray_wp (ray_index : Z) (l : Lane) :
  lane_wp (setup_ray build kernel_data ray_index l) = lane_wp l.
Proof.
  unfold setup_ray.
  destruct (kernel_path_trace_setup _ _ _ _ _ _ _) as [rng' ray'].
  destruct (fneq _ _); [|done]. by destruct (KERNEL_DEBUG build).
Qed.

Lemma regenerate_static_wp (ray_index : Z) (l : Lane) :
  WORK_STEALING build = false ->
  lane_wp (regenerate build kernel_data split_params ray_index l) = lane_wp l.
Proof.
  intros Hb. unfold regenerate.
  destruct (IS_STATE l RAY_TO_REGENERATE); [|done].
  assert (lane_wp (request_work build split_params ray_index l) = lane_wp l)
    as Hr.
  { unfold request_work. rewrite Hb. by destruct (_ >=? _). }
  destruct (IS_STATE (request_work build split_params ray_index l) _);
    [|done].
  rewrite setup_ray_wp.
  destruct (take_work_frame build kernel_data split_params ray_index
              (request_work build split_params ray_index l)) as (_ & H & _).
  by rewrite H.
Qed.

(** The lane under the static partition: the slot retires, or takes the
    next sample of its range, or is not for this stage. *)
Lemma lane_body_static (ray_index : Z) (r : RaySlot) (wp : WorkPool)
    (tr : list Event) :
  WORK_STEALING build = false ->
  let l := lane_body build kernel_data split_params ray_index r wp tr in
  let next := uint32 (uint32 (work_array r)
                      + parallel_samples split_params) in
  lane_wp l = wp
  /\ if stage_owned (ray_state r) then
       if next >=? uint32 (end_sample split_params) then
         ray_state (lane_slot l) = RAY_INACTIVE
         /\ work_array (lane_slot l) = work_array r
         /\ claimed (lane_tr l) = claimed tr
       else
         ray_state (lane_slot l) <> RAY_INACTIVE
         /\ work_array (lane_slot l) = next
         /\ claimed (lane_tr l)
            = claimed tr ++ [(static_pixel_x split_params ray_index,
                              static_pixel_y split_params ray_index, next)]
     else lane_slot l = r /\ lane_tr l = tr.
Proof.
  intros Hb l next.
  destruct (stage_owned (ray_state r)) eqn:Ho;
    [|destruct (lane_body_not_owned build kernel_data split_params ray_index r wp tr Ho) as (?&?&?); done].
  destruct (reaches_regenerate build kernel_data split_params
              ray_index r wp tr Ho) as (Hs1 & _ & e1 & Ht1 & Hc1).
  destruct (stages_1_2_frame build kernel_data split_params ray_index r wp tr) as (Hwa & Hloc & Hwp).
  set (l1 := update_buffer build ray_index
               (hit_background build kernel_data ray_index
                  (lane_enter build kernel_data split_params
                     ray_index r wp tr))) in *.
  assert (l = regenerate build kernel_data split_params ray_index l1) as Hl
    by done.
  assert (sample (lane_loc l1) = uint32 (work_array r)) as Hsmp.
  { rewrite Hloc. unfold lane_setup. by rewrite Hb. }
  destruct (static_with_new_work build kernel_data split_params
              ray_index l1 Hb) as (Hnw & Hl2).
  rewrite Hsmp in Hnw, Hl2. fold next in Hnw, Hl2.
  destruct (regenerate_cases build kernel_data split_params ray_index l1 Hs1)
    as (Hno & Hok & Hdeg).
  rewrite <- Hl in Hno, Hok, Hdeg.
  set (l2 := with_new_work build kernel_data split_params ray_index l1) in *.
  assert (lane_wp l = wp) as Hwpl.
  { rewrite Hl, regenerate_static_wp by done. exact Hwp. }
  split; [done|].
  rewrite <- Hnw.
  destruct (no_more_work build split_params ray_index l1) eqn:Hw.
  - destruct (Hno eq_refl) as (H1 & H2 & _ & H4).
    rewrite H1, H2, H4, Hwa, Ht1, !claimed_app, Hc1. cbn.
    by rewrite !app_nil_r.
  - destruct (Hl2 eq_refl) as (G1 & G2 & G3 & G4 & _).
    destruct (degenerate l2) eqn:Hd.
    + destruct (Hdeg eq_refl eq_refl) as (H1 & H2 & _ & H4).
      rewrite H1, H2, H4, Ht1, !claimed_app, Hc1, G2.
      unfold zero_flush. cbn. rewrite G1, G3, G4, app_nil_r. done.
    + destruct (Hok eq_refl eq_refl) as (H1 & _ & _ & _ & H2 & _ & H4).
      rewrite H1, H2, H4, Ht1, !claimed_app, Hc1, G2. cbn.
      rewrite G1, G3, G4, app_nil_r. done.
Qed.

Lemma uint32_idemp (z : Z) : uint32 (uint32 z) = uint32 z.
Proof. unfold uint32. by rewrite Z.mod_mod. Qed.

Lemma stealing_with_new_work (ray_index : Z) (l : Lane) :
  WORK_STEALING build = true ->
  let res :=
    get_next_work (lane_wp l) (sp_w split_params) (sp_h split_params)
      (num_samples split_params) (parallel_samples split_params)
      ray_index in
  let pos :=
    get_pixel_tile_position (uint32 res.1.2) (sp_w split_params)
      (sp_h split_params) (sp_x split_params) (sp_y split_params)
      (parallel_samples split_params) ray_index in
  let l2 := with_new_work build kernel_data split_params ray_index l in
  no_more_work build split_params ray_index l = (res.1.1 =? 0)
  /\ lane_wp (request_work build split_params ray_index l) = res.2
  /\ (no_more_work build split_params ray_index l = false ->
      lane_wp l2 = res.2
      /\ sample (lane_loc l2)
         = uint32 (get_my_sample (uint32 res.1.2) (sp_w split_params)
                     (sp_h split_params) (parallel_samples split_params)
                     ray_index
                   + start_sample split_params)
      /\ pixel_x (lane_loc l2) = pos.1.1.1
      /\ pixel_y (lane_loc l2) = pos.1.1.2).
Proof.
  intros Hb res pos l2. subst l2 pos res.
  unfold no_more_work, with_new_work, request_work, take_work.
  rewrite Hb.
  destruct (get_next_work _ _ _ _ _ _) as [[valid_work mw] wp'].
  cbn [fst snd]. split; [done|].
  destruct (valid_work =? 0); [done|]. split; [done|]. intros _.
  cbn. rewrite uint32_idemp.
  by destruct (get_pixel_tile_position _ _ _ _ _ _ _) as [[[??]?]?].
Qed.


(** *** Arithmetic of the two partitions *)

Lemma uint32_small (z : Z) : 0 <= z < 2 ^ 32 -> uint32 z = z.
Proof. intros H. unfold uint32. by apply Z.mod_small. Qed.

Lemma div_mod_inj (a b d : Z) :
  0 < d -> a / d = b / d -> a mod d = b mod d -> a = b.
Proof.
  intros Hd Hq Hr.
  rewrite (Z.div_mod a d), (Z.div_mod b d) by lia. by rewrite Hq, Hr.
Qed.

Lemma div_lt_bound (a b c : Z) : 0 < b -> 0 <= a < b * c -> 0 <= a / b < c.
Proof.
  intros Hb Ha. split; [apply Z.div_pos; lia|].
  apply Z.div_lt_upper_bound; lia.
Qed.

Hypothesis Hwf : well_formed split_params.

(** The pixel and first sample of a slot of the pool, in plain arithmetic. *)
Lemma static_slot_facts (i : Z) :
  0 <= i < pool_size split_params ->
  let ps := parallel_samples split_params in
  let sw := sp_w split_params in
  0 <= i / ps < sw * sp_h split_params
  /\ static_pixel_x split_params i = sp_x split_params + (i / ps) mod sw
  /\ static_pixel_y split_params i = sp_y split_params + (i / ps) / sw
  /\ static_first_sample split_params i
     = start_sample split_params + i mod ps.
Proof.
  destruct Hwf as (Hsw & Hsh & Hps & Hse & He & Hsx & Hsxw & Hsy & Hsyh & Hns).
  intros Hi ps sw. unfold pool_size in Hi. fold ps sw in Hi, Hps, Hsw.
  assert (0 <= i / ps < sw * sp_h split_params) as Ht
    by (apply div_lt_bound; lia).
  split; [done|].
  unfold static_pixel_x, static_pixel_y, static_first_sample, cdiv, cmod.
  fold ps sw.
  rewrite !(Z.quot_div_nonneg i ps) by lia.
  rewrite Z.rem_mod_nonneg, Z.quot_div_nonneg by lia.
  assert (0 <= (i / ps) mod sw < sw) by (apply Z.mod_pos_bound; lia).
  assert (0 <= (i / ps) / sw < sp_h split_params)
    by (apply div_lt_bound; lia).
  rewrite !uint32_small by (fold sw in Hsxw; lia).
  split; [done|]. split; [done|].
  rewrite (Z.mod_eq i ps) by lia. lia.
Qed.

(** Distinct (slot, stride) pairs are distinct work units. *)
Lemma static_unit_inj (i i' j j' : Z) :
  0 <= i < pool_size split_params ->
  0 <= i' < pool_size split_params ->
  0 <= j -> 0 <= j' ->
  static_pixel_x split_params i = static_pixel_x split_params i' ->
  static_pixel_y split_params i = static_pixel_y split_params i' ->
  static_first_sample split_params i + j * parallel_samples split_params
  = static_first_sample split_params i'
    + j' * parallel_samples split_params ->
  i = i' /\ j = j'.
Proof.
  intros Hi Hi' Hj Hj' Hx Hy Hs.
  destruct (static_slot_facts i Hi) as (Ht & Ex & Ey & Ef).
  destruct (static_slot_facts i' Hi') as (Ht' & Ex' & Ey' & Ef').
  cbv zeta in *.
  destruct Hwf as (Hsw & Hsh & Hps & _).
  rewrite Ex, Ex' in Hx. rewrite Ey, Ey' in Hy. rewrite Ef, Ef' in Hs.
  set (ps := parallel_samples split_params) in *.
  assert (i / ps = i' / ps) as Hq
    by (apply (div_mod_inj _ _ (sp_w split_params)); lia).
  assert (0 <= i mod ps < ps) by (apply Z.mod_pos_bound; lia).
  assert (0 <= i' mod ps < ps) by (apply Z.mod_pos_bound; lia).
  assert (j = j') as Hjj by nia.
  split; [|done]. apply (div_mod_inj _ _ ps); [lia|done|]. subst j'. lia.
Qed.

(** *** The static partition through a run *)

Lemma pool_get_bounds (i : Z) (p : list RaySlot) (r : RaySlot) :
  pool_get i p = Some r -> 0 <= i < Z.of_nat (length p).
Proof.
  unfold pool_get. destruct (i <? 0) eqn:Hi; [done|]. intros H.
  apply lookup_lt_Some in H. lia.
Qed.

Lemma pool_get_set_cases (i i' : Z) (x r : RaySlot) (p : list RaySlot) :
  pool_get i p = Some r ->
  pool_get i' (pool_set i x p)
  = if bool_decide (i' = i) then Some x else pool_get i' p.
Proof.
  intros H. case_bool_decide as Hii.
  - subst i'. by eapply pool_get_set.
  - by apply pool_get_set_ne.
Qed.

Lemma pool_set_length (i : Z) (x : RaySlot) (p : list RaySlot) :
  length (pool_set i x p) = length p.
Proof. unfold pool_set. destruct (i <? 0); [done|]. apply length_insert. Qed.

Lemma all_inactive_get (g : Globals) (i : Z) (r : RaySlot) :
  all_inactive g -> pool_get i (pool g) = Some r ->
  ray_state r = RAY_INACTIVE.
Proof.
  unfold all_inactive, pool_get. rewrite Forall_lookup. intros Hall.
  destruct (i <? 0); [done|]. apply Hall.
Qed.

(** A step that leaves the slot's counter and the claims as they are. *)
Lemma static_inv_same (g g' : Globals) (i : Z) (r x : RaySlot) :
  static_inv split_params g ->
  pool_get i (pool g) = Some r ->
  pool g' = pool_set i x (pool g) ->
  claimed (trace g') = claimed (trace g) ->
  work_array x = work_array r ->
  (ray_state x = RAY_INACTIVE ->
   end_sample split_params
   <= work_array r + parallel_samples split_params) ->
  (ray_state x <> RAY_INACTIVE -> work_array r < end_sample split_params) ->
  static_inv split_params g'.
Proof.
  intros (Hlen & Hslots & Hnd & Hchar) Hi Hp Hc Hwa Hin Hact.
  unfold static_inv. rewrite Hp, Hc, pool_set_length.
  split; [done|]. split; [|split; [done|]].
  - intros i' r'. rewrite (pool_get_set_cases _ _ _ _ _ Hi).
    case_bool_decide as Hii; [|by apply Hslots].
    intros [= <-]. subst i'.
    destruct (Hslots i r Hi) as (j & Hj & Hw & _).
    exists j. rewrite Hwa. done.
  - intros u. rewrite Hchar. split.
    + intros (i' & r' & j & Hg & Hj & Hu & Hle & Hlt).
      destruct (decide (i' = i)) as [->|Hne].
      * exists i, x, j. rewrite (pool_get_set_cases _ _ _ _ _ Hi).
        rewrite bool_decide_eq_true_2 by done.
        rewrite Hwa. by simplify_eq.
      * exists i', r', j. rewrite (pool_get_set_cases _ _ _ _ _ Hi).
        by rewrite bool_decide_eq_false_2.
    + intros (i' & r' & j & Hg & Hj & Hu & Hle & Hlt).
      rewrite (pool_get_set_cases _ _ _ _ _ Hi) in Hg.
      case_bool_decide as Hii.
      * injection Hg as <-. subst i'. exists i, r, j. by rewrite <- Hwa.
      * by exists i', r', j.
Qed.

(** A step in which the slot takes the next sample of its range. *)
Lemma static_inv_claim (g g' : Globals) (i : Z) (r x : RaySlot) :
  static_inv split_params g ->
  pool_get i (pool g) = Some r ->
  pool g' = pool_set i x (pool g) ->
  claimed (trace g')
  = claimed (trace g)
    ++ [(static_pixel_x split_params i, static_pixel_y split_params i,
         work_array r + parallel_samples split_params)] ->
  work_array x = work_array r + parallel_samples split_params ->
  ray_state x <> RAY_INACTIVE ->
  work_array r + parallel_samples split_params < end_sample split_params ->
  static_inv split_params g'.
Proof.
  intros (Hlen & Hslots & Hnd & Hchar) Hi Hp Hc Hwa Hact Hlt.
  assert (0 < parallel_samples split_params) as Hps
    by (destruct Hwf as (_ & _ & ? & _); lia).
  assert (forall i' r', pool_get i' (pool g) = Some r' ->
                        0 <= i' < pool_size split_params) as Hbnd.
  { intros i' r' Hg. apply pool_get_bounds in Hg. lia. }
  destruct (Hslots i r Hi) as (j & Hj & Hw & _).
  unfold static_inv. rewrite Hp, Hc, pool_set_length.
  split; [done|]. split; [|split].
  - intros i' r'. rewrite (pool_get_set_cases _ _ _ _ _ Hi).
    case_bool_decide as Hii; [|by apply Hslots].
    intros [= <-]. subst i'. exists (j + 1).
    split; [lia|]. split; [lia|]. split; [done|lia].
  - apply list.NoDup_app. split; [done|]. split; [|apply NoDup_singleton].
    intros u Hu Hin. apply list_elem_of_singleton in Hin. subst u.
    apply Hchar in Hu as (i' & r' & j' & Hg & Hj' & Hu & Hle & _).
    injection Hu as Hx Hy Hs.
    destruct (static_unit_inj i i' (j + 1) j') as (-> & <-);
      eauto; try lia.
    cbn in Hle. rewrite Hi in Hg. injection Hg as <-. lia.
  - intros u. rewrite elem_of_app, list_elem_of_singleton, Hchar. split.
    + intros [(i' & r' & j' & Hg & Hj' & Hu & Hle & Hlt')|Hu].
      * destruct (decide (i' = i)) as [->|Hne].
        -- exists i, x, j'. rewrite (pool_get_set_cases _ _ _ _ _ Hi).
           rewrite bool_decide_eq_true_2 by done.
           rewrite Hi in Hg. injection Hg as <-.
           repeat split; try done. lia.
        -- exists i', r', j'. rewrite (pool_get_set_cases _ _ _ _ _ Hi).
           by rewrite bool_decide_eq_false_2.
      * exists i, x, (j + 1). rewrite (pool_get_set_cases _ _ _ _ _ Hi).
        rewrite bool_decide_eq_true_2 by done. subst u. cbn.
        repeat split; try done; try lia. f_equal. lia.
    + intros (i' & r' & j' & Hg & Hj' & Hu & Hle & Hlt').
      rewrite (pool_get_set_cases _ _ _ _ _ Hi) in Hg.
      case_bool_decide as Hii; [|left; by exists i', r', j'].
      injection Hg as <-. subst i'.
      destruct (decide (j' <= j)) as [Hjj|Hjj].
      * left. exists i, r, j'. subst u. cbn in *. repeat split; try done. nia.
      * right. subst u. cbn in *. f_equal.
        assert (j' = j + 1) by nia. subst j'. lia.
Qed.

Lemma static_inv_step (i : Z) (f : RaySlot -> RaySlot) (g : Globals) :
  WORK_STEALING build = false ->
  keeps_work f ->
  static_inv split_params g ->
  static_inv split_params (wave_step build kernel_data split_params i f g).
Proof.
  intros Hb Hf Hinv. unfold wave_step.
  destruct (pool_get i (pool g)) as [r|] eqn:Hi; [|done].
  destruct (Hf r) as (Hwa & Hin).
  pose proof Hinv as (_ & Hslots & _).
  destruct (Hslots i r Hi) as (j & Hj & Hw & Hina & Hact).
  destruct (lane_body_static i (f r) (work_pool_wgs g) (trace g) Hb)
    as (_ & Hcase).
  set (l := lane_body build kernel_data split_params i (f r)
              (work_pool_wgs g) (trace g)) in *.
  destruct (stage_owned (ray_state (f r))) eqn:Ho.
  - assert (ray_state r <> RAY_INACTIVE) as Hr.
    { intros H. apply Hin in H. by rewrite H in Ho. }
    specialize (Hact Hr).
    destruct Hwf as (Hsw & Hsh & Hps & Hse & He & _).
    destruct (pool_get_bounds _ _ _ Hi) as (Hi0 & _).
    assert (0 <= i < pool_size split_params) as Hip.
    { apply pool_get_bounds in Hi. destruct Hinv as (Hlen & _). lia. }
    destruct (static_slot_facts i Hip) as (_ & _ & _ & Ef). cbv zeta in Ef.
    assert (0 <= i mod parallel_samples split_params)
      by (apply Z.mod_pos_bound; lia).
    rewrite Hwa in Hcase.
    rewrite (uint32_small (work_array r)) in Hcase by nia.
    rewrite (uint32_small (work_array r + _)) in Hcase by nia.
    rewrite (uint32_small (end_sample split_params)) in Hcase by lia.
    destruct (_ >=? _) eqn:Hge.
    + destruct Hcase as (H1 & H2 & H3).
      eapply (static_inv_same g _ i r (lane_slot l));
        [exact Hinv|exact Hi|reflexivity|exact H3|exact H2| |].
      * intros _. apply Z.geb_le in Hge. lia.
      * intros H'. by rewrite H1 in H'.
    + destruct Hcase as (H1 & H2 & H3).
      rewrite Z.geb_leb in Hge. apply Z.leb_gt in Hge.
      eapply (static_inv_claim g _ i r (lane_slot l));
        [exact Hinv|exact Hi|reflexivity|exact H3|exact H2|exact H1|exact Hge].
  - destruct Hcase as (H1 & H2).
    eapply (static_inv_same g _ i r (lane_slot l));
      [exact Hinv|exact Hi|reflexivity| | | |]; cbn [trace];
      rewrite ?H1, ?H2; [done|done| |].
    + intros H'. apply Hina. by apply Hin.
    + intros H'. apply Hact. intros H''. apply H'. by apply Hin.
Qed.

Lemma pool_get_initial (template : Z -> RaySlot) (i : Z) (r : RaySlot) :
  pool_get i
    (initial_slot build split_params template
     <$> seqZ 0 (pool_size split_params)) = Some r
  <-> 0 <= i < pool_size split_params
      /\ r = initial_slot build split_params template i.
Proof.
  unfold pool_get. destruct (i <? 0) eqn:Hi.
  - split; [done|]. lia.
  - rewrite list_lookup_fmap, fmap_Some. setoid_rewrite lookup_seqZ.
    split.
    + intros (x & (-> & Hlt) & ->). split; [lia|]. f_equal. lia.
    + intros (Hlt & ->). exists i. split; [lia|done].
Qed.

Lemma NoDup_omap_inj {A B : Type} (f : A -> option B) (l : list A) :
  NoDup l ->
  (forall x y z, x ∈ l -> y ∈ l -> f x = Some z -> f y = Some z -> x = y) ->
  NoDup (omap f l).
Proof.
  induction 1 as [|x l Hx Hl IH]; intros Hinj; [constructor|].
  assert (NoDup (omap f l)) as IH'.
  { apply IH. intros a b z Ha Hb. apply Hinj; by apply list_elem_of_further. }
  cbn. destruct (f x) as [z|] eqn:Hfx; [|done].
  constructor; [|done].
  rewrite list_elem_of_omap. intros (y & Hy & Hfy).
  apply Hx. rewrite (Hinj x y z); auto using list_elem_of_here,
    list_elem_of_further.
Qed.

Lemma claimed_initial (l : list Z) :
  WORK_STEALING build = false ->
  claimed (concat (initial_claim build split_params <$> l))
  = omap (fun i =>
            if static_first_sample split_params i
               <? end_sample split_params
            then Some (static_pixel_x split_params i,
                       static_pixel_y split_params i,
                       static_first_sample split_params i)
            else None) l.
Proof.
  intros Hb. induction l as [|i l IH]; [done|].
  rewrite fmap_cons. cbn [concat]. rewrite claimed_app, IH.
  unfold initial_claim. rewrite Hb. cbn.
  by destruct (_ <? _).
Qed.

Lemma static_inv_initial (template : Z -> RaySlot) (g0 : Globals) :
  WORK_STEALING build = false ->
  static_inv split_params (initial build split_params template g0).
Proof.
  intros Hb.
  assert (0 < parallel_samples split_params) as Hps
    by (destruct Hwf as (_ & _ & ? & _); lia).
  unfold static_inv, initial. cbn [pool trace].
  rewrite claimed_initial by done.
  split; [by rewrite length_fmap, length_seqZ|]. split; [|split].
  - intros i r (Hi & ->)%pool_get_initial. exists 0.
    unfold initial_slot. rewrite Hb. cbn.
    split; [done|]. split; [lia|].
    destruct (_ <? _) eqn:Hlt; split; try done; lia.
  - apply NoDup_omap_inj; [apply NoDup_seqZ|].
    intros x y z Hx%elem_of_seqZ Hy%elem_of_seqZ Hfx Hfy.
    destruct (_ <? _); [|done]. destruct (_ <? _); [|done].
    injection Hfx as <-. injection Hfy as Ex Ey Es.
    destruct (static_unit_inj y x 0 0) as (-> & _); auto; lia.
  - intros u. rewrite list_elem_of_omap. setoid_rewrite elem_of_seqZ.
    setoid_rewrite pool_get_initial. split.
    + intros (i & Hi & Hu). destruct (_ <? _) eqn:Hlt; [|done].
      injection Hu as <-. exists i, (initial_slot build split_params template i), 0.
      unfold initial_slot. rewrite Hb. cbn. rewrite Hlt. cbn.
      repeat split; try done; try lia. f_equal. lia.
    + intros (i & r & j & (Hi & ->) & Hj & -> & Hle & Hlt).
      exists i. split; [lia|].
      unfold initial_slot in Hle. rewrite Hb in Hle. cbn in Hle, Hlt.
      assert (j = 0) as -> by nia.
      assert ((static_first_sample split_params i
               <? end_sample split_params) = true) as -> by lia.
      do 2 f_equal. lia.
Qed.


(** *** The work-stealing pool through a run *)








(** *** Runs preserve the invariants and can always be completed *)

Lemma keeps_work_retire_path : keeps_work retire_path.
Proof.
  intros r. unfold retire_path. case_bool_decide as H; [done|].
  split; [done|]. cbn. split; [done|]. intros H'. by rewrite H' in H.
Qed.

Lemma run_preserves (Q : Globals -> Prop)
    (sched : list (Z * (RaySlot -> RaySlot))) (g : Globals) :
  (forall i f g, keeps_work f -> Q g ->
                 Q (wave_step build kernel_data split_params i f g)) ->
  Forall (fun st => keeps_work st.2) sched ->
  Q g -> Q (run build kernel_data split_params sched g).
Proof.
  intros Hstep Hs. revert g.
  induction Hs as [|[i f] sched Hf Hs IH]; intros g Hg; [done|].
  cbn. apply IH. by apply Hstep.
Qed.

Lemma run_app (s1 s2 : list (Z * (RaySlot -> RaySlot))) (g : Globals) :
  run build kernel_data split_params (s1 ++ s2) g
  = run build kernel_data split_params s2
      (run build kernel_data split_params s1 g).
Proof. unfold run. apply foldl_app. Qed.








End RunProperties.

(** ** The static layout of slots *)

Section StaticLayout.
Context `{CO : Collaborators}.
Variable build : Build.
Variable kernel_data : KernelData.
Variable split_params : SplitParams.

(** A number written in a mixed radix has one pair of digits. *)
Lemma mixed_radix_inj (a b a' b' m : Z) :
  0 <= a < m -> 0 <= a' < m -> a + b * m = a' + b' * m -> a = a' /\ b = b'.
Proof.
  intros Ha Ha' H.
  assert (b = b') as Hb.
  { assert ((a + b * m) / m = b) as E1
      by (rewrite Z.div_add by lia; rewrite Z.div_small by lia; lia).
    assert ((a' + b' * m) / m = b') as E2
      by (rewrite Z.div_add by lia; rewrite Z.div_small by lia; lia).
    rewrite H in E1. congruence. }
  subst b'. lia.
Qed.

(** Lines 155-160 in plain arithmetic. *)
Lemma static_setup_facts (ray_index : Z) (r : RaySlot) :
  WORK_STEALING build = false ->
  0 < sp_w split_params ->
  0 < parallel_samples split_params ->
  0 <= ray_index < 2 ^ 32 ->
  let c := lane_setup build kernel_data split_params ray_index r in
  let ps := parallel_samples split_params in
  let sw := sp_w split_params in
  tile_x c = (ray_index / ps) mod sw
  /\ tile_y c = (ray_index / ps) / sw
  /\ my_sample_tile c = ray_index mod ps
  /\ per_sample_output_buffers c
     = output_buffer_offset kernel_data split_params
         ((ray_index / ps) mod sw) ((ray_index / ps) / sw) (ray_index mod ps)
  /\ rng_state c
     = rng_state_offset split_params
         ((ray_index / ps) mod sw) ((ray_index / ps) / sw).
Proof.
  intros Hws Hsw Hps Hi c ps sw. subst c.
  unfold lane_setup. rewrite Hws. cbn. fold ps sw.
  unfold cdiv, cmod.
  rewrite !(Z.quot_div_nonneg ray_index ps) by lia.
  assert (0 <= ray_index / ps) as Hq by (apply Z.div_pos; lia).
  assert (ray_index / ps <= ray_index) as Hq'
    by (apply Z.div_le_upper_bound; nia).
  rewrite Z.rem_mod_nonneg, Z.quot_div_nonneg by lia.
  assert (0 <= (ray_index / ps) mod sw < sw) by (apply Z.mod_pos_bound; lia).
  assert (0 <= (ray_index / ps) / sw) by (apply Z.div_pos; lia).
  assert ((ray_index / ps) / sw <= ray_index / ps)
    by (apply Z.div_le_upper_bound; nia).
  assert ((ray_index / ps) mod sw <= ray_index / ps)
    by (apply Z.mod_le; lia).
  assert (0 <= ray_index mod ps < ps) by (apply Z.mod_pos_bound; lia).
  assert (ray_index - ray_index / ps * ps = ray_index mod ps) as Em
    by (rewrite (Z.mod_eq ray_index ps) by lia; lia).
  rewrite Em.
  assert (ray_index mod ps <= ray_index) by (apply Z.mod_le; lia).
  rewrite !uint32_small by lia.
  done.
Qed.

(** Under the static partition a slot's index is decoded into a tile
    position and a sample-within-pixel (lines 155-160); encoding the three
    again gives the index back, and each lies within its range. *)
Theorem static_slot_index_round_trip (ray_index : Z) (r : RaySlot) :
  WORK_STEALING build = false ->
  0 < sp_w split_params ->
  0 < parallel_samples split_params ->
  0 <= ray_index < 2 ^ 31 ->
  let c := lane_setup build kernel_data split_params ray_index r in
  let ps := parallel_samples split_params in
  let sw := sp_w split_params in
  (tile_y c * sw + tile_x c) * ps + my_sample_tile c = ray_index
  /\ 0 <= tile_x c < sw
  /\ 0 <= tile_y c
  /\ 0 <= my_sample_tile c < ps
  /\ (ray_index < sw * sp_h split_params * ps -> tile_y c < sp_h split_params).
Proof.
  intros Hws Hsw Hps Hi c ps sw.
  assert (2 ^ 31 < 2 ^ 32) by done.
  destruct (static_setup_facts ray_index r Hws Hsw Hps) as (Ex & Ey & Em & _);
    [lia|].
  fold c ps sw in Ex, Ey, Em. rewrite Ex, Ey, Em.
  assert (0 <= ray_index / ps) by (apply Z.div_pos; lia).
  split.
  { rewrite (Z.mul_comm (ray_index / ps / sw) sw).
    rewrite <- (Z.div_mod (ray_index / ps) sw) by lia.
    rewrite (Z.mul_comm (ray_index / ps) ps).
    by rewrite <- (Z.div_mod ray_index ps) by lia. }
  split; [apply Z.mod_pos_bound; lia|].
  split; [apply Z.div_pos; lia|].
  split; [apply Z.mod_pos_bound; lia|].
  intros Hlt.
  assert (0 <= ray_index / ps < sw * sp_h split_params)
    by (apply div_lt_bound; lia).
  apply div_lt_bound; lia.
Qed.

(** The place of a slot in the output buffer, in units of pass_stride. *)
Lemma static_output_key (i : Z) :
  0 < sp_w split_params ->
  0 < parallel_samples split_params ->
  sp_w split_params <= sp_stride split_params ->
  0 <= i < pool_size split_params ->
  let ps := parallel_samples split_params in
  let sw := sp_w split_params in
  let key := ((i / ps) mod sw + (i / ps) / sw * sp_stride split_params) * ps
             + i mod ps in
  0 <= key < sp_stride split_params * sp_h split_params * ps.
Proof.
  intros Hsw Hps Hst Hi ps sw key. unfold pool_size in Hi.
  fold ps sw in Hi, Hps, Hsw, Hst.
  set (st := sp_stride split_params) in *.
  set (sh := sp_h split_params) in *.
  assert (0 <= i / ps < sw * sh) by (apply div_lt_bound; lia).
  assert (0 <= (i / ps) mod sw < sw) by (apply Z.mod_pos_bound; lia).
  assert (0 <= (i / ps) / sw < sh) by (apply div_lt_bound; lia).
  assert (0 <= i mod ps < ps) by (apply Z.mod_pos_bound; lia).
  set (tx := (i / ps) mod sw) in *.
  set (ty := (i / ps) / sw) in *.
  set (m := i mod ps) in *.
  assert (0 <= ty * st) by (apply Z.mul_nonneg_nonneg; lia).
  assert (ty * st <= (sh - 1) * st)
    by (apply Z.mul_le_mono_nonneg_r; lia).
  assert (0 <= (tx + ty * st) * ps) by (apply Z.mul_nonneg_nonneg; lia).
  assert ((tx + ty * st) * ps <= (st * sh - 1) * ps)
    by (apply Z.mul_le_mono_nonneg_r; lia).
  subst key. lia.
Qed.

(** Two slots of the pool with the same place are the same slot. *)
Lemma static_output_key_inj (i j : Z) :
  0 < sp_w split_params ->
  0 < parallel_samples split_params ->
  sp_w split_params <= sp_stride split_params ->
  0 <= i -> 0 <= j ->
  let ps := parallel_samples split_params in
  let sw := sp_w split_params in
  let st := sp_stride split_params in
  ((i / ps) mod sw + (i / ps) / sw * st) * ps + i mod ps
  = ((j / ps) mod sw + (j / ps) / sw * st) * ps + j mod ps ->
  i = j.
Proof.
  intros Hsw Hps Hst Hi Hj ps sw st E. fold ps sw st in Hsw, Hps, Hst.
  assert (0 <= i mod ps < ps) by (apply Z.mod_pos_bound; lia).
  assert (0 <= j mod ps < ps) by (apply Z.mod_pos_bound; lia).
  assert (0 <= (i / ps) mod sw < sw) by (apply Z.mod_pos_bound; lia).
  assert (0 <= (j / ps) mod sw < sw) by (apply Z.mod_pos_bound; lia).
  destruct (mixed_radix_inj (i mod ps)
              ((i / ps) mod sw + (i / ps) / sw * st)
              (j mod ps) ((j / ps) mod sw + (j / ps) / sw * st) ps)
    as [Em Et]; [done|done|lia|].
  destruct (mixed_radix_inj ((i / ps) mod sw) ((i / ps) / sw)
              ((j / ps) mod sw) ((j / ps) / sw) st)
    as [Ex Ey]; [lia|lia|lia|].
  apply (div_mod_inj _ _ ps); [lia| |done].
  by apply (div_mod_inj _ _ sw); [lia| |].
Qed.

(** Under the static partition two slots of the pool never share a place in
    the output buffer: their places are at least pass_stride floats apart
    (lines 155-164), provided a buffer row holds the tile's width and the
    offsets fit 32 bits. *)
Theorem static_output_slots_disjoint (i j : Z) (r r' : RaySlot) :
  WORK_STEALING build = false ->
  0 < sp_w split_params ->
  0 < parallel_samples split_params ->
  sp_w split_params <= sp_stride split_params ->
  0 < film_pass_stride kernel_data ->
  sp_stride split_params * sp_h split_params * parallel_samples split_params
  * film_pass_stride kernel_data <= 2 ^ 32 ->
  0 <= i < pool_size split_params ->
  0 <= j < pool_size split_params ->
  i <> j ->
  film_pass_stride kernel_data
  <= Z.abs (per_sample_output_buffers
              (lane_setup build kernel_data split_params i r)
            - per_sample_output_buffers
                (lane_setup build kernel_data split_params j r')).
Proof.
  intros Hws Hsw Hps Hst Hpass Hfit Hi Hj Hne.
  pose proof (static_output_key i Hsw Hps Hst Hi) as Ki.
  pose proof (static_output_key j Hsw Hps Hst Hj) as Kj.
  unfold pool_size in Hi, Hj.
  set (ps := parallel_samples split_params) in *.
  set (sw := sp_w split_params) in *.
  set (st := sp_stride split_params) in *.
  set (sh := sp_h split_params) in *.
  set (pass := film_pass_stride kernel_data) in *.
  cbv zeta in Ki, Kj. fold ps sw st sh in Ki, Kj.
  assert (0 <= st * sh * ps) as Hn by lia.
  assert (st * sh * ps * 1 <= st * sh * ps * pass) as Hle
    by (apply Z.mul_le_mono_nonneg_l; lia).
  assert (i < 2 ^ 32 /\ j < 2 ^ 32) as [Hi32 Hj32].
  { assert (sw * sh * ps <= st * sh * ps); [|lia].
    assert (0 <= sh \/ sh < 0) as [Hsh|Hsh] by lia.
    - apply Z.mul_le_mono_nonneg_r; [lia|].
      apply Z.mul_le_mono_nonneg_r; lia.
    - exfalso.
      assert (sw * sh * ps <= 0); [|lia].
      assert (sw * sh <= 0) by (apply Z.mul_nonneg_nonpos; lia).
      apply Z.mul_nonpos_nonneg; lia. }
  destruct (static_setup_facts i r Hws Hsw Hps) as (_ & _ & _ & Ei & _);
    [lia|].
  destruct (static_setup_facts j r' Hws Hsw Hps) as (_ & _ & _ & Ej & _);
    [lia|].
  rewrite Ei, Ej. unfold output_buffer_offset. fold ps sw st sh pass.
  set (ki := ((i / ps) mod sw + (i / ps) / sw * st) * ps + i mod ps) in *.
  set (kj := ((j / ps) mod sw + (j / ps) / sw * st) * ps + j mod ps) in *.
  assert (forall k, 0 <= k < st * sh * ps -> 0 <= k * pass < 2 ^ 32) as Hk.
  { intros k Hk. split; [apply Z.mul_nonneg_nonneg; lia|].
    assert (k * pass <= (st * sh * ps - 1) * pass)
      by (apply Z.mul_le_mono_nonneg_r; lia).
    lia. }
  rewrite !uint32_small by (apply Hk; done).
  assert (ki <> kj) as Hkne.
  { intros E. apply Hne.
    apply (static_output_key_inj i j Hsw Hps Hst); [lia|lia|exact E]. }
  replace (ki * pass - kj * pass) with ((ki - kj) * pass) by lia.
  rewrite Z.abs_mul, (Z.abs_eq pass) by lia.
  assert (1 <= Z.abs (ki - kj)) by lia.
  assert (1 * pass <= Z.abs (ki - kj) * pass)
    by (apply Z.mul_le_mono_nonneg_r; lia).
  lia.
Qed.

(** Under the static partition the random state of line 163 is kept per
    pixel: the parallel samples of a pixel work on the same cell of
    rng_state, and slots of different pixels on different cells, provided a
    row of rng_state holds the tile's width and the offsets are not negative
    and fit 32 bits. *)
Theorem static_rng_state_per_pixel (i j : Z) (r r' : RaySlot) :
  WORK_STEALING build = false ->
  0 < sp_w split_params ->
  0 < parallel_samples split_params ->
  sp_w split_params <= rng_stride split_params ->
  0 <= rng_offset_x split_params ->
  0 <= rng_offset_y split_params ->
  rng_offset_x split_params + sp_w split_params
  + (rng_offset_y split_params + sp_h split_params) * rng_stride split_params
  <= 2 ^ 32 ->
  0 <= i < pool_size split_params ->
  0 <= j < pool_size split_params ->
  i < 2 ^ 32 -> j < 2 ^ 32 ->
  rng_state (lane_setup build kernel_data split_params i r)
  = rng_state (lane_setup build kernel_data split_params j r')
  <-> i / parallel_samples split_params = j / parallel_samples split_params.
Proof.
  intros Hws Hsw Hps Hst Hox Hoy Hfit Hi Hj Hi32 Hj32.
  destruct (static_setup_facts i r Hws Hsw Hps)
    as (_ & _ & _ & _ & Ei); [lia|].
  destruct (static_setup_facts j r' Hws Hsw Hps) as (_ & _ & _ & _ & Ej); [lia|].
  cbv zeta in Ei, Ej. rewrite Ei, Ej. unfold rng_state_offset.
  unfold pool_size in Hi, Hj.
  set (ps := parallel_samples split_params) in *.
  set (sw := sp_w split_params) in *.
  set (sh := sp_h split_params) in *.
  set (st := rng_stride split_params) in *.
  set (ox := rng_offset_x split_params) in *.
  set (oy := rng_offset_y split_params) in *.
  assert (forall k, 0 <= k < sw * sh * ps ->
            0 <= (k / ps) mod sw < sw /\ 0 <= (k / ps) / sw < sh
            /\ 0 <= ox + (k / ps) mod sw
                    + (oy + (k / ps) / sw) * st < 2 ^ 32) as Hk.
  { intros k Hk.
    assert (0 <= k / ps < sw * sh) by (apply div_lt_bound; lia).
    assert (0 <= (k / ps) mod sw < sw) by (apply Z.mod_pos_bound; lia).
    assert (0 <= (k / ps) / sw < sh) by (apply div_lt_bound; lia).
    split; [done|]. split; [done|].
    assert (0 <= (oy + (k / ps) / sw) * st)
      by (apply Z.mul_nonneg_nonneg; lia).
    assert ((oy + (k / ps) / sw) * st <= (oy + sh - 1) * st)
      by (apply Z.mul_le_mono_nonneg_r; lia).
    lia. }
  destruct (Hk i Hi) as (Hxi & Hyi & Hvi).
  destruct (Hk j Hj) as (Hxj & Hyj & Hvj).
  rewrite !uint32_small by lia.
  split.
  - intros E.
    destruct (mixed_radix_inj ((i / ps) mod sw) ((i / ps) / sw)
                ((j / ps) mod sw) ((j / ps) / sw) st)
      as [Ex Ey]; [lia|lia|lia|].
    by apply (div_mod_inj _ _ sw); [lia| |].
  - intros E. by rewrite E.
Qed.

End StaticLayout.

(** ** The calls of one lane *)

Section LaneEvents.
Context `{CO : Collaborators}.
Variable build : Build.
Variable kernel_data : KernelData.
Variable split_params : SplitParams.

Lemma rng_ends_app (a b : list Event) :
  rng_ends (a ++ b) = rng_ends a ++ rng_ends b.
Proof. unfold rng_ends. apply omap_app. Qed.

(** Lines 166-184 on a slot in RAY_HIT_BACKGROUND: what is left alone. *)
Lemma hit_background_effect (ray_index : Z) (l : Lane) :
  ray_state (lane_slot l) = RAY_HIT_BACKGROUND ->
  let l' := hit_background build kernel_data ray_index l in
  ray_state (lane_slot l') = RAY_UPDATE_BUFFER
  /\ lane_loc l' = lane_loc l
  /\ lane_wp l' = lane_wp l
  /\ L_transparent (lane_slot l')
     = (if transparent_camera kernel_data l
        then fadd (L_transparent (lane_slot l))
               (average (throughput (lane_slot l)))
        else L_transparent (lane_slot l))
  /\ rng (lane_slot l') = rng (lane_slot l)
  /\ exists evs,
       lane_tr l' = lane_tr l ++ evs
       /\ float4_writes evs = [] /\ rng_ends evs = [] /\ claimed evs = [].
Proof.
  intros Hs l'. subst l'. rewrite hit_background_eq by done. cbv zeta.
  destruct (transparent_camera kernel_data l),
    (background_pass build kernel_data), (BACKGROUND build); cbn;
    (repeat split; try done);
    rewrite <- ?app_assoc; eexists; (split; [reflexivity|done]).
Qed.

Lemma rng_ends_buffer_flush (ray_index : Z) (l : Lane) :
  rng_ends (buffer_flush build ray_index l)
  = [(rng_state (lane_loc l), rng (lane_slot l))].
Proof. unfold buffer_flush. by destruct (KERNEL_DEBUG build). Qed.

Lemma claimed_buffer_flush (ray_index : Z) (l : Lane) :
  claimed (buffer_flush build ray_index l) = [].
Proof. unfold buffer_flush. by destruct (KERNEL_DEBUG build). Qed.

(** Lines 166-199 on any slot: the calls made, and the one write of a slot
    that entered in RAY_HIT_BACKGROUND or RAY_UPDATE_BUFFER. *)
Lemma stages_1_2_events (ray_index : Z) (r : RaySlot) (wp : WorkPool)
    (tr : list Event) :
  let l0 := lane_enter build kernel_data split_params ray_index r wp tr in
  let l1 :=
    update_buffer build ray_index
      (hit_background build kernel_data ray_index l0) in
  let c := lane_setup build kernel_data split_params ray_index r in
  let flushed :=
    bool_decide (ray_state r = RAY_HIT_BACKGROUND)
    || bool_decide (ray_state r = RAY_UPDATE_BUFFER) in
  let lt :=
    if bool_decide (ray_state r = RAY_HIT_BACKGROUND)
       && transparent_camera kernel_data l0
    then fadd (L_transparent r) (average (throughput r))
    else L_transparent r in
  exists evs,
    lane_tr l1 = tr ++ evs
    /\ claimed evs = []
    /\ (if flushed then
          (exists v, float4_writes evs
                     = [(per_sample_output_buffers c, sample c, v)]
                     /\ w4 v = fsub f1 lt)
          /\ rng_ends evs = [(rng_state c, rng r)]
        else evs = [] /\ l1 = l0).
Proof.
  intros l0 l1 c flushed lt.
  destruct (decide (ray_state r = RAY_HIT_BACKGROUND)) as [Hhb|Hhb].
  - destruct (hit_background_effect ray_index l0 Hhb)
      as (Hs & Hloc & Hwp & HLt & Hrng & evs & Htr & Hw & He & Hc).
    subst l1. rewrite update_buffer_eq by done. cbn [lane_tr].
    rewrite Htr. exists (evs ++ buffer_flush build ray_index
                            (hit_background build kernel_data ray_index l0)).
    split; [by rewrite <- app_assoc|].
    rewrite claimed_app, Hc, claimed_buffer_flush.
    split; [done|].
    subst flushed. rewrite (bool_decide_eq_true_2 _ Hhb). cbn [orb].
    rewrite float4_writes_app, Hw, float4_writes_buffer_flush.
    rewrite rng_ends_app, He, rng_ends_buffer_flush, Hloc, Hrng. cbn [app].
    split; [|done].
    eexists. split; [reflexivity|]. cbn [w4]. rewrite HLt. subst lt.
    rewrite (bool_decide_eq_true_2 _ Hhb). done.
  - subst l1. rewrite hit_background_other by done.
    destruct (decide (ray_state r = RAY_UPDATE_BUFFER)) as [Hub|Hub].
    + rewrite update_buffer_eq by done. cbn [lane_tr].
      exists (buffer_flush build ray_index l0).
      split; [done|]. rewrite claimed_buffer_flush. split; [done|].
      subst flushed. rewrite (bool_decide_eq_false_2 _ Hhb),
        (bool_decide_eq_true_2 _ Hub). cbn [orb].
      rewrite float4_writes_buffer_flush, rng_ends_buffer_flush.
      split; [|done]. eexists. split; [reflexivity|]. cbn [w4].
      subst lt. by rewrite (bool_decide_eq_false_2 _ Hhb).
    + rewrite update_buffer_other by done. exists [].
      split; [by rewrite app_nil_r|]. split; [done|].
      subst flushed. by rewrite (bool_decide_eq_false_2 _ Hhb),
        (bool_decide_eq_false_2 _ Hub).
Qed.

Lemma zero_flush_observed (ray_index : Z) (l : Lane) :
  float4_writes (zero_flush ray_index l)
  = [(per_sample_output_buffers (lane_loc l), sample (lane_loc l),
      make_float4 f0 f0 f0 f0)]
  /\ rng_ends (zero_flush ray_index l)
     = [(rng_state (lane_loc l), (camera_setup l).1)]
  /\ claimed (zero_flush ray_index l)
     = [(pixel_x (lane_loc l), pixel_y (lane_loc l), sample (lane_loc l))].
Proof. done. Qed.

(** Lines 201-265 after lines 166-199, on any slot: the calls of the third
    block and the state the slot is left in. *)
Lemma lane_body_events (ray_index : Z) (r : RaySlot) (wp : WorkPool)
    (tr : list Event) :
  let l0 := lane_enter build kernel_data split_params ray_index r wp tr in
  let l1 :=
    update_buffer build ray_index
      (hit_background build kernel_data ray_index l0) in
  let l2 := with_new_work build kernel_data split_params ray_index l1 in
  let l := lane_body build kernel_data split_params ray_index r wp tr in
  let c2 := lane_loc l2 in
  exists evs,
    lane_tr l = lane_tr l1 ++ evs
    /\ ((stage_owned (ray_state r) = false /\ evs = [] /\ lane_slot l = r)
        \/ (stage_owned (ray_state r) = true
            /\ ray_state (lane_slot l) = RAY_INACTIVE
            /\ evs = [EvAssignRayState ray_index RAY_INACTIVE])
        \/ (stage_owned (ray_state r) = true
            /\ no_more_work build split_params ray_index l1 = false
            /\ ray_state (lane_slot l) = RAY_REGENERATED
            /\ evs = [EvPathTraceSetup (rng_state c2) (sample c2)
                        (pixel_x c2) (pixel_y c2);
                      EvAssignRayState ray_index RAY_REGENERATED])
        \/ (stage_owned (ray_state r) = true
            /\ no_more_work build split_params ray_index l1 = false
            /\ ray_state (lane_slot l) = RAY_TO_REGENERATE
            /\ evs = zero_flush ray_index l2)).
Proof.
  intros l0 l1 l2 l c2.
  destruct (stage_owned (ray_state r)) eqn:Hown.
  - destruct (reaches_regenerate build kernel_data split_params ray_index r
                wp tr Hown) as (Hs & _ & _).
    fold l0 l1 in Hs.
    destruct (regenerate_cases build kernel_data split_params ray_index l1 Hs)
      as (Hno & Hok & Hdeg).
    fold l2 in Hok, Hdeg.
    change (regenerate build kernel_data split_params ray_index l1)
      with l in Hno, Hok, Hdeg.
    destruct (no_more_work build split_params ray_index l1) eqn:Hw.
    + destruct (Hno eq_refl) as (Hst & _ & _ & Htr).
      eexists. split; [exact Htr|]. right; left. done.
    + destruct (degenerate l2) eqn:Hd.
      * destruct (Hdeg eq_refl eq_refl) as (Hst & _ & _ & Htr).
        eexists. split; [exact Htr|]. do 3 right. done.
      * destruct (Hok eq_refl eq_refl) as (Hst & _ & _ & _ & _ & _ & Htr).
        eexists. split; [exact Htr|]. right; right; left. done.
  - destruct (lane_body_not_owned build kernel_data split_params ray_index r
                wp tr Hown) as (Hslot & Htr & _).
    fold l in Hslot, Htr.
    exists []. rewrite app_nil_r. split; [|by left].
    rewrite Htr. subst l1.
    rewrite hit_background_other, update_buffer_other; [done| |];
      cbn; intros E; by rewrite E in Hown.
Qed.

(** The calls of one invocation, counted. *)
Lemma lane_events_count (ray_index : Z) (r : RaySlot) (wp : WorkPool)
    (tr : list Event) :
  let l := lane_body build kernel_data split_params ray_index r wp tr in
  exists evs,
    lane_tr l = tr ++ evs
    /\ (length (float4_writes evs) + (if in_flight (lane_slot l) then 1 else 0)
        = length (claimed evs) + (if in_flight r then 1 else 0))%nat
    /\ length (rng_ends evs) = length (float4_writes evs)
    /\ (length (float4_writes evs) <= 2)%nat
    /\ (length (claimed evs) <= 1)%nat.
Proof.
  intros l.
  destruct (stages_1_2_events ray_index r wp tr)
    as (evs1 & Htr1 & Hc1 & H1).
  destruct (lane_body_events ray_index r wp tr) as (evs3 & Htr & H3).
  cbv zeta in Htr1, H1, Htr, H3. fold l in Htr, H3.
  rewrite Htr1, <- app_assoc in Htr.
  exists (evs1 ++ evs3). split; [exact Htr|].
  rewrite float4_writes_app, rng_ends_app, claimed_app, Hc1, !length_app.
  unfold in_flight.
  destruct H3 as [(Hown & -> & ->)
                 |[(Hown & Hst & ->)
                  |[(Hown & _ & Hst & ->)|(Hown & _ & Hst & ->)]]];
    try rewrite Hst;
    destruct (ray_state r) eqn:Hs; try discriminate Hown;
    cbn [bool_decide decide_rel orb] in H1;
    rewrite ?bool_decide_eq_true_2, ?bool_decide_eq_false_2 in H1
      by congruence;
    cbn [orb] in H1;
    first [ destruct H1 as [-> _]
          | destruct H1 as [(v & -> & _) ->] ];
    cbn; lia.
Qed.

(** One invocation keeps the account of a slot's samples: a write to the
    output buffer closes the work unit under way, the set-up of a camera ray
    opens one (lines 166-265).  Every write comes with the end of a random
    stream; an invocation writes at most twice and claims at most once. *)
Theorem lane_sample_accounting (ray_index : Z) (r : RaySlot) (wp : WorkPool)
    (tr : list Event) :
  let l := lane_body build kernel_data split_params ray_index r wp tr in
  let evs := events_since tr (lane_tr l) in
  (length (float4_writes evs) + (if in_flight (lane_slot l) then 1 else 0)
   = length (claimed evs) + (if in_flight r then 1 else 0))%nat
  /\ length (rng_ends evs) = length (float4_writes evs)
  /\ (length (float4_writes evs) <= 2)%nat
  /\ (length (claimed evs) <= 1)%nat.
Proof.
  intros l evs.
  destruct (lane_events_count ray_index r wp tr) as (evs' & Htr & H).
  fold l in Htr, H. subst evs. rewrite Htr, events_since_app. exact H.
Qed.


(** Under the static partition a slot has one place in the output buffer and
    one pixel: whatever state it enters in, every write of its lane goes to
    the place computed at lines 155-164, every random stream it ends is the
    one of that place, and every camera ray it sets up (lines 234-239) is for
    the pixel at that tile position. *)
Theorem static_lane_output_address (ray_index : Z) (r : RaySlot)
    (wp : WorkPool) (tr : list Event) :
  WORK_STEALING build = false ->
  well_formed split_params ->
  0 <= ray_index < pool_size split_params ->
  ray_index < 2 ^ 31 ->
  let l := lane_body build kernel_data split_params ray_index r wp tr in
  let c := lane_setup build kernel_data split_params ray_index r in
  let evs := events_since tr (lane_tr l) in
  Forall (fun w => w.1.1 = per_sample_output_buffers c) (float4_writes evs)
  /\ Forall (fun e => e.1 = rng_state c) (rng_ends evs)
  /\ Forall (fun u => u.1.1 = sp_x split_params + tile_x c
                      /\ u.1.2 = sp_y split_params + tile_y c)
       (claimed evs).
Proof.
  intros Hws Hwf Hi Hi31 l c evs.
  destruct (stages_1_2_events ray_index r wp tr)
    as (evs1 & Htr1 & Hc1 & H1).
  destruct (lane_body_events ray_index r wp tr) as (evs3 & Htr & H3).
  destruct (stages_1_2_frame build kernel_data split_params ray_index r wp tr)
    as (_ & Hloc & _).
  cbv zeta in Htr1, H1, Htr, H3, Hloc. fold l c in Htr, H3, H1, Hloc.
  set (l1 := update_buffer build ray_index
               (hit_background build kernel_data ray_index
                  (lane_enter build kernel_data split_params ray_index r
                     wp tr))) in *.
  set (l2 := with_new_work build kernel_data split_params ray_index l1) in *.
  rewrite Htr1, <- app_assoc in Htr.
  subst evs. rewrite Htr, events_since_app.
  rewrite float4_writes_app, rng_ends_app, claimed_app, Hc1. cbn [app].
  assert (Forall (fun w => w.1.1 = per_sample_output_buffers c)
            (float4_writes evs1)
          /\ Forall (fun e => e.1 = rng_state c) (rng_ends evs1)) as [Hw1 He1].
  { destruct (_ || _).
    - destruct H1 as [(v & -> & _) ->]. split; by repeat constructor.
    - destruct H1 as [-> _]. split; constructor. }
  assert (no_more_work build split_params ray_index l1 = false ->
          pixel_x (lane_loc l2) = sp_x split_params + tile_x c
          /\ pixel_y (lane_loc l2) = sp_y split_params + tile_y c
          /\ rng_state (lane_loc l2) = rng_state c
          /\ per_sample_output_buffers (lane_loc l2)
             = per_sample_output_buffers c) as Hnew.
  { intros Hno.
    destruct (static_with_new_work build kernel_data split_params ray_index
                l1 Hws) as (_ & Hgo).
    destruct (Hgo Hno) as (_ & _ & Hpx & Hpy & Hrs & Hbuf).
    fold l2 in Hpx, Hpy, Hrs, Hbuf. rewrite Hloc in Hrs, Hbuf.
    destruct (static_slot_facts split_params Hwf ray_index Hi)
      as (_ & Ex & Ey & _).
    unfold static_pixel_x in Ex. unfold static_pixel_y in Ey.
    cbv zeta in Ex, Ey.
    destruct Hwf as (Hsw & _ & Hps & _).
    assert (2 ^ 31 < 2 ^ 32) by done.
    destruct (static_setup_facts build kernel_data split_params ray_index r
                Hws Hsw) as (Etx & Ety & _); [lia|lia|].
    fold c in Etx, Ety.
    rewrite Hpx, Hpy, Ex, Ey, Etx, Ety. done. }
  destruct H3 as [(_ & -> & _)
                 |[(_ & _ & ->)
                  |[(_ & Hno & _ & ->)|(_ & Hno & _ & ->)]]].
  - rewrite !app_nil_r. by repeat split.
  - cbn. rewrite !app_nil_r. by repeat split.
  - destruct (Hnew Hno) as (Hpx & Hpy & _).
    cbn. rewrite !app_nil_r. repeat split; try done.
    by repeat constructor.
  - destruct (Hnew Hno) as (Hpx & Hpy & Hrs & Hbuf).
    destruct (zero_flush_observed ray_index l2) as (-> & -> & ->).
    split; [|split].
    + apply Forall_app. split; [done|]. by repeat constructor.
    + apply Forall_app. split; [done|]. by repeat constructor.
    + by repeat constructor.
Qed.

End LaneEvents.

(** ** Lanes with nothing to do, and what a lane leaves alone *)

Section KernelProperties.
Context `{CO : Collaborators}.
Variable build : Build.
Variable kernel_data : KernelData.
Variable split_params : SplitParams.

Lemma pool_set_same (i : Z) (r : RaySlot) (p : list RaySlot) :
  pool_get i p = Some r -> pool_set i r p = p.
Proof.
  unfold pool_get, pool_set. destruct (i <? 0); [done|].
  apply list_insert_id.
Qed.

(** A slot in a state the stage does not own passes through unchanged. *)
Lemma lane_body_not_owned_eq (ray_index : Z) (r : RaySlot) (wp : WorkPool)
    (tr : list Event) :
  stage_owned (ray_state r) = false ->
  lane_body build kernel_data split_params ray_index r wp tr
  = lane_enter build kernel_data split_params ray_index r wp tr.
Proof.
  intros Hown. unfold lane_body.
  rewrite hit_background_other, update_buffer_other, regenerate_other;
    [done|..]; cbn; intros E; by rewrite E in Hown.
Qed.

(** The lane that has nothing to do: it found the empty slot, a slot outside
    the pool, or a slot in a state the stage does not own. *)
Lemma kernel_background_buffer_update_idle (gid0 gid1 gsize0 : Z)
    (g : Globals) :
  let d := get_ray_index (gid1 * gsize0 + gid0)
             QUEUE_HITBG_BUFF_UPDATE_TOREGEN_RAYS (queue_data g)
             (queue_size split_params) 1 in
  (forall r, d.1 <> QUEUE_EMPTY_SLOT -> pool_get d.1 (pool g) = Some r ->
             stage_owned (ray_state r) = false) ->
  kernel_background_buffer_update build kernel_data split_params
    gid0 gid1 gsize0 g
  = {| pool := pool g; queue_data := d.2;
       queue_index :=
         if gid1 * gsize0 + gid0 =? 0
         then <[QUEUE_HITBG_BUFF_UPDATE_TOREGEN_RAYS := 0]> (queue_index g)
         else queue_index g;
       work_pool_wgs := work_pool_wgs g;
       use_queues_flag := use_queues_flag g; trace := trace g |}.
Proof.
  intros d H. unfold kernel_background_buffer_update. fold d.
  destruct d as [ri qd] eqn:Hd. cbn [fst snd] in *.
  destruct (ri =? QUEUE_EMPTY_SLOT) eqn:He.
  - rewrite andb_true_r. by destruct (COMPUTE_DEVICE_GPU build).
  - rewrite andb_false_r. cbn [negb].
    destruct (pool_get ri (pool g)) as [r|] eqn:Hr; [|done].
    assert (stage_owned (ray_state r) = false) as Hown
      by (apply H; [by apply Z.eqb_neq|done]).
    rewrite lane_body_not_owned_eq by done.
    rewrite (lane_enter_enqueue_flag build kernel_data split_params).
    cbn. by rewrite pool_set_same.
Qed.

(** A lane that finds the empty slot in its queue does nothing to the ray
    pool, the work pool or the output: on a GPU it exits at once (lines
    92-103), elsewhere it skips the body and enqueues nothing (lines
    105-107, 267-280).  Only the lane of thread 0 resets the stage's queue
    counter. *)
Theorem empty_slot_lane_idle (gid0 gid1 gsize0 : Z) (g : Globals)
    (qd : QueueId -> list Z) :
  get_ray_index (gid1 * gsize0 + gid0) QUEUE_HITBG_BUFF_UPDATE_TOREGEN_RAYS
    (queue_data g) (queue_size split_params) 1 = (QUEUE_EMPTY_SLOT, qd) ->
  kernel_background_buffer_update build kernel_data split_params
    gid0 gid1 gsize0 g
  = {| pool := pool g; queue_data := qd;
       queue_index :=
         if gid1 * gsize0 + gid0 =? 0
         then <[QUEUE_HITBG_BUFF_UPDATE_TOREGEN_RAYS := 0]> (queue_index g)
         else queue_index g;
       work_pool_wgs := work_pool_wgs g;
       use_queues_flag := use_queues_flag g; trace := trace g |}.
Proof.
  intros Hd. rewrite kernel_background_buffer_update_idle.
  - by rewrite Hd.
  - rewrite Hd. cbn. done.
Qed.

(** A slot that is RAY_ACTIVE, RAY_REGENERATED or RAY_INACTIVE passes
    through the stage untouched (the guards of lines 166, 186 and 201): the
    slot and the rest of the pool are as before, nothing is written or
    claimed, the work pool is not asked and the slot is not enqueued. *)
Theorem unowned_slot_untouched (gid0 gid1 gsize0 : Z) (g : Globals)
    (ray_index : Z) (qd : QueueId -> list Z) (r : RaySlot) :
  get_ray_index (gid1 * gsize0 + gid0) QUEUE_HITBG_BUFF_UPDATE_TOREGEN_RAYS
    (queue_data g) (queue_size split_params) 1 = (ray_index, qd) ->
  pool_get ray_index (pool g) = Some r ->
  stage_owned (ray_state r) = false ->
  kernel_background_buffer_update build kernel_data split_params
    gid0 gid1 gsize0 g
  = {| pool := pool g; queue_data := qd;
       queue_index :=
         if gid1 * gsize0 + gid0 =? 0
         then <[QUEUE_HITBG_BUFF_UPDATE_TOREGEN_RAYS := 0]> (queue_index g)
         else queue_index g;
       work_pool_wgs := work_pool_wgs g;
       use_queues_flag := use_queues_flag g; trace := trace g |}.
Proof.
  intros Hd Hr Hown. rewrite kernel_background_buffer_update_idle.
  - by rewrite Hd.
  - rewrite Hd. cbn. intros r' _ Hr'. congruence.
Qed.

(** The lane's work does not depend on __COMPUTE_DEVICE_GPU__. *)
Lemma hit_background_device (gpu : bool) (ray_index : Z) (l : Lane) :
  hit_background (with_device gpu build) kernel_data ray_index l
  = hit_background build kernel_data ray_index l.
Proof. reflexivity. Qed.

Lemma update_buffer_device (gpu : bool) (ray_index : Z) (l : Lane) :
  update_buffer (with_device gpu build) ray_index l
  = update_buffer build ray_index l.
Proof. reflexivity. Qed.

Lemma regenerate_device (gpu : bool) (ray_index : Z) (l : Lane) :
  regenerate (with_device gpu build) kernel_data split_params ray_index l
  = regenerate build kernel_data split_params ray_index l.
Proof. reflexivity. Qed.

Lemma lane_body_device (gpu : bool) (ray_index : Z) (r : RaySlot)
    (wp : WorkPool) (tr : list Event) :
  lane_body (with_device gpu build) kernel_data split_params ray_index r wp tr
  = lane_body build kernel_data split_params ray_index r wp tr.
Proof.
  unfold lane_body.
  rewrite regenerate_device, update_buffer_device, hit_background_device.
  reflexivity.
Qed.

(** The early exit of lines 92-103 is an optimisation: the lane computes
    the same state whether or not the build is for a GPU. *)
Theorem device_branch_equivalent (gid0 gid1 gsize0 : Z) (g : Globals) :
  kernel_background_buffer_update (with_device true build) kernel_data
    split_params gid0 gid1 gsize0 g
  = kernel_background_buffer_update (with_device false build) kernel_data
      split_params gid0 gid1 gsize0 g.
Proof.
  unfold kernel_background_buffer_update.
  destruct (get_ray_index _ _ _ _ _) as [ri qd].
  change (COMPUTE_DEVICE_GPU (with_device true build)) with true.
  change (COMPUTE_DEVICE_GPU (with_device false build)) with false.
  cbn [andb].
  destruct (ri =? QUEUE_EMPTY_SLOT); [done|].
  cbn [negb].
  destruct (pool_get ri (pool g)) as [r|]; [|done].
  by rewrite !lane_body_device.
Qed.

End KernelProperties.

(** ** What a lane asks of the work pool and of the queue *)

Section WorkPoolUse.
Context `{CO : Collaborators}.
Variable build : Build.
Variable kernel_data : KernelData.
Variable split_params : SplitParams.

(** An invocation asks the work pool at most once: under work stealing
    get_next_work is called once for a slot the stage owns (line 204), also
    when the work unit it hands out turns out to be a ray of zero length,
    and not at all for any other slot; under the static partition the work
    pool is never touched. *)
Theorem work_pool_asked_once (ray_index : Z) (r : RaySlot) (wp : WorkPool)
    (tr : list Event) :
  lane_wp (lane_body build kernel_data split_params ray_index r wp tr)
  = if WORK_STEALING build && stage_owned (ray_state r)
    then (get_next_work wp (sp_w split_params) (sp_h split_params)
            (num_samples split_params) (parallel_samples split_params)
            ray_index).2
    else wp.
Proof.
  destruct (stage_owned (ray_state r)) eqn:Hown.
  - destruct (reaches_regenerate build kernel_data split_params ray_index r
                wp tr Hown) as (Hs & _ & _).
    destruct (stages_1_2_frame build kernel_data split_params ray_index r
                wp tr) as (_ & _ & Hwp).
    cbv zeta in Hs, Hwp.
    change (lane_body build kernel_data split_params ray_index r wp tr)
      with (regenerate build kernel_data split_params ray_index
              (update_buffer build ray_index
                 (hit_background build kernel_data ray_index
                    (lane_enter build kernel_data split_params ray_index r
                       wp tr)))).
    set (l1 := update_buffer build ray_index _) in *.
    destruct (WORK_STEALING build) eqn:Hws; cbn [andb].
    + destruct (stealing_with_new_work build kernel_data split_params
                  ray_index l1 Hws) as (_ & Hreq & Hnew).
      cbv zeta in Hreq, Hnew. rewrite Hwp in Hreq, Hnew.
      destruct (no_more_work build split_params ray_index l1) eqn:Hno.
      * by rewrite regenerate_refused.
      * rewrite regenerate_granted, setup_ray_wp by done.
        by destruct (Hnew eq_refl) as (-> & _).
    + by rewrite regenerate_static_wp.
  - rewrite andb_false_r.
    by destruct (lane_body_not_owned build kernel_data split_params ray_index
                   r wp tr Hown) as (_ & _ & ->).
Qed.

(** The lane asks for its slot to be enqueued (line 253) exactly when this
    invocation has regenerated it: a slot that is left waiting, is retired,
    or came in already RAY_REGENERATED is not put on the active queue
    again. *)
Theorem enqueued_iff_regenerated (ray_index : Z) (r : RaySlot)
    (wp : WorkPool) (tr : list Event) :
  let l := lane_body build kernel_data split_params ray_index r wp tr in
  enqueue_flag (lane_loc l)
  = stage_owned (ray_state r)
    && bool_decide (ray_state (lane_slot l) = RAY_REGENERATED).
Proof.
  intros l. subst l.
  destruct (stage_owned (ray_state r)) eqn:Hown; cbn [andb].
  - destruct (reaches_regenerate build kernel_data split_params ray_index r
                wp tr Hown) as (Hs & Hfl & _).
    cbv zeta in Hs, Hfl.
    change (lane_body build kernel_data split_params ray_index r wp tr)
      with (regenerate build kernel_data split_params ray_index
              (update_buffer build ray_index
                 (hit_background build kernel_data ray_index
                    (lane_enter build kernel_data split_params ray_index r
                       wp tr)))).
    set (l1 := update_buffer build ray_index _) in *.
    destruct (regenerate_cases build kernel_data split_params ray_index l1 Hs)
      as (Hno & Hok & Hdeg).
    cbv zeta in Hno, Hok, Hdeg.
    destruct (no_more_work build split_params ray_index l1).
    + destruct (Hno eq_refl) as (-> & _ & -> & _). by rewrite Hfl.
    + destruct (degenerate
                  (with_new_work build kernel_data split_params ray_index l1)).
      * destruct (Hdeg eq_refl eq_refl) as (-> & _ & -> & _). by rewrite Hfl.
      * by destruct (Hok eq_refl eq_refl) as (-> & _ & _ & _ & _ & -> & _).
  - unfold lane_body.
    rewrite hit_background_other, update_buffer_other, regenerate_other;
      [apply lane_enter_enqueue_flag|..];
      cbn; intros E; by rewrite E in Hown.
Qed.

End WorkPoolUse.

(** ** The lanes of the lamp stage *)

Section LampLanes.
Context `{CO : Collaborators}.
Variable build : Build.
Variable kernel_data : KernelData.
Variable split_params : SplitParams.

(** The lane of kernel_lamp_emission where no queue is in use: lines 44-47
    and 66-103. *)
Lemma kernel_lamp_emission_direct (x y gsize0 : Z) (g : Globals) :
  use_queues_flag g = 0 ->
  kernel_lamp_emission build kernel_data split_params x y gsize0 g
  = {| pool :=
         if (x <? sp_w split_params * parallel_samples split_params)
            && (y <? sp_h split_params)
         then
           let i := x + y * (sp_w split_params
                             * parallel_samples split_params) in
           match pool_get i (pool g) with
           | Some r =>
               pool_set i (lamp_emission_slot build kernel_data r) (pool g)
           | None => pool g
           end
         else pool g;
       queue_data := queue_data g;
       queue_index :=
         if (x =? 0) && (y =? 0)
         then <[QUEUE_ACTIVE_AND_REGENERATED_RAYS := 0]> (queue_index g)
         else queue_index g;
       work_pool_wgs := work_pool_wgs g;
       use_queues_flag := use_queues_flag g; trace := trace g |}.
Proof.
  intros Hq. unfold kernel_lamp_emission. rewrite Hq. cbn [Z.eqb negb].
  destruct ((x <? _) && (y <? _)); [|done].
  by destruct (pool_get _ _).
Qed.

Lemma pool_set_commute (i j : Z) (a b : RaySlot) (p : list RaySlot) :
  i <> j -> 0 <= i -> 0 <= j ->
  pool_set i a (pool_set j b p) = pool_set j b (pool_set i a p).
Proof.
  intros Hne Hi Hj. unfold pool_set.
  destruct (i <? 0) eqn:Ei; [lia|]. destruct (j <? 0) eqn:Ej; [lia|].
  apply list_insert_insert_ne. lia.
Qed.

(** Where no queue is in use, the lanes of the lamp stage commute: each
    lane inside the tile works on the slot x + y * (w * parallel_samples)
    (line 68), two lanes never on the same one, so the stage gives the same
    state in whatever order its lanes run. *)
Theorem lamp_lanes_commute (x y x' y' gsize0 gsize0' : Z) (g : Globals) :
  use_queues_flag g = 0 ->
  0 <= x -> 0 <= y -> 0 <= x' -> 0 <= y' ->
  kernel_lamp_emission build kernel_data split_params x y gsize0
    (kernel_lamp_emission build kernel_data split_params x' y' gsize0' g)
  = kernel_lamp_emission build kernel_data split_params x' y' gsize0'
      (kernel_lamp_emission build kernel_data split_params x y gsize0 g).
Proof.
  intros Hq Hx Hy Hx' Hy'.
  rewrite (kernel_lamp_emission_direct x' y' gsize0' g Hq).
  rewrite (kernel_lamp_emission_direct x y gsize0 g Hq).
  rewrite !kernel_lamp_emission_direct by done.
  cbn [pool queue_data queue_index work_pool_wgs use_queues_flag trace].
  destruct (decide (x = x' /\ y = y')) as [[-> ->]|Hne]; [done|].
  set (W := sp_w split_params * parallel_samples split_params).
  set (f := lamp_emission_slot build kernel_data).
  f_equal.
  - destruct ((x <? W) && (y <? sp_h split_params)) eqn:Hin;
      destruct ((x' <? W) && (y' <? sp_h split_params)) eqn:Hin';
      try done.
    cbv zeta.
    apply andb_true_iff in Hin as [Hxw _].
    apply andb_true_iff in Hin' as [Hxw' _].
    apply Z.ltb_lt in Hxw, Hxw'.
    assert (x + y * W <> x' + y' * W) as Hij.
    { intros E. apply Hne.
      by apply (mixed_radix_inj x y x' y' W). }
    assert (0 <= y * W) by (apply Z.mul_nonneg_nonneg; lia).
    assert (0 <= y' * W) by (apply Z.mul_nonneg_nonneg; lia).
    destruct (pool_get (x + y * W) (pool g)) as [r|] eqn:Hr;
      destruct (pool_get (x' + y' * W) (pool g)) as [r'|] eqn:Hr';
      rewrite ?pool_get_set_ne by done; rewrite ?Hr, ?Hr'; try done.
    apply pool_set_commute; lia.
  - destruct ((x =? 0) && (y =? 0)) eqn:H0;
      destruct ((x' =? 0) && (y' =? 0)) eqn:H0'; done.
Qed.

(** A lane of the lamp stage rewrites at most one slot of the pool. *)
Lemma kernel_lamp_emission_pool (gid0 gid1 gsize0 : Z) (g : Globals) :
  let g' := kernel_lamp_emission build kernel_data split_params
              gid0 gid1 gsize0 g in
  pool g' = pool g
  \/ exists (ray_index : Z) (r : RaySlot),
       pool_get ray_index (pool g) = Some r
       /\ pool g'
          = pool_set ray_index (lamp_emission_slot build kernel_data r)
              (pool g).
Proof.
  unfold kernel_lamp_emission.
  destruct (negb (use_queues_flag g =? 0)).
  - destruct (get_ray_index _ _ _ _ _) as [ri qd].
    destruct (ri =? QUEUE_EMPTY_SLOT); [by left|].
    destruct (pool_get ri (pool g)) as [r|] eqn:Hr; [|by left].
    right. by exists ri, r.
  - destruct ((gid0 <? _) && (gid1 <? _)); [|by left].
    destruct (pool_get _ (pool g)) as [r|] eqn:Hr; [|by left].
    right. by eexists _, r.
Qed.

(** Lines 74-75 and 83-84: the slots the lamp stage has nothing to add to. *)
Lemma lamp_emission_slot_skip (r : RaySlot) :
  (ray_state r <> RAY_ACTIVE /\ ray_state r <> RAY_HIT_BACKGROUND)
  \/ LAMP_MIS build = false
  \/ integrator_use_lamp_mis kernel_data = 0
  \/ flag_set (flag (path_state r)) PATH_RAY_CAMERA = true ->
  lamp_emission_slot build kernel_data r = r.
Proof.
  intros H. unfold lamp_emission_slot.
  destruct H as [[Ha Hb]|[H|[H|H]]].
  - by rewrite (bool_decide_eq_false_2 _ Ha), (bool_decide_eq_false_2 _ Hb).
  - rewrite H. by destruct (_ || _).
  - rewrite H. cbn. by destruct (_ || _), (LAMP_MIS build).
  - rewrite H. cbn. rewrite andb_false_r.
    by destruct (_ || _), (LAMP_MIS build).
Qed.

(** The lamp stage leaves a slot exactly as it was unless the slot is
    RAY_ACTIVE or RAY_HIT_BACKGROUND (lines 74-75) and, in a build with
    __LAMP_MIS__, lamp sampling is in use and the path is not a camera ray
    (lines 83-84): nothing of such a slot changes, whichever lane runs. *)
Theorem lamp_skips_slot (gid0 gid1 gsize0 : Z) (g : Globals) (i : nat)
    (r : RaySlot) :
  pool g !! i = Some r ->
  (ray_state r <> RAY_ACTIVE /\ ray_state r <> RAY_HIT_BACKGROUND)
  \/ LAMP_MIS build = false
  \/ integrator_use_lamp_mis kernel_data = 0
  \/ flag_set (flag (path_state r)) PATH_RAY_CAMERA = true ->
  pool (kernel_lamp_emission build kernel_data split_params
          gid0 gid1 gsize0 g) !! i = Some r.
Proof.
  intros Hi Hskip.
  destruct (kernel_lamp_emission_pool gid0 gid1 gsize0 g)
    as [->|(ri & r0 & Hr0 & ->)]; [done|].
  rewrite (pool_set_lookup ri r0 _ (pool g) i Hr0).
  case_decide as Hri; [|done].
  f_equal. subst i.
  assert (r0 = r) as ->.
  { unfold pool_get in Hr0. destruct (ri <? 0); [done|]. congruence. }
  by apply lamp_emission_slot_skip.
Qed.

(** A lane of the lamp stage outside the tile (lines 67-71), or one that
    finds the empty slot in the queue (lines 63-65), returns without
    touching a slot. *)
Theorem lamp_idle_lane (gid0 gid1 gsize0 : Z) (g : Globals) :
  (use_queues_flag g = 0
   /\ (sp_w split_params * parallel_samples split_params <= gid0
       \/ sp_h split_params <= gid1))
  \/ (use_queues_flag g <> 0
      /\ (get_ray_index (gid1 * gsize0 + gid0)
            QUEUE_ACTIVE_AND_REGENERATED_RAYS (queue_data g)
            (queue_size split_params) 1).1 = QUEUE_EMPTY_SLOT) ->
  pool (kernel_lamp_emission build kernel_data split_params
          gid0 gid1 gsize0 g) = pool g.
Proof.
  intros [[Hq Hout]|[Hq He]]; unfold kernel_lamp_emission.
  - rewrite Hq. cbn [Z.eqb negb].
    assert ((gid0 <? sp_w split_params * parallel_samples split_params)
            && (gid1 <? sp_h split_params) = false) as ->; [|done].
    apply andb_false_iff. destruct Hout; [left|right]; by apply Z.ltb_ge.
  - apply Z.eqb_neq in Hq. rewrite Hq. cbn [negb].
    destruct (get_ray_index _ _ _ _ _) as [ri qd]. cbn [fst] in He.
    subst ri. by rewrite Z.eqb_refl.
Qed.

End LampLanes.

(** ** The account of samples over a run *)

Section RunAccounting.
Context `{CO : Collaborators}.
Variable build : Build.
Variable kernel_data : KernelData.
Variable split_params : SplitParams.

Lemma all_inactive_pool_set (i : Z) (x : RaySlot) (g : Globals) :
  all_inactive g -> ray_state x = RAY_INACTIVE ->
  Forall (fun r => ray_state r = RAY_INACTIVE) (pool_set i x (pool g)).
Proof.
  intros Hall Hx. unfold pool_set. destruct (i <? 0); [done|].
  by apply Forall_insert.
Qed.

(** Once every slot is retired the run is over for good: whatever the
    schedule goes on to do, the stage finds only RAY_INACTIVE slots, which
    none of its blocks handles (lines 166, 186, 201), so it claims no work
    unit, writes nothing and leaves the work pool alone. *)
Theorem finished_run_stable (sched : list (Z * (RaySlot -> RaySlot)))
    (g : Globals) :
  Forall (fun st => keeps_work st.2) sched ->
  all_inactive g ->
  let g' := run build kernel_data split_params sched g in
  all_inactive g'
  /\ trace g' = trace g
  /\ work_pool_wgs g' = work_pool_wgs g.
Proof.
  intros Hsched Hall.
  apply (run_preserves build kernel_data split_params
           (fun g0 => all_inactive g0 /\ trace g0 = trace g
                      /\ work_pool_wgs g0 = work_pool_wgs g));
    [|done|done].
  intros i f g0 Hf (Hall0 & Htr0 & Hwp0). unfold wave_step.
  destruct (pool_get i (pool g0)) as [r|] eqn:Hr; [|done].
  assert (ray_state (f r) = RAY_INACTIVE) as Hfr.
  { apply (Hf r). by eapply all_inactive_get. }
  destruct (lane_body_not_owned build kernel_data split_params i (f r)
              (work_pool_wgs g0) (trace g0)) as (Hslot & Htr & Hwp);
    [by rewrite Hfr|].
  cbv zeta in Hslot, Htr, Hwp. rewrite Hslot, Htr, Hwp.
  split; [|done]. unfold all_inactive. cbn [pool].
  by apply all_inactive_pool_set.
Qed.



End RunAccounting.

(** ** The output of a run under the static partition *)

Section StaticOutputProperties.
Context `{CO : Collaborators}.
Variable build : Build.
Variable kernel_data : KernelData.
Variable split_params : SplitParams.

Hypothesis Hws : WORK_STEALING build = false.
Hypothesis Hwf : well_formed split_params.

(** Lines 155-164: the lane's offset into the output buffer. *)
Lemma lane_setup_static_place (ray_index : Z) (r : RaySlot) :
  per_sample_output_buffers
    (lane_setup build kernel_data split_params ray_index r)
  = static_output_place kernel_data split_params ray_index.
Proof. unfold lane_setup, static_output_place. by rewrite Hws. Qed.

(** The samples a lane writes, under the static partition: each at the
    place of its slot, from the first sample the slot had not written on,
    none twice. *)
Lemma static_lane_writes (ray_index : Z) (r : RaySlot) (wp : WorkPool)
    (tr : list Event) :
  (stage_owned (ray_state r) = true -> 0 <= work_array r < 2 ^ 31) ->
  let l := lane_body build kernel_data split_params ray_index r wp tr in
  exists evs,
    lane_tr l = tr ++ evs
    /\ Forall (fun w =>
                 w.1.1 = static_output_place kernel_data split_params ray_index
                 /\ unwritten_from r <= w.1.2 < unwritten_from (lane_slot l))
         (float4_writes evs)
    /\ NoDup (fst <$> float4_writes evs)
    /\ unwritten_from r <= unwritten_from (lane_slot l)
    /\ (stage_owned (ray_state r) = true ->
        unwritten_from (lane_slot l)
        <= work_array r + parallel_samples split_params + 1
        /\ forall s,
             s = work_array r
             \/ s = work_array r + parallel_samples split_params ->
             unwritten_from r <= s < unwritten_from (lane_slot l) ->
             (static_output_place kernel_data split_params ray_index, s)
             ∈ fst <$> float4_writes evs).
Proof.
  intros Hbound l.
  destruct (stage_owned (ray_state r)) eqn:Hown.
  2:{ destruct (lane_body_not_owned build kernel_data split_params ray_index r
                  wp tr Hown) as (Hslot & Htr & _).
      fold l in Hslot, Htr. exists []. rewrite app_nil_r, Hslot.
      split; [done|]. split; [constructor|]. split; [constructor|].
      split; [lia|done]. }
  specialize (Hbound eq_refl).
  destruct Hwf as (Hsw & Hsh & Hps & _).
  destruct (stages_1_2_events build kernel_data split_params ray_index r wp tr)
    as (evs1 & Htr1 & _ & H1).
  destruct (stages_1_2_frame build kernel_data split_params ray_index r wp tr)
    as (Hwa1 & Hloc1 & _).
  destruct (reaches_regenerate build kernel_data split_params ray_index r
              wp tr Hown) as (Hs1 & _ & _).
  cbv zeta in Htr1, H1, Hwa1, Hloc1, Hs1.
  set (l1 := update_buffer build ray_index
               (hit_background build kernel_data ray_index
                  (lane_enter build kernel_data split_params ray_index r
                     wp tr))) in *.
  set (c := lane_setup build kernel_data split_params ray_index r) in *.
  assert (sample c = work_array r) as Hsc.
  { subst c. unfold lane_setup. rewrite Hws. cbn.
    assert (2 ^ 31 < 2 ^ 32) by done. apply uint32_small. lia. }
  assert (per_sample_output_buffers c
          = static_output_place kernel_data split_params ray_index) as Hpc
    by apply lane_setup_static_place.
  destruct (static_with_new_work build kernel_data split_params ray_index l1
              Hws) as (_ & Hnew).
  destruct (regenerate_cases build kernel_data split_params ray_index l1 Hs1)
    as (Hno & Hok & Hdeg).
  cbv zeta in Hnew, Hno, Hok, Hdeg.
  change (regenerate build kernel_data split_params ray_index l1)
    with l in Hno, Hok, Hdeg.
  set (l2 := with_new_work build kernel_data split_params ray_index l1) in *.
  rewrite Hloc1, Hsc in Hnew.
  assert (uint32 (work_array r + parallel_samples split_params)
          = work_array r + parallel_samples split_params) as Hnext.
  { assert (2 ^ 31 + 2 ^ 31 = 2 ^ 32) by done. apply uint32_small. lia. }
  rewrite Hnext in Hnew.
  (* the write of lines 186-199 and the slot's first unwritten sample *)
  assert (exists ws1,
            float4_writes evs1 = ws1
            /\ ((in_flight r = true
                 /\ exists v, ws1 = [(static_output_place kernel_data
                                        split_params ray_index,
                                      work_array r, v)])
                \/ (in_flight r = false /\ ws1 = []))) as (ws1 & Hws1 & Hcase1).
  { eexists. split; [reflexivity|]. unfold in_flight.
    destruct (ray_state r) eqn:Hs; try discriminate Hown;
      cbn [bool_decide decide_rel orb] in H1;
      rewrite ?bool_decide_eq_true_2, ?bool_decide_eq_false_2 in H1
        by congruence;
      cbn [orb] in H1.
    - left. destruct H1 as [(v & -> & _) _]. split; [done|].
      exists v. by rewrite Hpc, Hsc.
    - left. destruct H1 as [(v & -> & _) _]. split; [done|].
      exists v. by rewrite Hpc, Hsc.
    - right. by destruct H1 as [-> _]. }
  assert (forall (x : Z * Z) (ws : list (Z * Z)),
            x ∈ x :: ws) as Hhere by (intros; apply list_elem_of_here).
  destruct (no_more_work build split_params ray_index l1) eqn:Hnmw.
  - (* retired *)
    destruct (Hno eq_refl) as (Hst & Hwa & _ & Htr).
    exists (evs1 ++ [EvAssignRayState ray_index RAY_INACTIVE]).
    rewrite Htr, Htr1, <- app_assoc. split; [done|].
    rewrite float4_writes_app, Hws1. cbn [float4_writes omap app].
    change (omap _ [EvAssignRayState ray_index RAY_INACTIVE])
      with (@nil (Z * Z * float4)).
    rewrite app_nil_r.
    assert (unwritten_from (lane_slot l) = work_array r + 1) as ->
      by (unfold unwritten_from, in_flight; rewrite Hst, Hwa, Hwa1; done).
    unfold unwritten_from.
    destruct Hcase1 as [(Hf & v & ->)|(Hf & ->)]; rewrite Hf.
    + split; [repeat constructor; cbn; lia|].
      split; [cbn; apply NoDup_singleton|]. split; [lia|]. intros _.
      split; [lia|]. intros s [->| ->] Hr; [apply Hhere|lia].
    + split; [constructor|]. split; [constructor|]. split; [lia|].
      intros _. split; [lia|]. intros s Hs Hr. lia.
  - destruct (Hnew eq_refl) as (Hs2 & Hwa2 & _ & _ & _ & Hbuf2).
    rewrite Hpc in Hbuf2.
    destruct (degenerate l2) eqn:Hd.
    + (* a ray of zero length *)
      destruct (Hdeg eq_refl eq_refl) as (Hst & Hwa & _ & Htr).
      exists (evs1 ++ zero_flush ray_index l2).
      rewrite Htr, Htr1, <- app_assoc. split; [done|].
      rewrite float4_writes_app, Hws1.
      destruct (zero_flush_observed ray_index l2) as (-> & _ & _).
      rewrite Hbuf2, Hs2.
      assert (unwritten_from (lane_slot l)
              = work_array r + parallel_samples split_params + 1) as ->
        by (unfold unwritten_from, in_flight; rewrite Hst, Hwa, Hwa2; done).
      unfold unwritten_from.
      destruct Hcase1 as [(Hf & v & ->)|(Hf & ->)]; rewrite Hf.
      * split; [repeat constructor; cbn; lia|].
        split.
        { cbn. apply NoDup_cons_2; [|apply NoDup_singleton].
          rewrite list_elem_of_singleton. intros [= E]. lia. }
        split; [lia|]. intros _. split; [lia|].
        intros s [->| ->] Hr; [apply Hhere|].
        apply list_elem_of_further, Hhere.
      * split; [repeat constructor; cbn; lia|].
        split; [cbn; apply NoDup_singleton|]. split; [lia|]. intros _.
        split; [lia|]. intros s [->| ->] Hr; [lia|apply Hhere].
    + (* regenerated *)
      destruct (Hok eq_refl eq_refl) as (Hst & _ & _ & _ & Hwa & _ & Htr).
      eexists. rewrite Htr, Htr1, <- app_assoc. split; [reflexivity|].
      rewrite float4_writes_app, Hws1. cbn [float4_writes omap app].
      rewrite app_nil_r.
      assert (unwritten_from (lane_slot l)
              = work_array r + parallel_samples split_params) as ->
        by (unfold unwritten_from, in_flight; rewrite Hst, Hwa, Hwa2; lia).
      unfold unwritten_from.
      destruct Hcase1 as [(Hf & v & ->)|(Hf & ->)]; rewrite Hf.
      * split; [repeat constructor; cbn; lia|].
        split; [cbn; apply NoDup_singleton|]. split; [lia|]. intros _.
        split; [lia|]. intros s [->| ->] Hr; [apply Hhere|lia].
      * split; [constructor|]. split; [constructor|]. split; [lia|].
        intros _. split; [lia|]. intros s [->| ->] Hr; lia.
Qed.

Hypothesis Hfit : buffer_fits kernel_data split_params.

Lemma pool_size_fits : pool_size split_params <= 2 ^ 32.
Proof.
  destruct Hwf as (Hsw & Hsh & Hps & _).
  destruct Hfit as (Hst & Hpass & Hmax). unfold pool_size.
  set (ps := parallel_samples split_params) in *.
  set (sw := sp_w split_params) in *.
  set (st := sp_stride split_params) in *.
  set (sh := sp_h split_params) in *.
  set (pass := film_pass_stride kernel_data) in *.
  assert (sw * sh <= st * sh) by (apply Z.mul_le_mono_nonneg_r; lia).
  assert (0 <= st * sh) by (apply Z.mul_nonneg_nonneg; lia).
  assert (sw * sh * ps <= st * sh * ps)
    by (apply Z.mul_le_mono_nonneg_r; lia).
  assert (0 <= st * sh * ps) by (apply Z.mul_nonneg_nonneg; lia).
  assert (st * sh * ps * 1 <= st * sh * ps * pass)
    by (apply Z.mul_le_mono_nonneg_l; lia).
  lia.
Qed.

(** Two slots of the pool with the same place in the output buffer are the
    same slot. *)
Lemma static_output_place_inj (r : RaySlot) (i j : Z) :
  0 <= i < pool_size split_params ->
  0 <= j < pool_size split_params ->
  static_output_place kernel_data split_params i
  = static_output_place kernel_data split_params j ->
  i = j.
Proof.
  intros Hi Hj E.
  pose proof pool_size_fits as Hsize.
  destruct Hwf as (Hsw & Hsh & Hps & _).
  destruct Hfit as (Hst & Hpass & Hmax).
  assert (0 < parallel_samples split_params) as Hps0 by lia.
  rewrite <- !(lane_setup_static_place _ r) in E.
  destruct (static_setup_facts build kernel_data split_params i r Hws Hsw
              Hps0) as (_ & _ & _ & Ei & _); [lia|].
  destruct (static_setup_facts build kernel_data split_params j r Hws Hsw
              Hps0) as (_ & _ & _ & Ej & _); [lia|].
  rewrite Ei, Ej in E. unfold output_buffer_offset in E.
  pose proof (static_output_key split_params i Hsw Hps0 Hst Hi) as Ki.
  pose proof (static_output_key split_params j Hsw Hps0 Hst Hj) as Kj.
  cbv zeta in Ki, Kj.
  set (ps := parallel_samples split_params) in *.
  set (sw := sp_w split_params) in *.
  set (st := sp_stride split_params) in *.
  set (sh := sp_h split_params) in *.
  set (pass := film_pass_stride kernel_data) in *.
  set (ki := ((i / ps) mod sw + (i / ps) / sw * st) * ps + i mod ps) in *.
  set (kj := ((j / ps) mod sw + (j / ps) / sw * st) * ps + j mod ps) in *.
  assert (forall k, 0 <= k < st * sh * ps -> 0 <= k * pass < 2 ^ 32) as Hk.
  { intros k Hk. split; [apply Z.mul_nonneg_nonneg; lia|].
    assert (k * pass <= (st * sh * ps - 1) * pass)
      by (apply Z.mul_le_mono_nonneg_r; lia).
    lia. }
  rewrite !uint32_small in E by (apply Hk; done).
  apply Z.mul_reg_r in E; [|lia].
  apply (static_output_key_inj split_params i j Hsw Hps0 Hst); [lia|lia|].
  exact E.
Qed.

Lemma unwritten_from_keeps_path (f : RaySlot -> RaySlot) (r : RaySlot) :
  keeps_path f -> unwritten_from (f r) = unwritten_from r.
Proof.
  intros (Hkw & Hfl). unfold unwritten_from.
  destruct (Hkw r) as (-> & _). by rewrite Hfl.
Qed.

(** A step keeps the output free of repetitions. *)
Lemma written_inv_step (i : Z) (f : RaySlot -> RaySlot) (g : Globals) :
  keeps_path f ->
  static_inv split_params g ->
  written_inv kernel_data split_params g ->
  written_inv kernel_data split_params
    (wave_step build kernel_data split_params i f g).
Proof.
  intros Hf (Hlen & Hslots & _) (Hnd & Hown). unfold wave_step.
  destruct (pool_get i (pool g)) as [r|] eqn:Hi; [|done].
  pose proof (unwritten_from_keeps_path f r Hf) as Hun.
  destruct Hf as (Hkw & Hfl). destruct (Hkw r) as (Hwa & Hin).
  assert (forall j rj, pool_get j (pool g) = Some rj ->
                       0 <= j < pool_size split_params) as Hrange.
  { intros j rj Hj. apply pool_get_bounds in Hj. lia. }
  assert (stage_owned (ray_state (f r)) = true ->
          0 <= work_array (f r) < 2 ^ 31) as Hbnd.
  { intros Ho. rewrite Hwa.
    assert (ray_state r <> RAY_INACTIVE) as Hr.
    { intros H. apply Hin in H. by rewrite H in Ho. }
    destruct (Hslots i r Hi) as (j & Hj & Hw & _ & Hact).
    specialize (Hact Hr).
    destruct (static_slot_facts split_params Hwf i (Hrange i r Hi))
      as (_ & _ & _ & Ef).
    destruct Hwf as (Hsw & Hsh & Hps & Hse & He & _).
    assert (0 <= i mod parallel_samples split_params)
      by (apply Z.mod_pos_bound; lia).
    assert (0 <= j * parallel_samples split_params)
      by (apply Z.mul_nonneg_nonneg; lia).
    lia. }
  destruct (static_lane_writes i (f r) (work_pool_wgs g) (trace g) Hbnd)
    as (evs & Htr & Hall & Hnd' & Hmono & _).
  cbv zeta in Htr, Hall, Hmono.
  set (l := lane_body build kernel_data split_params i (f r)
              (work_pool_wgs g) (trace g)) in *.
  rewrite Hun in Hall, Hmono.
  unfold written_inv. cbn [trace pool].
  rewrite Htr, float4_writes_app, fmap_app.
  split.
  - apply list.NoDup_app. split; [done|]. split; [|done].
    intros [b s] Hold Hnew.
    apply list_elem_of_fmap in Hold as ([[b' s'] v] & [= <- <-] & Hold).
    apply list_elem_of_fmap in Hnew as ([[b' s'] v'] & [= <- <-] & Hnew).
    destruct (Hown b s v Hold) as (j & rj & Hj & Hb & Hs).
    rewrite list.Forall_forall in Hall.
    destruct (Hall _ Hnew) as (Hb' & Hs' & _). cbn in Hb', Hs'.
    assert (j = i) as ->.
    { apply (static_output_place_inj r); eauto. congruence. }
    rewrite Hi in Hj. injection Hj as <-. lia.
  - intros b s v [Hold|Hnew]%elem_of_app.
    + destruct (Hown b s v Hold) as (j & rj & Hj & Hb & Hs).
      destruct (decide (j = i)) as [->|Hne].
      * exists i, (lane_slot l). rewrite (pool_get_set _ _ _ _ Hi).
        rewrite Hi in Hj. injection Hj as <-.
        split; [done|]. split; [done|lia].
      * exists j, rj. rewrite pool_get_set_ne by done. done.
    + rewrite list.Forall_forall in Hall.
      destruct (Hall _ Hnew) as (Hb' & _ & Hs'). cbn in Hb', Hs'.
      exists i, (lane_slot l). rewrite (pool_get_set _ _ _ _ Hi). done.
Qed.

(** Under the static partition a run writes no sample twice: if no place
    and sample of the output buffer has been written twice so far, every
    write being at the place of a slot for a sample the slot has behind it,
    then the same holds after any schedule in which the other stages keep
    each slot's work unit and neither start nor finish one.  The lane
    writes a slot's samples in increasing order (lines 186-199, 229-231,
    255-263) and two slots have different places (lines 155-164). *)
Theorem static_run_writes_once (sched : list (Z * (RaySlot -> RaySlot)))
    (g : Globals) :
  Forall (fun st => keeps_path st.2) sched ->
  static_inv split_params g ->
  written_inv kernel_data split_params g ->
  let g' := run build kernel_data split_params sched g in
  NoDup (fst <$> float4_writes (trace g'))
  /\ written_inv kernel_data split_params g'.
Proof.
  intros Hsched Hs Hw. cbv zeta.
  assert (static_inv split_params
            (run build kernel_data split_params sched g)
          /\ written_inv kernel_data split_params
               (run build kernel_data split_params sched g)) as [_ H].
  { revert g Hs Hw.
    induction sched as [|[i f] sched IH]; intros g Hs Hw; [done|].
    inversion_clear Hsched as [|? ? Hf Hsched']. cbn [snd] in Hf.
    unfold run. cbn [foldl fst snd]. apply (IH Hsched').
    - apply (static_inv_step build kernel_data split_params Hwf);
        [done|apply Hf|done].
    - by apply written_inv_step. }
  split; [apply H|exact H].
Qed.

(** A step keeps the output complete: what a slot has behind it has been
    written. *)
Lemma flushed_inv_step (i : Z) (f : RaySlot -> RaySlot) (g : Globals) :
  keeps_path f ->
  static_inv split_params g ->
  flushed_inv kernel_data split_params g ->
  flushed_inv kernel_data split_params
    (wave_step build kernel_data split_params i f g).
Proof.
  intros Hf (Hlen & Hslots & _) Hfl. unfold wave_step.
  destruct (pool_get i (pool g)) as [r|] eqn:Hi; [|done].
  pose proof (unwritten_from_keeps_path f r Hf) as Hun.
  destruct Hf as (Hkw & Hfl'). destruct (Hkw r) as (Hwa & Hin).
  assert (0 <= i < pool_size split_params) as Hrange
    by (apply pool_get_bounds in Hi; lia).
  destruct (Hslots i r Hi) as (j0 & Hj0 & Hw & _ & Hact).
  assert (0 < parallel_samples split_params < 2 ^ 31) as Hps
    by (destruct Hwf as (_ & _ & ? & _); done).
  assert (stage_owned (ray_state (f r)) = true ->
          0 <= work_array (f r) < 2 ^ 31) as Hbnd.
  { intros Ho. rewrite Hwa.
    assert (ray_state r <> RAY_INACTIVE) as Hr.
    { intros H. apply Hin in H. by rewrite H in Ho. }
    specialize (Hact Hr).
    destruct (static_slot_facts split_params Hwf i Hrange)
      as (_ & _ & _ & Ef).
    destruct Hwf as (Hsw & Hsh & _ & Hse & He & _).
    assert (0 <= i mod parallel_samples split_params)
      by (apply Z.mod_pos_bound; lia).
    assert (0 <= j0 * parallel_samples split_params)
      by (apply Z.mul_nonneg_nonneg; lia).
    lia. }
  destruct (static_lane_writes i (f r) (work_pool_wgs g) (trace g) Hbnd)
    as (evs & Htr & _ & _ & Hmono & Hnew).
  cbv zeta in Htr, Hmono, Hnew.
  set (l := lane_body build kernel_data split_params i (f r)
              (work_pool_wgs g) (trace g)) in *.
  rewrite Hun in Hmono, Hnew. rewrite Hwa in Hnew.
  unfold flushed_inv. cbn [trace pool].
  intros i' r' j. rewrite (pool_get_set_cases _ _ _ _ _ Hi).
  rewrite Htr, float4_writes_app, fmap_app.
  case_bool_decide as Hii.
  - subst i'. intros [= <-] Hj. cbv zeta. intros Hend Hs.
    set (s := static_first_sample split_params i
              + j * parallel_samples split_params) in *.
    apply elem_of_app.
    destruct (decide (s < unwritten_from r)) as [Hold|Hnot].
    { left. by apply (Hfl i r j). }
    right.
    destruct (stage_owned (ray_state (f r))) eqn:Ho.
    2:{ exfalso.
        destruct (lane_body_not_owned build kernel_data split_params i (f r)
                    (work_pool_wgs g) (trace g) Ho) as (Hslot & _).
        fold l in Hslot. rewrite Hslot, Hun in Hs. lia. }
    destruct (Hnew eq_refl) as (Hup & Hmem).
    assert (work_array r <= unwritten_from r)
      by (unfold unwritten_from; destruct (in_flight r); lia).
    apply Hmem; [|lia].
    assert (j0 <= j).
    { apply (Z.mul_le_mono_pos_r _ _ (parallel_samples split_params));
        [lia|]. subst s. lia. }
    assert (j <= j0 + 1).
    { apply (Z.mul_le_mono_pos_r _ _ (parallel_samples split_params));
        [lia|]. subst s. lia. }
    assert (j = j0 \/ j = j0 + 1) as [->| ->] by lia; subst s; [left|right];
      lia.
  - intros Hg Hj. cbv zeta. intros Hend Hs.
    apply elem_of_app. left. by apply (Hfl i' r' j).
Qed.

(** Nothing is written where a run starts. *)
Lemma float4_writes_initial (l : list Z) :
  float4_writes (concat (initial_claim build split_params <$> l)) = [].
Proof.
  induction l as [|i l IH]; [done|].
  rewrite fmap_cons. cbn [concat]. rewrite float4_writes_app, IH.
  unfold initial_claim. rewrite Hws. cbn. by destruct (_ <? _).
Qed.

Lemma written_inv_initial (template : Z -> RaySlot) (g0 : Globals) :
  written_inv kernel_data split_params
    (initial build split_params template g0).
Proof.
  unfold written_inv, initial. cbn [trace pool].
  rewrite float4_writes_initial. split; [constructor|].
  intros b s v H. by apply elem_of_nil in H.
Qed.

Lemma flushed_inv_initial (template : Z -> RaySlot) (g0 : Globals) :
  flushed_inv kernel_data split_params
    (initial build split_params template g0).
Proof.
  unfold flushed_inv, initial. cbn [trace pool].
  intros i r j (Hi & ->)%pool_get_initial Hj. cbv zeta. intros Hend Hs.
  exfalso.
  assert (0 < parallel_samples split_params)
    by (destruct Hwf as (_ & _ & ? & _); lia).
  assert (0 <= j * parallel_samples split_params)
    by (apply Z.mul_nonneg_nonneg; lia).
  unfold unwritten_from, in_flight, initial_slot in Hs. rewrite Hws in Hs.
  cbn in Hs.
  destruct (static_first_sample split_params i <? end_sample split_params)
    eqn:E; cbn in Hs.
  - lia.
  - apply Z.ltb_ge in E. lia.
Qed.

(** When a run under the static partition is over, the output is complete
    and has no repetition: for every slot of the pool and every sample of
    its range (its first sample plus a multiple of parallel_samples, below
    end_sample), the slot's place in the output buffer has been written for
    that sample, and no place and sample has been written twice.  The run
    may start from any state of which this accounting holds and go through
    any schedule in which the other stages keep each slot's work unit and
    neither start nor finish one. *)
Theorem static_run_output_complete (sched : list (Z * (RaySlot -> RaySlot)))
    (g : Globals) :
  Forall (fun st => keeps_path st.2) sched ->
  static_inv split_params g ->
  written_inv kernel_data split_params g ->
  flushed_inv kernel_data split_params g ->
  let g' := run build kernel_data split_params sched g in
  all_inactive g' ->
  NoDup (fst <$> float4_writes (trace g'))
  /\ forall i j : Z,
       0 <= i < pool_size split_params ->
       0 <= j ->
       let s := static_first_sample split_params i
                + j * parallel_samples split_params in
       s < end_sample split_params ->
       (static_output_place kernel_data split_params i, s)
       ∈ fst <$> float4_writes (trace g').
Proof.
  intros Hsched Hs Hw Hfl. cbv zeta.
  assert (static_inv split_params
            (run build kernel_data split_params sched g)
          /\ written_inv kernel_data split_params
               (run build kernel_data split_params sched g)
          /\ flushed_inv kernel_data split_params
               (run build kernel_data split_params sched g))
    as (Hs' & Hw' & Hfl').
  { revert g Hs Hw Hfl.
    induction sched as [|[i f] sched IH]; intros g Hs Hw Hfl; [done|].
    inversion_clear Hsched as [|? ? Hf Hsched']. cbn [snd] in Hf.
    unfold run. cbn [foldl fst snd]. apply (IH Hsched').
    - apply (static_inv_step build kernel_data split_params Hwf);
        [done|apply Hf|done].
    - by apply written_inv_step.
    - by apply flushed_inv_step. }
  set (g' := run build kernel_data split_params sched g) in *.
  intros Hall. split; [apply Hw'|].
  intros i j Hi Hj Hend.
  destruct Hs' as (Hlen & Hslots & _).
  assert (exists r, pool_get i (pool g') = Some r) as (r & Hr).
  { unfold pool_get. destruct (i <? 0) eqn:E; [lia|].
    apply lookup_lt_is_Some. lia. }
  destruct (Hslots i r Hr) as (j0 & Hj0 & Hwa & Hina & _).
  assert (ray_state r = RAY_INACTIVE) as Hst by (by eapply all_inactive_get).
  specialize (Hina Hst).
  assert (0 < parallel_samples split_params)
    by (destruct Hwf as (_ & _ & ? & _); lia).
  apply (Hfl' i r j Hr Hj Hend).
  unfold unwritten_from, in_flight. rewrite Hst.
  assert (j < j0 + 1).
  { apply (Z.mul_lt_mono_pos_r (parallel_samples split_params)); lia. }
  assert (j * parallel_samples split_params
          <= j0 * parallel_samples split_params)
    by (apply Z.mul_le_mono_nonneg_r; lia).
  lia.
Qed.

End StaticOutputProperties.

(** ** The two stages together *)

Section StagesTogether.
Context `{CO : Collaborators}.
Variable build : Build.
Variable kernel_data : KernelData.
Variable split_params : SplitParams.

(** The lamp stage is one of the stages a run allows between two
    invocations of the background/buffer-update stage: it keeps a slot's
    work unit, neither retires nor revives a slot, and neither starts nor
    finishes a work unit (it never assigns a ray state and never writes
    work_array). *)
Theorem lamp_stage_keeps_path :
  keeps_path (lamp_emission_slot build kernel_data).
Proof.
  split.
  - intros r.
    destruct (lamp_emission_slot_frame build kernel_data r)
      as (Hs & _ & _ & _ & _ & _ & _ & _ & Hwa & _).
    split; [exact Hwa|]. by rewrite Hs.
  - intros r.
    destruct (lamp_emission_slot_frame build kernel_data r) as (Hs & _).
    unfold in_flight. by rewrite Hs.
Qed.

(** A camera ray of a transparent background whose background pass is
    wanted gets both treatments at lines 168-183: its throughput is folded
    into the transparency accumulator, and the background is shaded into its
    radiance accumulator as well, before the one transition to
    RAY_UPDATE_BUFFER. *)
Theorem transparent_camera_shaded_for_background_pass (ray_index : Z)
    (l : Lane) :
  ray_state (lane_slot l) = RAY_HIT_BACKGROUND ->
  transparent_camera kernel_data l = true ->
  background_pass build kernel_data = true ->
  BACKGROUND build = true ->
  let r := lane_slot l in
  let l' := hit_background build kernel_data ray_index l in
  L_transparent (lane_slot l')
  = fadd (L_transparent r) (average (throughput r))
  /\ path_radiance (lane_slot l')
     = path_radiance_accum_background (path_radiance r) (throughput r)
         (indirect_background (path_state r) (ray r))
         (bounce (path_state r))
  /\ lane_tr l'
     = lane_tr l ++ [EvIndirectBackground ray_index;
                     EvAssignRayState ray_index RAY_UPDATE_BUFFER]
  /\ ray_state (lane_slot l') = RAY_UPDATE_BUFFER.
Proof.
  intros Hs Htc Hbp Hbg r l'. subst l' r.
  rewrite hit_background_eq by done. cbv zeta.
  rewrite Htc, Hbp, Hbg. cbn. by rewrite <- app_assoc.
Qed.

End StagesTogether.

(** ** Properties of the OBJ importer *)

Section ObjImporterProperties.
Context `{OC : ObjCollaborators}.

Lemma conversions_app (a b : list ImportCall) :
  conversions (a ++ b) = conversions a ++ conversions b.
Proof. unfold conversions. apply omap_app. Qed.

Lemma added_objects_app (a b : list ImportCall) :
  added_objects (a ++ b) = added_objects a ++ added_objects b.
Proof. unfold added_objects. apply omap_app. Qed.

Lemma length_omap_le {A B : Type} (f : A -> option B) (l : list A) :
  (length (omap f l) <= length l)%nat.
Proof. induction l as [|a l IH]; [done|]. cbn. destruct (f a); cbn; lia. Qed.

(** The loop of raw_to_blender_objects from any point on. *)
Lemma convert_raw_objects_calls (objs : list OBJRawObject)
    (gv : GlobalVertices) (calls : list ImportCall) :
  exists evs,
    foldl (convert_raw_object gv) calls objs = calls ++ evs
    /\ (CallImportCollection ∉ evs)
    /\ conversions evs = omap conversion_of objs
    /\ length (added_objects evs) = length (conversions evs).
Proof.
  revert calls. induction objs as [|o objs IH]; intros calls.
  - exists []. rewrite app_nil_r. repeat split; try done. apply not_elem_of_nil.
  - destruct (IH (convert_raw_object gv calls o))
      as (evs & Hf & Hn & Hc & Hl).
    assert (omap conversion_of (o :: objs)
            = match conversion_of o with
              | Some y => y :: omap conversion_of objs
              | None => omap conversion_of objs
              end) as -> by done.
    cbn [foldl]. rewrite Hf. unfold convert_raw_object, conversion_of.
    destruct (flag_set (object_type o) OB_MESH);
      [|destruct (flag_set (object_type o) OB_CURVE)].
    + eexists. rewrite <- app_assoc. split; [reflexivity|].
      rewrite conversions_app, added_objects_app, !length_app, Hl, Hc.
      split; [|done].
      rewrite elem_of_app, !elem_of_cons, elem_of_nil.
      intros [[?|[?|[]]]|?]; done.
    + eexists. rewrite <- app_assoc. split; [reflexivity|].
      rewrite conversions_app, added_objects_app, !length_app, Hl, Hc.
      split; [|done].
      rewrite elem_of_app, !elem_of_cons, elem_of_nil.
      intros [[?|[?|[]]]|?]; done.
    + by exists evs.
Qed.

Lemma added_after_conversion_nil (gv : GlobalVertices)
    (base : list ImportCall) :
  added_after_conversion gv base [].
Proof. intros pre c post H. by destruct pre. Qed.

(** One more turn of the loop that converts: the conversion [c0] and the
    adding of [b0] come last. *)
Lemma added_after_conversion_snoc (gv : GlobalVertices)
    (base evs : list ImportCall) (c0 : ImportCall) (b0 : BlenderObject) :
  added_after_conversion gv base evs ->
  match c0 with
  | CallMeshFromRaw o => b0 = mesh_mover (base ++ evs) o gv
  | CallCurveFromRaw o => b0 = curve_mover (base ++ evs) o gv
  | _ => False
  end ->
  added_after_conversion gv base (evs ++ [c0; CallAddObject b0]).
Proof.
  intros IH Hc0 pre c post H.
  apply app_eq_inv in H as [(k & Hevs & Hk)|(k & Hpre & Hk)].
  - destruct k as [|x k]; simplify_eq/=.
    + rewrite app_nil_r in Hc0. case_match; try done; subst b0; by eexists.
    + specialize (IH pre _ k eq_refl).
      case_match; try done; destruct IH as (post' & ->); by eexists.
  - destruct k as [|x [|y k]]; simplify_eq/=.
    + rewrite app_nil_r. case_match; try done; subst b0; by eexists.
    + case_match; try done; eexists _, _; [by left|by right].
    + by destruct k.
Qed.

Lemma convert_raw_objects_added (objs : list OBJRawObject)
    (gv : GlobalVertices) (calls : list ImportCall) :
  exists evs,
    foldl (convert_raw_object gv) calls objs = calls ++ evs
    /\ added_after_conversion gv calls evs.
Proof.
  induction objs as [|o objs IH] using rev_ind.
  - exists []. rewrite app_nil_r. split; [done|].
    apply added_after_conversion_nil.
  - destruct IH as (evs & Hf & Ha).
    rewrite foldl_app. cbn [foldl]. rewrite Hf. unfold convert_raw_object.
    destruct (flag_set (object_type o) OB_MESH);
      [|destruct (flag_set (object_type o) OB_CURVE)].
    + eexists. rewrite <- app_assoc. split; [reflexivity|].
      by apply added_after_conversion_snoc.
    + eexists. rewrite <- app_assoc. split; [reflexivity|].
      by apply added_after_conversion_snoc.
    + by exists evs.
Qed.

(** raw_to_blender_objects makes the import collection once and then, for
    each raw object in the order of the list, at most one conversion: a mesh
    if the object's type has the OB_MESH bit, else a curve if it has the
    OB_CURVE bit, else nothing (lines 99-108).  The object each conversion
    hands over is added to the collection at once, and nothing else is
    added, so the collection gets exactly one object per conversion and
    never more objects than there are raw objects. *)
Theorem raw_objects_converted_once (objs : list OBJRawObject)
    (gv : GlobalVertices) (calls : list ImportCall) :
  exists evs,
    raw_to_blender_objects objs gv calls
    = calls ++ CallImportCollection :: evs
    /\ (CallImportCollection ∉ evs)
    /\ conversions evs = omap conversion_of objs
    /\ added_after_conversion gv (calls ++ [CallImportCollection]) evs
    /\ length (added_objects evs) = length (conversions evs)
    /\ (length (added_objects evs) <= length objs)%nat.
Proof.
  unfold raw_to_blender_objects.
  destruct (convert_raw_objects_calls objs gv (calls ++ [CallImportCollection]))
    as (evs & Hf & Hn & Hc & Hl).
  destruct (convert_raw_objects_added objs gv (calls ++ [CallImportCollection]))
    as (evs' & Hf' & Ha).
  assert (evs' = evs) as ->
    by (rewrite Hf in Hf'; by apply app_inv_head in Hf').
  exists evs. rewrite Hf, <- app_assoc. split; [done|].
  split; [done|]. split; [done|]. split; [done|]. split; [done|].
  rewrite Hl, Hc. apply length_omap_le.
Qed.

End ObjImporterProperties.

(** ** The kernels on concrete inputs *)

Section Examples.
#[local] Existing Instance Toy.toy_types.
#[local] Existing Instance Toy.co.

(** C2 as stated fails: a camera ray of a transparent background (no
    background pass) is moved to RAY_UPDATE_BUFFER without the background
    being folded into its radiance accumulator. *)
Lemma transparent_camera_radiance_untouched :
  ray_state (Toy.slot0 RAY_HIT_BACKGROUND 1 1) = RAY_HIT_BACKGROUND
  /\ ray_state
       (lane_slot
          (hit_background Toy.build_static (Toy.kdata 1 0) 1
             (Toy.enter Toy.build_static (Toy.kdata 1 0) 1
                (Toy.slot0 RAY_HIT_BACKGROUND 1 1))))
     = RAY_UPDATE_BUFFER
  /\ path_radiance
       (lane_slot
          (hit_background Toy.build_static (Toy.kdata 1 0) 1
             (Toy.enter Toy.build_static (Toy.kdata 1 0) 1
                (Toy.slot0 RAY_HIT_BACKGROUND 1 1))))
     = Toy.v3 1 1 1
  /\ path_radiance
       (lane_slot
          (hit_background Toy.build_static (Toy.kdata 1 0) 1
             (Toy.enter Toy.build_static (Toy.kdata 1 0) 1
                (Toy.slot0 RAY_HIT_BACKGROUND 1 1))))
     <> path_radiance_accum_background
          (path_radiance (Toy.slot0 RAY_HIT_BACKGROUND 1 1))
          (throughput (Toy.slot0 RAY_HIT_BACKGROUND 1 1))
          (indirect_background
             (path_state (Toy.slot0 RAY_HIT_BACKGROUND 1 1))
             (ray (Toy.slot0 RAY_HIT_BACKGROUND 1 1)))
          (bounce (path_state (Toy.slot0 RAY_HIT_BACKGROUND 1 1)))
  /\ lane_tr
       (hit_background Toy.build_static (Toy.kdata 1 0) 1
          (Toy.enter Toy.build_static (Toy.kdata 1 0) 1
             (Toy.slot0 RAY_HIT_BACKGROUND 1 1)))
     = [EvAssignRayState 1 RAY_UPDATE_BUFFER].
Proof. repeat split. discriminate. Qed.

(** Witness for C2: an ordinary slot that hit the background. *)
Lemma hit_background_one_transition_witness :
  ray_state (Toy.slot0 RAY_HIT_BACKGROUND 0 1) = RAY_HIT_BACKGROUND
  /\ assigned
       (events_since []
          (lane_tr
             (hit_background Toy.build_static (Toy.kdata 0 0) 1
                (lane_enter Toy.build_static (Toy.kdata 0 0) Toy.params 1
                   (Toy.slot0 RAY_HIT_BACKGROUND 0 1) 0 []))))
     = [RAY_UPDATE_BUFFER].
Proof.
  split; [reflexivity|].
  exact (proj1 (proj2 (hit_background_one_transition
                         Toy.build_static (Toy.kdata 0 0) Toy.params 1
                         (Toy.slot0 RAY_HIT_BACKGROUND 0 1) 0 [] eq_refl))).
Defined.

(** C3 as stated fails: with the background pass wanted, a camera ray of a
    transparent background has its throughput folded into the transparency
    accumulator and is shaded as well. *)
Lemma transparent_camera_shaded_for_pass :
  ray_state (Toy.slot0 RAY_HIT_BACKGROUND 1 1) = RAY_HIT_BACKGROUND
  /\ transparent_camera (Toy.kdata 1 65536)
       (Toy.enter Toy.build_static (Toy.kdata 1 65536) 1
          (Toy.slot0 RAY_HIT_BACKGROUND 1 1))
     = true
  /\ L_transparent
       (lane_slot
          (hit_background Toy.build_static (Toy.kdata 1 65536) 1
             (Toy.enter Toy.build_static (Toy.kdata 1 65536) 1
                (Toy.slot0 RAY_HIT_BACKGROUND 1 1))))
     = 3
  /\ path_radiance
       (lane_slot
          (hit_background Toy.build_static (Toy.kdata 1 65536) 1
             (Toy.enter Toy.build_static (Toy.kdata 1 65536) 1
                (Toy.slot0 RAY_HIT_BACKGROUND 1 1))))
     <> path_radiance (Toy.slot0 RAY_HIT_BACKGROUND 1 1)
  /\ lane_tr
       (hit_background Toy.build_static (Toy.kdata 1 65536) 1
          (Toy.enter Toy.build_static (Toy.kdata 1 65536) 1
             (Toy.slot0 RAY_HIT_BACKGROUND 1 1)))
     = [EvIndirectBackground 1; EvAssignRayState 1 RAY_UPDATE_BUFFER].
Proof. repeat split. discriminate. Qed.

(** Witness for C3: a camera ray of a transparent background with no
    background pass. *)
Lemma transparent_camera_skips_shading_witness :
  ray_state (Toy.slot0 RAY_HIT_BACKGROUND 1 1) = RAY_HIT_BACKGROUND
  /\ transparent_camera (Toy.kdata 1 0)
       (Toy.enter Toy.build_static (Toy.kdata 1 0) 1
          (Toy.slot0 RAY_HIT_BACKGROUND 1 1)) = true
  /\ background_pass Toy.build_static (Toy.kdata 1 0) = false
  /\ L_transparent
       (lane_slot
          (hit_background Toy.build_static (Toy.kdata 1 0) 1
             (Toy.enter Toy.build_static (Toy.kdata 1 0) 1
                (Toy.slot0 RAY_HIT_BACKGROUND 1 1))))
     = fadd 0 (average (Toy.v3 3 3 3)).
Proof.
  split; [reflexivity|]. split; [reflexivity|]. split; [reflexivity|].
  exact (proj1 (transparent_camera_skips_shading
                  Toy.build_static (Toy.kdata 1 0) 1
                  (Toy.enter Toy.build_static (Toy.kdata 1 0) 1
                     (Toy.slot0 RAY_HIT_BACKGROUND 1 1))
                  eq_refl eq_refl eq_refl)).
Defined.

(** Witness for C4: a slot whose sample 1 is flushed to output slot 4. *)
Lemma update_buffer_flushes_witness :
  ray_state (Toy.slot0 RAY_UPDATE_BUFFER 1 1) = RAY_UPDATE_BUFFER
  /\ float4_writes
       (events_since []
          (lane_tr
             (update_buffer Toy.build_static 1
                (Toy.enter Toy.build_static (Toy.kdata 0 0) 1
                   (Toy.slot0 RAY_UPDATE_BUFFER 1 1)))))
     = [(4, 1, make_float4 1 1 1 (fsub 1 0))].
Proof.
  split; [reflexivity|].
  exact (proj1 (proj2 (update_buffer_flushes Toy.build_static 1
                         (Toy.enter Toy.build_static (Toy.kdata 0 0) 1
                            (Toy.slot0 RAY_UPDATE_BUFFER 1 1))
                         eq_refl))).
Defined.

(** Witness for C5: lane 0 of the stage, which finds slot 1 waiting for
    work; the slot is regenerated and queued. *)
Lemma to_regenerate_outcomes_witness :
  (get_ray_index (0 * 4 + 0) QUEUE_HITBG_BUFF_UPDATE_TOREGEN_RAYS
     (queue_data Toy.waiting) (queue_size Toy.params) 1
   = (1, queue_data Toy.waiting)
   /\ 1 <> QUEUE_EMPTY_SLOT
   /\ pool_get 1 (pool Toy.waiting) = Some (Toy.slot0 RAY_TO_REGENERATE 1 1)
   /\ stage_owned (ray_state (Toy.slot0 RAY_TO_REGENERATE 1 1)) = true
   /\ 0 <= queue_index Toy.waiting QUEUE_ACTIVE_AND_REGENERATED_RAYS
        < Z.of_nat (length (queue_data Toy.waiting
                              QUEUE_ACTIVE_AND_REGENERATED_RAYS)))
  /\ queue_live QUEUE_ACTIVE_AND_REGENERATED_RAYS
       (kernel_background_buffer_update Toy.build_static (Toy.kdata 0 0)
          Toy.params 0 0 4 Toy.waiting)
     = take (Z.to_nat 0)
         (queue_data Toy.waiting QUEUE_ACTIVE_AND_REGENERATED_RAYS) ++ [1].
Proof.
  assert (0 <= queue_index Toy.waiting QUEUE_ACTIVE_AND_REGENERATED_RAYS
            < Z.of_nat (length (queue_data Toy.waiting
                                  QUEUE_ACTIVE_AND_REGENERATED_RAYS)))
    as Hpos by (cbn; lia).
  assert ((1 : Z) <> QUEUE_EMPTY_SLOT) as Hne by (cbn; lia).
  assert (get_ray_index (0 * 4 + 0) QUEUE_HITBG_BUFF_UPDATE_TOREGEN_RAYS
            (queue_data Toy.waiting) (queue_size Toy.params) 1
          = (1, queue_data Toy.waiting)) as Hget by reflexivity.
  split; [repeat split; first [reflexivity | exact Hne | apply Hpos]|].
  destruct (to_regenerate_outcomes Toy.build_static (Toy.kdata 0 0)
              Toy.params 0 0 4 Toy.waiting 1 (queue_data Toy.waiting)
              (Toy.slot0 RAY_TO_REGENERATE 1 1)
              Hget Hne eq_refl eq_refl Hpos)
    as (_ & r' & _ & _ & Hok & _).
  exact (proj1 (proj2 (proj2 (proj2 (proj2 (proj2 (Hok eq_refl eq_refl))))))).
Defined.

(** C6 as stated fails: the camera ray of sample 2 has zero length; the lane
    that takes it ends with the slot in RAY_TO_REGENERATE, a state this
    stage owns, having taken that one work unit only, although the Work
    Distributor has more work for the slot. *)
Lemma degenerate_ray_left_to_regenerate :
  ray_state (Toy.slot0 RAY_TO_REGENERATE 1 0) = RAY_TO_REGENERATE
  /\ degenerate
       (with_new_work Toy.build_static (Toy.kdata 0 0) Toy.params 0
          (Toy.enter Toy.build_static (Toy.kdata 0 0) 0
             (Toy.slot0 RAY_TO_REGENERATE 1 0)))
     = true
  /\ ray_state
       (lane_slot
          (Toy.lane Toy.build_static (Toy.kdata 0 0) 0
             (Toy.slot0 RAY_TO_REGENERATE 1 0)))
     = RAY_TO_REGENERATE
  /\ stage_owned
       (ray_state
          (lane_slot
             (Toy.lane Toy.build_static (Toy.kdata 0 0) 0
                (Toy.slot0 RAY_TO_REGENERATE 1 0))))
     = true
  /\ claimed
       (lane_tr
          (Toy.lane Toy.build_static (Toy.kdata 0 0) 0
             (Toy.slot0 RAY_TO_REGENERATE 1 0)))
     = [(10, 20, 2)]
  /\ no_more_work Toy.build_static Toy.params 0
       (Toy.enter Toy.build_static (Toy.kdata 0 0) 0
          (lane_slot
             (Toy.lane Toy.build_static (Toy.kdata 0 0) 0
                (Toy.slot0 RAY_TO_REGENERATE 1 0))))
     = false.
Proof. repeat split. Qed.

(** Witness for C6: a slot that hit the background and then takes sample 2,
    whose camera ray has zero length. *)
Lemma degenerate_ray_retry_deferred_witness :
  (stage_owned (ray_state (Toy.slot0 RAY_HIT_BACKGROUND 1 0)) = true
   /\ no_more_work Toy.build_static Toy.params 0
        (update_buffer Toy.build_static 0
           (hit_background Toy.build_static (Toy.kdata 0 0) 0
              (lane_enter Toy.build_static (Toy.kdata 0 0) Toy.params 0
                 (Toy.slot0 RAY_HIT_BACKGROUND 1 0) 0 [])))
      = false
   /\ degenerate
        (with_new_work Toy.build_static (Toy.kdata 0 0) Toy.params 0
           (update_buffer Toy.build_static 0
              (hit_background Toy.build_static (Toy.kdata 0 0) 0
                 (lane_enter Toy.build_static (Toy.kdata 0 0) Toy.params 0
                    (Toy.slot0 RAY_HIT_BACKGROUND 1 0) 0 []))))
      = true)
  /\ ray_state
       (lane_slot
          (lane_body Toy.build_static (Toy.kdata 0 0) Toy.params 0
             (Toy.slot0 RAY_HIT_BACKGROUND 1 0) 0 []))
     = RAY_TO_REGENERATE.
Proof.
  split; [repeat split|].
  exact (proj1 (degenerate_ray_retry_deferred Toy.build_static
                  (Toy.kdata 0 0) Toy.params 0
                  (Toy.slot0 RAY_HIT_BACKGROUND 1 0) 0 []
                  eq_refl eq_refl eq_refl)).
Defined.

(** C7 as stated fails: lane (0,0) of the lamp stage finds one slot in the
    active queue and leaves the queue's occupancy counter at zero; it also
    advances the slot's ray_t, which is not part of the radiance
    accumulator. *)
Lemma lamp_emission_resets_active_queue :
  queue_index Toy.lit QUEUE_ACTIVE_AND_REGENERATED_RAYS = 1
  /\ queue_index
       (kernel_lamp_emission Toy.build_static (Toy.kdata 0 0) Toy.params
          0 0 4 Toy.lit)
       QUEUE_ACTIVE_AND_REGENERATED_RAYS
     = 0
  /\ (fun r => ray_t (path_state r)) <$> pool Toy.lit = [0]
  /\ (fun r => ray_t (path_state r))
     <$> pool (kernel_lamp_emission Toy.build_static (Toy.kdata 0 0)
                 Toy.params 0 0 4 Toy.lit)
     = [4].
Proof. repeat split. Qed.

(** Witness for C7: lane (0,0) of the lamp stage. *)
Lemma lamp_emission_frame_witness :
  ray_state <$> pool (kernel_lamp_emission Toy.build_static (Toy.kdata 0 0)
                         Toy.params 0 0 4 Toy.lit)
  = ray_state <$> pool Toy.lit
  /\ trace (kernel_lamp_emission Toy.build_static (Toy.kdata 0 0)
              Toy.params 0 0 4 Toy.lit)
     = trace Toy.lit.
Proof.
  split; [reflexivity|].
  exact (proj2 (proj2 (proj2 (proj2 (proj2 (proj2
           (lamp_emission_frame Toy.build_static (Toy.kdata 0 0)
              Toy.params 0 0 4 Toy.lit))))))).
Defined.

(** C8 as stated fails: the counter is 4, the stride 2 and end_sample 6; the
    advanced counter is 6, which does not exceed end_sample, and the slot
    becomes RAY_INACTIVE. *)
Lemma static_inactive_at_end_sample :
  WORK_STEALING Toy.build_static = false
  /\ ray_state (Toy.slot0 RAY_TO_REGENERATE 1 4) = RAY_TO_REGENERATE
  /\ work_array (Toy.slot0 RAY_TO_REGENERATE 1 4)
     + parallel_samples Toy.params = 6
  /\ ~ (work_array (Toy.slot0 RAY_TO_REGENERATE 1 4)
        + parallel_samples Toy.params > end_sample Toy.params)
  /\ ray_state
       (lane_slot
          (Toy.lane Toy.build_static (Toy.kdata 0 0) 0
             (Toy.slot0 RAY_TO_REGENERATE 1 4)))
     = RAY_INACTIVE.
Proof. repeat split. cbn. lia. Qed.

(** Witness for C8: slot 1 with its counter at 1. *)
Lemma static_partition_advances_witness :
  (WORK_STEALING Toy.build_static = false
   /\ stage_owned (ray_state (Toy.slot0 RAY_TO_REGENERATE 1 1)) = true)
  /\ (ray_state
        (lane_slot
           (lane_body Toy.build_static (Toy.kdata 0 0) Toy.params 1
              (Toy.slot0 RAY_TO_REGENERATE 1 1) 0 []))
      = RAY_INACTIVE
      <-> uint32 (end_sample Toy.params)
          <= uint32 (uint32 (work_array (Toy.slot0 RAY_TO_REGENERATE 1 1))
                     + parallel_samples Toy.params)).
Proof.
  split; [split; reflexivity|].
  exact (proj1 (static_partition_advances Toy.build_static (Toy.kdata 0 0)
                  Toy.params 1 (Toy.slot0 RAY_TO_REGENERATE 1 1) 0 []
                  eq_refl eq_refl)).
Defined.

(** Witness for C9: slot 0 taking sample 2, whose camera ray has zero
    length. *)
Lemma degenerate_ray_one_zero_write_witness :
  (ray_state (Toy.slot0 RAY_TO_REGENERATE 1 0) = RAY_TO_REGENERATE
   /\ no_more_work Toy.build_static Toy.params 0
        (Toy.enter Toy.build_static (Toy.kdata 0 0) 0
           (Toy.slot0 RAY_TO_REGENERATE 1 0)) = false
   /\ degenerate
        (with_new_work Toy.build_static (Toy.kdata 0 0) Toy.params 0
           (Toy.enter Toy.build_static (Toy.kdata 0 0) 0
              (Toy.slot0 RAY_TO_REGENERATE 1 0))) = true)
  /\ float4_writes
       (events_since
          (lane_tr (Toy.enter Toy.build_static (Toy.kdata 0 0) 0
                      (Toy.slot0 RAY_TO_REGENERATE 1 0)))
          (lane_tr
             (regenerate Toy.build_static (Toy.kdata 0 0) Toy.params 0
                (Toy.enter Toy.build_static (Toy.kdata 0 0) 0
                   (Toy.slot0 RAY_TO_REGENERATE 1 0)))))
     = [(0, 2, make_float4 0 0 0 0)].
Proof.
  split; [repeat split|].
  exact (proj1 (proj2 (degenerate_ray_one_zero_write Toy.build_static
                         (Toy.kdata 0 0) Toy.params 0
                         (Toy.enter Toy.build_static (Toy.kdata 0 0) 0
                            (Toy.slot0 RAY_TO_REGENERATE 1 0))
                         eq_refl eq_refl eq_refl))).
Defined.

(** Witness for C10: lane 0 of the stage, which finds slot 1 in its queue. *)
Lemma stage_settles_slot_witness :
  (get_ray_index (0 * 4 + 0) QUEUE_HITBG_BUFF_UPDATE_TOREGEN_RAYS
     (queue_data Toy.waiting) (queue_size Toy.params) 1
   = (1, queue_data Toy.waiting)
   /\ 1 <> QUEUE_EMPTY_SLOT
   /\ pool_get 1 (pool Toy.waiting) = Some (Toy.slot0 RAY_TO_REGENERATE 1 1)
   /\ stage_owned (ray_state (Toy.slot0 RAY_TO_REGENERATE 1 1)) = true)
  /\ exists r',
       pool_get 1
         (pool (kernel_background_buffer_update Toy.build_static
                  (Toy.kdata 0 0) Toy.params 0 0 4 Toy.waiting))
       = Some r'
       /\ ray_state r' <> RAY_HIT_BACKGROUND
       /\ ray_state r' <> RAY_UPDATE_BUFFER.
Proof.
  assert ((1 : Z) <> QUEUE_EMPTY_SLOT) as Hne by (cbn; lia).
  assert (get_ray_index (0 * 4 + 0) QUEUE_HITBG_BUFF_UPDATE_TOREGEN_RAYS
            (queue_data Toy.waiting) (queue_size Toy.params) 1
          = (1, queue_data Toy.waiting)) as Hget by reflexivity.
  split; [repeat split; first [reflexivity | exact Hne]|].
  destruct (stage_settles_slot Toy.build_static (Toy.kdata 0 0)
              Toy.params 0 0 4 Toy.waiting 1 (queue_data Toy.waiting)
              (Toy.slot0 RAY_TO_REGENERATE 1 1)
              Hget Hne eq_refl eq_refl)
    as (r' & Hp & _ & Hh & Hu & _).
  exists r'. exact (conj Hp (conj Hh Hu)).
Defined.

Lemma toy_well_formed : well_formed Toy.params.
Proof. unfold well_formed. cbn. lia. Qed.

Lemma toy_rounds_keep_work (slots : Z) (n : nat) :
  Forall (fun st => keeps_work st.2) (ToyRun.rounds slots n).
Proof.
  unfold ToyRun.rounds. induction n as [|n IH]; [constructor|].
  cbn [replicate concat]. apply Forall_app. split; [|done].
  apply Forall_fmap, Forall_forall. intros i _.
  apply keeps_work_retire_path.
Qed.




(** The first scenario of the spec: a pool of four slots, ten samples,
    static partition, every path escaping to the background.  When the run
    is over the output has ten four-channel entries, no output slot and
    sample written twice, each with alpha 1 (no transparency). *)
Lemma scenario_ten_samples_static :
  all_inactive ToyRun.ten_samples_done
  /\ length (float4_writes (trace ToyRun.ten_samples_done)) = 10%nat
  /\ NoDup (fst <$> float4_writes (trace ToyRun.ten_samples_done))
  /\ Forall (fun w => w4 w.2 = 1)
       (float4_writes (trace ToyRun.ten_samples_done))
  /\ claimed (trace ToyRun.ten_samples_done)
     = (fun s => (0, 0, s)) <$> seqZ 0 10.
Proof.
  split; [vm_compute; repeat constructor|].
  split; [by vm_compute|].
  split; [apply (bool_decide_unpack _); by vm_compute|].
  split; [vm_compute; repeat constructor|].
  by vm_compute.
Qed.

(** The second scenario of the spec: a budget of 100 samples and eight
    slots claiming from the work-stealing pool.  Exactly 100 work units are
    handed out, all different: the samples 0 to 99 of the pixel. *)
Lemma scenario_hundred_samples_stolen :
  all_inactive ToyRun.hundred_samples_done
  /\ length (claimed (trace ToyRun.hundred_samples_done)) = 100%nat
  /\ NoDup (claimed (trace ToyRun.hundred_samples_done))
  /\ claimed (trace ToyRun.hundred_samples_done)
     = (fun s => (0, 0, s)) <$> seqZ 0 100.
Proof.
  split; [vm_compute; repeat constructor|].
  split; [by vm_compute|].
  split; [apply (bool_decide_unpack _); by vm_compute|].
  by vm_compute.
Qed.

End Examples.

(** ** More concrete inputs, for the properties above *)

Section MoreExamples.
#[local] Existing Instance Toy.toy_types.
#[local] Existing Instance Toy.co.

(** Slot 3 of the two-pixel tile: pixel 1 of row 0, second parallel
    sample. *)
Lemma static_slot_index_round_trip_witness :
  (WORK_STEALING Toy.build_static = false
   /\ 0 < sp_w Toy.params
   /\ 0 < parallel_samples Toy.params
   /\ 0 <= 3 < 2 ^ 31)
  /\ (let c := lane_setup Toy.build_static (Toy.kdata 0 0) Toy.params 3
                 (Toy.slot0 RAY_ACTIVE 0 0) in
      (tile_y c * sp_w Toy.params + tile_x c) * parallel_samples Toy.params
      + my_sample_tile c = 3).
Proof.
  assert (0 <= 3 < 2 ^ 31) as H3 by (split; [discriminate|reflexivity]).
  split; [by repeat split|].
  exact (proj1 (static_slot_index_round_trip Toy.build_static (Toy.kdata 0 0)
                  Toy.params 3 (Toy.slot0 RAY_ACTIVE 0 0)
                  eq_refl eq_refl eq_refl H3)).
Defined.

(** Slots 1 and 3 of the two-pixel tile, four floats per pass. *)
Lemma static_output_slots_disjoint_witness :
  (WORK_STEALING Toy.build_static = false
   /\ 0 < sp_w Toy.params
   /\ 0 < parallel_samples Toy.params
   /\ sp_w Toy.params <= sp_stride Toy.params
   /\ 0 < film_pass_stride (Toy.kdata 0 0)
   /\ sp_stride Toy.params * sp_h Toy.params * parallel_samples Toy.params
      * film_pass_stride (Toy.kdata 0 0) <= 2 ^ 32
   /\ 0 <= 1 < pool_size Toy.params
   /\ 0 <= 3 < pool_size Toy.params
   /\ 1 <> 3)
  /\ film_pass_stride (Toy.kdata 0 0)
     <= Z.abs (per_sample_output_buffers
                 (lane_setup Toy.build_static (Toy.kdata 0 0) Toy.params 1
                    (Toy.slot0 RAY_ACTIVE 0 0))
               - per_sample_output_buffers
                   (lane_setup Toy.build_static (Toy.kdata 0 0) Toy.params 3
                      (Toy.slot0 RAY_ACTIVE 0 0))).
Proof.
  assert (0 <= 1 < pool_size Toy.params) as H1
    by (split; [discriminate|reflexivity]).
  assert (0 <= 3 < pool_size Toy.params) as H3
    by (split; [discriminate|reflexivity]).
  assert (sp_w Toy.params <= sp_stride Toy.params) as Hst by discriminate.
  assert (sp_stride Toy.params * sp_h Toy.params * parallel_samples Toy.params
          * film_pass_stride (Toy.kdata 0 0) <= 2 ^ 32) as Hfit
    by discriminate.
  assert (1 <> 3) as Hne by discriminate.
  split; [by repeat split|].
  exact (static_output_slots_disjoint Toy.build_static (Toy.kdata 0 0)
           Toy.params 1 3 (Toy.slot0 RAY_ACTIVE 0 0)
           (Toy.slot0 RAY_ACTIVE 0 0)
           eq_refl eq_refl eq_refl Hst eq_refl Hfit H1 H3 Hne).
Defined.

(** Slots 2 and 3 are the two parallel samples of pixel 1. *)
Lemma static_rng_state_per_pixel_witness :
  (WORK_STEALING Toy.build_static = false
   /\ 0 < sp_w Toy.params
   /\ 0 < parallel_samples Toy.params
   /\ sp_w Toy.params <= rng_stride Toy.params
   /\ 0 <= rng_offset_x Toy.params
   /\ 0 <= rng_offset_y Toy.params
   /\ rng_offset_x Toy.params + sp_w Toy.params
      + (rng_offset_y Toy.params + sp_h Toy.params) * rng_stride Toy.params
      <= 2 ^ 32
   /\ 0 <= 2 < pool_size Toy.params
   /\ 0 <= 3 < pool_size Toy.params
   /\ 2 < 2 ^ 32 /\ 3 < 2 ^ 32
   /\ 2 / parallel_samples Toy.params = 3 / parallel_samples Toy.params)
  /\ rng_state
       (lane_setup Toy.build_static (Toy.kdata 0 0) Toy.params 2
          (Toy.slot0 RAY_ACTIVE 0 0))
     = rng_state
         (lane_setup Toy.build_static (Toy.kdata 0 0) Toy.params 3
            (Toy.slot0 RAY_ACTIVE 0 0)).
Proof.
  assert (0 <= 2 < pool_size Toy.params) as H2
    by (split; [discriminate|reflexivity]).
  assert (0 <= 3 < pool_size Toy.params) as H3
    by (split; [discriminate|reflexivity]).
  assert (sp_w Toy.params <= rng_stride Toy.params) as Hst by discriminate.
  assert (0 <= rng_offset_x Toy.params) as Hox by discriminate.
  assert (0 <= rng_offset_y Toy.params) as Hoy by discriminate.
  assert (rng_offset_x Toy.params + sp_w Toy.params
          + (rng_offset_y Toy.params + sp_h Toy.params)
            * rng_stride Toy.params <= 2 ^ 32) as Hfit by discriminate.
  assert (2 / parallel_samples Toy.params = 3 / parallel_samples Toy.params)
    as Hpix by reflexivity.
  split; [by repeat split|].
  exact (proj2 (static_rng_state_per_pixel Toy.build_static (Toy.kdata 0 0)
                  Toy.params 2 3 (Toy.slot0 RAY_ACTIVE 0 0)
                  (Toy.slot0 RAY_ACTIVE 0 0)
                  eq_refl eq_refl eq_refl Hst Hox Hoy Hfit H2 H3
                  eq_refl eq_refl) Hpix).
Defined.

(** Slot 1 with a path to flush. *)
Lemma static_lane_output_address_witness :
  (WORK_STEALING Toy.build_static = false
   /\ well_formed Toy.params
   /\ 0 <= 1 < pool_size Toy.params
   /\ 1 < 2 ^ 31)
  /\ Forall
       (fun w =>
          w.1.1
          = per_sample_output_buffers
              (lane_setup Toy.build_static (Toy.kdata 0 0) Toy.params 1
                 (Toy.slot0 RAY_UPDATE_BUFFER 0 1)))
       (float4_writes
          (events_since []
             (lane_tr
                (lane_body Toy.build_static (Toy.kdata 0 0) Toy.params 1
                   (Toy.slot0 RAY_UPDATE_BUFFER 0 1) 0 [])))).
Proof.
  assert (0 <= 1 < pool_size Toy.params) as H1
    by (split; [discriminate|reflexivity]).
  split; [by repeat split|].
  exact (proj1 (static_lane_output_address Toy.build_static (Toy.kdata 0 0)
                  Toy.params 1 (Toy.slot0 RAY_UPDATE_BUFFER 0 1) 0 []
                  eq_refl toy_well_formed H1 eq_refl)).
Defined.


(** Lane 0 finds slot 0, which is RAY_ACTIVE. *)
Lemma unowned_slot_untouched_witness :
  (get_ray_index (0 * 4 + 0) QUEUE_HITBG_BUFF_UPDATE_TOREGEN_RAYS
     (queue_data ToyLanes.passing) (queue_size Toy.params) 1
   = (0, queue_data ToyLanes.passing)
   /\ pool_get 0 (pool ToyLanes.passing) = Some (Toy.slot0 RAY_ACTIVE 0 0)
   /\ stage_owned (ray_state (Toy.slot0 RAY_ACTIVE 0 0)) = false)
  /\ pool (kernel_background_buffer_update Toy.build_static (Toy.kdata 0 0)
             Toy.params 0 0 4 ToyLanes.passing)
     = pool ToyLanes.passing
  /\ trace (kernel_background_buffer_update Toy.build_static (Toy.kdata 0 0)
              Toy.params 0 0 4 ToyLanes.passing)
     = trace ToyLanes.passing.
Proof.
  split; [by repeat split|].
  pose proof (unowned_slot_untouched Toy.build_static (Toy.kdata 0 0)
                Toy.params 0 0 4 ToyLanes.passing 0
                (queue_data ToyLanes.passing) (Toy.slot0 RAY_ACTIVE 0 0)
                eq_refl eq_refl eq_refl) as H.
  split; [exact (f_equal pool H)|exact (f_equal trace H)].
Defined.

(** Lane 0 of the stage on an empty queue. *)
Lemma empty_slot_lane_idle_witness :
  get_ray_index (0 * 4 + 0) QUEUE_HITBG_BUFF_UPDATE_TOREGEN_RAYS
    (queue_data Toy.lit) (queue_size Toy.params) 1
  = (QUEUE_EMPTY_SLOT, queue_data Toy.lit)
  /\ pool (kernel_background_buffer_update Toy.build_static (Toy.kdata 0 0)
             Toy.params 0 0 4 Toy.lit)
     = pool Toy.lit
  /\ queue_index
       (kernel_background_buffer_update Toy.build_static (Toy.kdata 0 0)
          Toy.params 0 0 4 Toy.lit) QUEUE_HITBG_BUFF_UPDATE_TOREGEN_RAYS
     = 0.
Proof.
  split; [reflexivity|].
  pose proof (empty_slot_lane_idle Toy.build_static (Toy.kdata 0 0)
                Toy.params 0 0 4 Toy.lit (queue_data Toy.lit) eq_refl) as H.
  split; [exact (f_equal pool H)|].
  exact (f_equal (fun g => queue_index g QUEUE_HITBG_BUFF_UPDATE_TOREGEN_RAYS)
           H).
Defined.

(** Lanes (0,0) and (1,0) of the lamp stage on four slots. *)
Lemma lamp_lanes_commute_witness :
  (use_queues_flag ToyLanes.direct = 0
   /\ 0 <= 0 /\ 0 <= 0 /\ 0 <= 1 /\ 0 <= 0)
  /\ kernel_lamp_emission Toy.build_static (Toy.kdata 0 0) Toy.params 0 0 4
       (kernel_lamp_emission Toy.build_static (Toy.kdata 0 0) Toy.params
          1 0 4 ToyLanes.direct)
     = kernel_lamp_emission Toy.build_static (Toy.kdata 0 0) Toy.params 1 0 4
         (kernel_lamp_emission Toy.build_static (Toy.kdata 0 0) Toy.params
            0 0 4 ToyLanes.direct).
Proof.
  assert (0 <= 0) as H0 by discriminate.
  assert (0 <= 1) as H1 by discriminate.
  split; [by repeat split|].
  exact (lamp_lanes_commute Toy.build_static (Toy.kdata 0 0) Toy.params
           0 0 1 0 4 4 ToyLanes.direct eq_refl H0 H0 H1 H0).
Defined.

(** Slot 2 holds a camera ray; lane (2,0) works on it. *)
Lemma lamp_skips_slot_witness :
  (pool ToyLanes.direct !! 2%nat = Some (Toy.slot0 RAY_ACTIVE 1 2)
   /\ flag_set (flag (path_state (Toy.slot0 RAY_ACTIVE 1 2))) PATH_RAY_CAMERA
      = true)
  /\ pool (kernel_lamp_emission Toy.build_static (Toy.kdata 0 0) Toy.params
             2 0 4 ToyLanes.direct) !! 2%nat
     = Some (Toy.slot0 RAY_ACTIVE 1 2).
Proof.
  split; [by split|].
  exact (lamp_skips_slot Toy.build_static (Toy.kdata 0 0) Toy.params 2 0 4
           ToyLanes.direct 2%nat (Toy.slot0 RAY_ACTIVE 1 2) eq_refl
           (or_intror (or_intror (or_intror eq_refl)))).
Defined.

(** Lane (4,0): the tile is four lanes wide. *)
Lemma lamp_idle_lane_witness :
  (use_queues_flag ToyLanes.direct = 0
   /\ sp_w Toy.params * parallel_samples Toy.params <= 4)
  /\ pool (kernel_lamp_emission Toy.build_static (Toy.kdata 0 0) Toy.params
             4 0 4 ToyLanes.direct)
     = pool ToyLanes.direct.
Proof.
  assert (sp_w Toy.params * parallel_samples Toy.params <= 4) as H
    by discriminate.
  split; [by split|].
  exact (lamp_idle_lane Toy.build_static (Toy.kdata 0 0) Toy.params 4 0 4
           ToyLanes.direct (or_introl (conj eq_refl (or_introl H)))).
Defined.

(** Three more rounds over a pool whose slots are retired. *)
Lemma finished_run_stable_witness :
  (Forall (fun st => keeps_work st.2) (ToyRun.rounds 2 3)
   /\ all_inactive ToyLanes.finished)
  /\ all_inactive
       (run Toy.build_static (Toy.kdata 0 0) Toy.params (ToyRun.rounds 2 3)
          ToyLanes.finished)
  /\ trace (run Toy.build_static (Toy.kdata 0 0) Toy.params
              (ToyRun.rounds 2 3) ToyLanes.finished)
     = trace ToyLanes.finished.
Proof.
  assert (all_inactive ToyLanes.finished) as Hall by (by repeat constructor).
  split; [exact (conj (toy_rounds_keep_work 2 3) Hall)|].
  destruct (finished_run_stable Toy.build_static (Toy.kdata 0 0) Toy.params
              (ToyRun.rounds 2 3) ToyLanes.finished
              (toy_rounds_keep_work 2 3) Hall) as (H1 & H2 & _).
  exact (conj H1 H2).
Defined.

Lemma escape_in_flight (r : RaySlot) :
  in_flight (ToyLanes.escape r) = in_flight r.
Proof.
  unfold ToyLanes.escape. destruct (in_flight r) eqn:E; [|done].
  reflexivity.
Qed.



Lemma keeps_path_escape : keeps_path ToyLanes.escape.
Proof.
  split; [|exact escape_in_flight].
  intros r. unfold ToyLanes.escape, in_flight.
  destruct (ray_state r) eqn:E; cbn; rewrite ?E; split; try done.
Qed.

Lemma escape_rounds_keep_path (n : nat) :
  Forall (fun st => keeps_path st.2) (ToyLanes.escape_rounds n).
Proof.
  unfold ToyLanes.escape_rounds.
  apply Forall_concat, Forall_replicate, Forall_fmap, Forall_forall.
  intros i _. exact keeps_path_escape.
Qed.

Lemma toy_buffer_fits : buffer_fits (Toy.kdata 0 0) Toy.params.
Proof. unfold buffer_fits. cbn. lia. Qed.

Lemma toy_start_static_inv :
  static_inv Toy.params (ToyRun.start Toy.build_static).
Proof. by apply static_inv_initial; [exact toy_well_formed|]. Qed.

Lemma toy_start_written_inv :
  written_inv (Toy.kdata 0 0) Toy.params (ToyRun.start Toy.build_static).
Proof. by apply written_inv_initial. Qed.

Lemma toy_start_flushed_inv :
  flushed_inv (Toy.kdata 0 0) Toy.params (ToyRun.start Toy.build_static).
Proof. by apply flushed_inv_initial; [|exact toy_well_formed]. Qed.

(** Two rounds of the static run on the two-pixel tile, from the start. *)
Lemma static_run_writes_once_witness :
  (WORK_STEALING Toy.build_static = false
   /\ well_formed Toy.params
   /\ buffer_fits (Toy.kdata 0 0) Toy.params
   /\ Forall (fun st => keeps_path st.2) (ToyLanes.escape_rounds 2)
   /\ static_inv Toy.params (ToyRun.start Toy.build_static)
   /\ written_inv (Toy.kdata 0 0) Toy.params (ToyRun.start Toy.build_static))
  /\ NoDup
       (fst <$> float4_writes
                  (trace (run Toy.build_static (Toy.kdata 0 0) Toy.params
                            (ToyLanes.escape_rounds 2)
                            (ToyRun.start Toy.build_static)))).
Proof.
  split.
  - split; [reflexivity|]. split; [exact toy_well_formed|].
    split; [exact toy_buffer_fits|].
    split; [exact (escape_rounds_keep_path 2)|].
    split; [exact toy_start_static_inv|exact toy_start_written_inv].
  - exact (proj1 (static_run_writes_once Toy.build_static (Toy.kdata 0 0)
                    Toy.params eq_refl toy_well_formed toy_buffer_fits
                    (ToyLanes.escape_rounds 2) (ToyRun.start Toy.build_static)
                    (escape_rounds_keep_path 2) toy_start_static_inv
                    toy_start_written_inv)).
Defined.

(** Three rounds end the static run on the two-pixel tile: slot 3 has
    written its samples 1, 3 and 5. *)
Lemma static_run_output_complete_witness :
  (WORK_STEALING Toy.build_static = false
   /\ well_formed Toy.params
   /\ buffer_fits (Toy.kdata 0 0) Toy.params
   /\ Forall (fun st => keeps_path st.2) (ToyLanes.escape_rounds 3)
   /\ static_inv Toy.params (ToyRun.start Toy.build_static)
   /\ written_inv (Toy.kdata 0 0) Toy.params (ToyRun.start Toy.build_static)
   /\ flushed_inv (Toy.kdata 0 0) Toy.params (ToyRun.start Toy.build_static)
   /\ all_inactive
        (run Toy.build_static (Toy.kdata 0 0) Toy.params
           (ToyLanes.escape_rounds 3) (ToyRun.start Toy.build_static)))
  /\ NoDup
       (fst <$> float4_writes
                  (trace (run Toy.build_static (Toy.kdata 0 0) Toy.params
                            (ToyLanes.escape_rounds 3)
                            (ToyRun.start Toy.build_static))))
  /\ forall j : Z,
       0 <= j ->
       static_first_sample Toy.params 3 + j * parallel_samples Toy.params
       < end_sample Toy.params ->
       (static_output_place (Toy.kdata 0 0) Toy.params 3,
        static_first_sample Toy.params 3 + j * parallel_samples Toy.params)
       ∈ fst <$> float4_writes
                   (trace (run Toy.build_static (Toy.kdata 0 0) Toy.params
                             (ToyLanes.escape_rounds 3)
                             (ToyRun.start Toy.build_static))).
Proof.
  assert (all_inactive
            (run Toy.build_static (Toy.kdata 0 0) Toy.params
               (ToyLanes.escape_rounds 3) (ToyRun.start Toy.build_static)))
    as Hall by (vm_compute; repeat constructor).
  assert (0 <= 3 < pool_size Toy.params) as H3
    by (split; [discriminate|reflexivity]).
  split.
  - split; [reflexivity|]. split; [exact toy_well_formed|].
    split; [exact toy_buffer_fits|].
    split; [exact (escape_rounds_keep_path 3)|].
    split; [exact toy_start_static_inv|].
    split; [exact toy_start_written_inv|].
    split; [exact toy_start_flushed_inv|exact Hall].
  - destruct (static_run_output_complete Toy.build_static (Toy.kdata 0 0)
                Toy.params eq_refl toy_well_formed toy_buffer_fits
                (ToyLanes.escape_rounds 3) (ToyRun.start Toy.build_static)
                (escape_rounds_keep_path 3) toy_start_static_inv
                toy_start_written_inv toy_start_flushed_inv Hall)
      as (Hnd & Hin).
    split; [exact Hnd|]. intros j Hj Hend.
    specialize (Hin 3 j H3 Hj). cbv zeta in Hin. exact (Hin Hend).
Defined.

(** A camera ray of a transparent background, the background pass
    wanted. *)
Lemma transparent_camera_shaded_for_background_pass_witness :
  (ray_state
     (lane_slot
        (Toy.enter Toy.build_static (Toy.kdata 1 65536) 1
           (Toy.slot0 RAY_HIT_BACKGROUND 1 1)))
   = RAY_HIT_BACKGROUND
   /\ transparent_camera (Toy.kdata 1 65536)
        (Toy.enter Toy.build_static (Toy.kdata 1 65536) 1
           (Toy.slot0 RAY_HIT_BACKGROUND 1 1)) = true
   /\ background_pass Toy.build_static (Toy.kdata 1 65536) = true
   /\ BACKGROUND Toy.build_static = true)
  /\ L_transparent
       (lane_slot
          (hit_background Toy.build_static (Toy.kdata 1 65536) 1
             (Toy.enter Toy.build_static (Toy.kdata 1 65536) 1
                (Toy.slot0 RAY_HIT_BACKGROUND 1 1))))
     = 3
  /\ path_radiance
       (lane_slot
          (hit_background Toy.build_static (Toy.kdata 1 65536) 1
             (Toy.enter Toy.build_static (Toy.kdata 1 65536) 1
                (Toy.slot0 RAY_HIT_BACKGROUND 1 1))))
     = Toy.v3 7 7 7.
Proof.
  split; [by repeat split|].
  destruct (transparent_camera_shaded_for_background_pass Toy.build_static
              (Toy.kdata 1 65536) 1
              (Toy.enter Toy.build_static (Toy.kdata 1 65536) 1
                 (Toy.slot0 RAY_HIT_BACKGROUND 1 1))
              eq_refl eq_refl eq_refl eq_refl) as (Ht & Hr & _).
  split; [exact Ht|exact Hr].
Defined.

End MoreExamples.
